(** * 13F holdings fetcher: a shallow embedding of [fetch_13f.py]

    The development follows the script function by function:
    [fetch_url], [get_latest_13f_url], [find_info_table_url],
    [parse_13f_xml], [process_fund], [find_cross_fund_overlap] and the
    loop of [main] up to the output it saves.

    Conventions.
    - A Python [str] and a Python [bytes] are both a [string]; a character is
      a code point below 256.  Case mapping is the ASCII one: no code point
      of that range maps to a letter of the ASCII needles the script looks
      for.
    - Exceptions are explicit: a function that can raise returns an
      [outcome]; functions that touch the network also thread the [trace]
      of what they did ([urlopen] calls and [time.sleep] delays).
    - The parsers and decoders of the standard library ([json.loads],
      [ET.fromstring], [gzip.decompress], [bytes.decode]), the network and
      the clock are the fields of an environment record [Env].
    - Console output is not modelled, except for the one f-string whose
      formatting can raise. *)

From Stdlib Require Import ZArith List String Ascii Bool Arith Lia.
From Stdlib Require Import Sorting.Sorted Sorting.Permutation.
Import ListNotations.

Set Warnings "-register-all".

Open Scope string_scope.
Open Scope Z_scope.

(* ================================================================= *)
(** ** Python strings *)

Module Py.

Definition ascii_in (lo hi : nat) (c : ascii) : bool :=
  let n := nat_of_ascii c in (Nat.leb lo n && Nat.leb n hi)%bool.

(** [str.lower] and [str.upper], character by character. *)
Definition lower_char (c : ascii) : ascii :=
  if ascii_in 65 90 c then ascii_of_nat (nat_of_ascii c + 32) else c.

Definition upper_char (c : ascii) : ascii :=
  if ascii_in 97 122 c then ascii_of_nat (nat_of_ascii c - 32) else c.

Fixpoint map_chars (f : ascii -> ascii) (s : string) : string :=
  match s with
  | EmptyString => EmptyString
  | String c r => String (f c) (map_chars f r)
  end.

Definition lower : string -> string := map_chars lower_char.
Definition upper : string -> string := map_chars upper_char.

(** [s.startswith(p)] *)
Fixpoint startswith (p s : string) : bool :=
  match p, s with
  | EmptyString, _ => true
  | String a p', String b s' => (Ascii.eqb a b && startswith p' s')%bool
  | String _ _, EmptyString => false
  end.

(** [s.find(sub)]: the index of the first occurrence, if any. *)
Fixpoint find (sub s : string) : option nat :=
  if startswith sub s then Some O
  else match s with
       | EmptyString => None
       | String _ r => option_map S (find sub r)
       end.

(** [sub in s] *)
Definition contains (sub s : string) : bool :=
  match find sub s with Some _ => true | None => false end.

(** [s[n:]] and [s[:n]] for a non-negative [n]. *)
Fixpoint drop (n : nat) (s : string) : string :=
  match n, s with
  | O, _ => s
  | S n', String _ r => drop n' r
  | S _, EmptyString => EmptyString
  end.

Fixpoint take (n : nat) (s : string) : string :=
  match n, s with
  | O, _ => EmptyString
  | S n', String c r => String c (take n' r)
  | S _, EmptyString => EmptyString
  end.

(** [s.endswith(suf)] *)
Definition endswith (suf s : string) : bool :=
  (Nat.leb (String.length suf) (String.length s)
   && String.eqb (drop (String.length s - String.length suf) s) suf)%bool.

(** Whitespace of [str.strip]: the code points below 256 for which
    [str.isspace] holds. *)
Definition is_space (c : ascii) : bool :=
  let n := nat_of_ascii c in
  (ascii_in 9 13 c || ascii_in 28 32 c || Nat.eqb n 133 || Nat.eqb n 160)%bool.

(** Whitespace that [int] accepts around a literal: the same without the
    four separators 28 to 31. *)
Definition is_int_space (c : ascii) : bool :=
  let n := nat_of_ascii c in
  (ascii_in 9 13 c || Nat.eqb n 32 || Nat.eqb n 133 || Nat.eqb n 160)%bool.

Fixpoint lstrip_of (space : ascii -> bool) (s : string) : string :=
  match s with
  | EmptyString => EmptyString
  | String c r => if space c then lstrip_of space r else s
  end.

Fixpoint rstrip_of (space : ascii -> bool) (s : string) : string :=
  match s with
  | EmptyString => EmptyString
  | String c r =>
      let r' := rstrip_of space r in
      if (space c && String.eqb r' EmptyString)%bool then EmptyString
      else String c r'
  end.

(** [s.strip()] *)
Definition strip (s : string) : string :=
  rstrip_of is_space (lstrip_of is_space s).

(** [s.replace(c, "")] for a one-character [c]. *)
Fixpoint remove_char (c : ascii) (s : string) : string :=
  match s with
  | EmptyString => EmptyString
  | String a r =>
      if Ascii.eqb a c then remove_char c r else String a (remove_char c r)
  end.

(** [s.split(c)] for a one-character [c], and [s.split(c)[-1]]. *)
Fixpoint split (c : ascii) (s : string) : list string :=
  match s with
  | EmptyString => [EmptyString]
  | String a r =>
      match split c r with
      | seg :: segs =>
          if Ascii.eqb a c then EmptyString :: seg :: segs
          else String a seg :: segs
      | [] => [String a EmptyString]
      end
  end.

Definition last_segment (c : ascii) (s : string) : string :=
  List.last (split c s) EmptyString.

Fixpoint zeros (n : nat) : string :=
  match n with O => EmptyString | S k => String "0" (zeros k) end.

(** [s.zfill(width)]: zeros go after a leading sign. *)
Definition zfill (width : nat) (s : string) : string :=
  let pad := zeros (width - String.length s) in
  match s with
  | String c r =>
      if (Ascii.eqb c "+" || Ascii.eqb c "-")%bool
      then String c (pad ++ r) else pad ++ s
  | EmptyString => pad
  end.

(** Truthiness of a [str]. *)
Definition truthy (s : string) : bool := negb (String.eqb s EmptyString).

(** *** [int(text)]

    Surrounding whitespace, an optional sign, then decimal digits in which
    single underscores may separate digits; more digits than
    [int_max_str_digits], the interpreter's default limit, are refused.
    [None] is [ValueError]. *)
Definition digit_of (c : ascii) : option Z :=
  if ascii_in 48 57 c then Some (Z.of_nat (nat_of_ascii c - 48)) else None.

Definition int_max_str_digits : nat := 4300.

Fixpoint int_digits (s : string) (acc : Z) (after_digit : bool) (count : nat)
  : option Z :=
  match s with
  | EmptyString =>
      if (after_digit && Nat.leb count int_max_str_digits)%bool
      then Some acc else None
  | String c r =>
      match digit_of c with
      | Some d => int_digits r (10 * acc + d) true (S count)
      | None =>
          if (Ascii.eqb c "_" && after_digit)%bool
          then int_digits r acc false count else None
      end
  end.

Definition int_of_string (text : string) : option Z :=
  match rstrip_of is_int_space (lstrip_of is_int_space text) with
  | String "-" r => option_map Z.opp (int_digits r 0 false 0)
  | String "+" r => int_digits r 0 false 0
  | t => int_digits t 0 false 0
  end.

End Py.


(* ================================================================= *)
(** ** Exceptions, outcomes and the effect monad *)

Inductive exn_class : Type :=
| HTTPError (code : Z)
| OtherError          (* anything else [urlopen], [read] or [gzip] raise *)
| JSONDecodeError
| ParseError
| AttributeError
| TypeError
| IndexError
| KeyError
| ValueError
| OverflowError.

(** An exception with the text [str(e)] gives.  The texts the interpreter
    produces are abbreviated here; like the real ones they are never empty. *)
Record exn : Type := Exn { exn_class_of : exn_class; exn_str : string }.

Inductive outcome (A : Type) : Type :=
| Ret (a : A)
| Raise (e : exn).
Arguments Ret {A} a.
Arguments Raise {A} e.

Definition obind {A B} (o : outcome A) (k : A -> outcome B) : outcome B :=
  match o with
  | Ret a => k a
  | Raise e => Raise e
  end.

(** What a run leaves behind: each [urlopen] call and each [time.sleep],
    oldest first.  Delays are in milliseconds. *)
Inductive event : Type :=
| EvOpen (url : string)
| EvSleep (ms : Z).

Definition trace : Type := list event.

(** Computations over a state [S] that may raise. *)
Definition M (S A : Type) : Type := S -> outcome A * S.

Definition ret {S A} (a : A) : M S A := fun s => (Ret a, s).

Definition bind {S A B} (m : M S A) (k : A -> M S B) : M S B :=
  fun s =>
    match m s with
    | (Ret a, s') => k a s'
    | (Raise e, s') => (Raise e, s')
    end.

(** [try: m / except Exception as e: h e] *)
Definition try_except {S A} (m : M S A) (h : exn -> M S A) : M S A :=
  fun s =>
    match m s with
    | (Ret a, s') => (Ret a, s')
    | (Raise e, s') => h e s'
    end.

Definition lift {S A} (o : outcome A) : M S A := fun s => (o, s).

Definition emit (ev : event) : M trace unit :=
  fun t => (Ret tt, (t ++ [ev])%list).

(** [time.sleep] *)
Definition sleep (ms : Z) : M trace unit := emit (EvSleep ms).

Declare Scope py_scope.
Delimit Scope py_scope with py.
Notation "x <- m ;; k" := (bind m (fun x => k))
  (at level 61, m at next level, right associativity) : py_scope.
Notation "m ;;; k" := (bind m (fun _ => k))
  (at level 61, right associativity) : py_scope.
Open Scope py_scope.

(* ================================================================= *)
(** ** JSON values, as [json.loads] builds them *)

Inductive json : Type :=
| JNull
| JBool (b : bool)
| JInt (n : Z)
| JFloat (literal : string)
| JStr (s : string)
| JArr (items : list json)
| JObj (members : list (string * json)).   (* keys distinct, insertion order *)

Fixpoint assoc {V} (key : string) (m : list (string * V)) : option V :=
  match m with
  | [] => None
  | (k, v) :: rest => if String.eqb k key then Some v else assoc key rest
  end.

(** [d.get(key, default)] *)
Definition py_get (d : json) (key : string) (default : json) : outcome json :=
  match d with
  | JObj m => Ret (match assoc key m with Some v => v | None => default end)
  | _ => Raise (Exn AttributeError "object has no attribute 'get'")
  end.

Fixpoint chars (s : string) : list json :=
  match s with
  | EmptyString => []
  | String c r => JStr (String c EmptyString) :: chars r
  end.

(** What [for x in v] iterates over. *)
Definition py_iter (v : json) : outcome (list json) :=
  match v with
  | JArr l => Ret l
  | JObj m => Ret (map (fun kv => JStr (fst kv)) m)
  | JStr s => Ret (chars s)
  | _ => Raise (Exn TypeError "object is not iterable")
  end.

(** [v[i]] for a non-negative integer [i]. *)
Definition py_item (v : json) (i : nat) : outcome json :=
  match v with
  | JArr l =>
      match nth_error l i with
      | Some x => Ret x
      | None => Raise (Exn IndexError "list index out of range")
      end
  | JStr s =>
      match nth_error (chars s) i with
      | Some x => Ret x
      | None => Raise (Exn IndexError "string index out of range")
      end
  | JObj _ => Raise (Exn KeyError "key")
  | _ => Raise (Exn TypeError "object is not subscriptable")
  end.

(** [len(v)] *)
Definition py_len (v : json) : outcome nat :=
  match v with
  | JArr l => Ret (List.length l)
  | JStr s => Ret (String.length s)
  | JObj m => Ret (List.length m)
  | _ => Raise (Exn TypeError "object has no len()")
  end.

(** [v == s] for a string literal [s]. *)
Definition json_is (s : string) (v : json) : bool :=
  match v with
  | JStr t => String.eqb t s
  | _ => false
  end.

(** [str.lower], [str.replace] and the like on a value that is not a [str]
    raise [AttributeError]. *)
Definition as_str (v : json) : outcome string :=
  match v with
  | JStr s => Ret s
  | _ => Raise (Exn AttributeError "object has no such str attribute")
  end.

(* ================================================================= *)
(** ** XML element trees, as [xml.etree.ElementTree] builds them *)

(** The tag is in Clark notation: [{uri}local], or [local] alone. *)
Inductive element : Type :=
| Element (tag : string) (text : option string) (children : list element).

Definition tag_of (e : element) : string :=
  match e with Element t _ _ => t end.
Definition text_of (e : element) : option string :=
  match e with Element _ x _ => x end.
Definition children_of (e : element) : list element :=
  match e with Element _ _ cs => cs end.

(* ================================================================= *)
(** ** The environment *)

Inductive response : Type :=
| RespData (data : string)                (* [resp.read()] returned *)
| RespHTTPError (code : Z) (msg : string) (* [urlopen] raised [HTTPError] *)
| RespError (msg : string).               (* anything else was raised *)

Record Env : Type := {
  (** [urlopen(Request(url, headers=HEADERS), timeout=30)] then [read()];
      the answer may depend on everything done so far. *)
  urlopen : trace -> string -> response;
  (** [datetime.now(timezone.utc).isoformat()] *)
  utcnow_iso : trace -> string;
  (** [gzip.decompress]; [inl] is the text of the exception. *)
  gzip_decompress : string -> string + string;
  (** [json.loads] *)
  json_loads : string -> string + json;
  (** [ET.fromstring] of [bytes] and of [str] *)
  xml_fromstring : string -> string + element;
  xml_fromstring_str : string -> string + element;
  (** [data.decode("utf-8", errors="ignore")] *)
  decode_utf8_ignore : string -> string
}.

Notation "x <~ o ;; k" := (obind o (fun x => k))
  (at level 61, o at next level, right associativity) : py_scope.

(** [range(n)] *)
Definition py_range (n : Z) : list Z :=
  map Z.of_nat (seq 0 (Z.to_nat n)).

Section Pipeline.

Variable E : Env.

(* ================================================================= *)
(** ** Transport: [fetch_url] *)

(** The two bytes [0x1f 0x8b] that open a gzip stream. *)
Definition gzip_magic : string :=
  String (ascii_of_nat 31) (String (ascii_of_nat 139) EmptyString).

(** The body of the [try]: open, read, decompress when the magic is there. *)
Definition read_response (t : trace) (url : string) : outcome string :=
  match urlopen E t url with
  | RespData data =>
      if String.eqb (Py.take 2 data) gzip_magic then
        match gzip_decompress E data with
        | inr plain => Ret plain
        | inl msg => Raise (Exn OtherError msg)
        end
      else Ret data
  | RespHTTPError code msg => Raise (Exn (HTTPError code) msg)
  | RespError msg => Raise (Exn OtherError msg)
  end.

(** The [for attempt in range(max_retries)] loop, on the attempts left. *)
Fixpoint fetch_attempts (url : string) (max_retries : Z) (attempts : list Z)
  : M trace string :=
  match attempts with
  | [] => ret EmptyString                      (* [return b""] *)
  | attempt :: rest =>
      fun t =>
        let t1 := (t ++ [EvOpen url])%list in
        match read_response t url with
        | Ret data => (Ret data, t1)
        | Raise e =>
            match exn_class_of e with
            | HTTPError code =>
                if code =? 429 then
                  (sleep (1000 * (12 * (attempt + 1))) ;;;
                   fetch_attempts url max_retries rest) t1
                else (Raise e, t1)
            | _ =>
                if attempt <? max_retries - 1 then
                  (sleep 5000 ;;; fetch_attempts url max_retries rest) t1
                else (Raise e, t1)
            end
        end
  end.

Definition fetch_url (url : string) (max_retries : Z) : M trace string :=
  fetch_attempts url max_retries (py_range max_retries).

(** The default of the [max_retries] parameter; no caller passes another. *)
Definition default_max_retries : Z := 3.

(* ================================================================= *)
(** ** FilingLocator: [get_latest_13f_url] *)

Definition loads (body : string) : outcome json :=
  match json_loads E body with
  | inr v => Ret v
  | inl msg => Raise (Exn JSONDecodeError msg)
  end.

(** [form in ("13F-HR", "13F-HR/A")] *)
Definition is_13f (form : json) : bool :=
  (json_is "13F-HR" form || json_is "13F-HR/A" form)%bool.

(** [report_dates[i] if i < len(report_dates) else dates[i]] *)
Definition period_at (report_dates dates : json) (i : nat) : outcome json :=
  n <~ py_len report_dates ;;
  if Nat.ltb i n then py_item report_dates i else py_item dates i.

(** The [for i, form in enumerate(forms)] loop, from index [i] on. *)
Fixpoint scan_forms (accessions dates report_dates : json) (i : nat)
  (forms : list json) : outcome (string * json * string) :=
  match forms with
  | [] => Ret (EmptyString, JStr EmptyString, EmptyString)
  | form :: rest =>
      if is_13f form then
        acc <~ py_item accessions i ;;
        accession_formatted <~ as_str acc ;;
        let accession_raw := Py.remove_char "-" accession_formatted in
        period <~ period_at report_dates dates i ;;
        Ret (accession_raw, period, accession_formatted)
      else scan_forms accessions dates report_dates (S i) rest
  end.

Definition submissions_url (cik : string) : string :=
  "https://data.sec.gov/submissions/CIK" ++ Py.zfill 10 cik ++ ".json".

(** The four parallel arrays of the filing history, with the defaults of
    the [.get] calls. *)
Definition recent_arrays (data : json)
  : outcome (json * json * json * json) :=
  filings <~ py_get data "filings" (JObj []) ;;
  recent <~ py_get filings "recent" (JObj []) ;;
  forms <~ py_get recent "form" (JArr []) ;;
  accessions <~ py_get recent "accessionNumber" (JArr []) ;;
  dates <~ py_get recent "filingDate" (JArr []) ;;
  report_dates <~ py_get recent "reportDate" (JArr []) ;;
  Ret (forms, accessions, dates, report_dates).

(** What follows [json.loads] in [get_latest_13f_url]. *)
Definition latest_13f_in (data : json) : outcome (string * json * string) :=
  arrays <~ recent_arrays data ;;
  match arrays with
  | (forms, accessions, dates, report_dates) =>
      items <~ py_iter forms ;;
      scan_forms accessions dates report_dates 0 items
  end.

Definition get_latest_13f_url (cik : string)
  : M trace (string * json * string) :=
  body <- fetch_url (submissions_url cik) default_max_retries ;;
  lift (data <~ loads body ;; latest_13f_in data).

(* ================================================================= *)
(** ** ResourceResolver: [find_info_table_url] *)

Definition base_url_of (cik accession_raw : string) : string :=
  "https://www.sec.gov/Archives/edgar/data/" ++ cik ++ "/"
    ++ accession_raw ++ "/".

Definition index_json_url (cik accession_raw accession_formatted : string)
  : string :=
  base_url_of cik accession_raw ++ accession_formatted ++ "-index.json".

Definition index_html_url (cik accession_raw accession_formatted : string)
  : string :=
  base_url_of cik accession_raw ++ accession_formatted ++ "-index.htm".

(** One pass over the directory items: the first name whose lowercased
    form satisfies [wanted]. *)
Fixpoint first_named (wanted : string -> bool) (items : list json)
  : outcome (option string) :=
  match items with
  | [] => Ret None
  | item :: rest =>
      name_v <~ py_get item "name" (JStr EmptyString) ;;
      name <~ as_str name_v ;;
      if wanted (Py.lower name) then Ret (Some name)
      else first_named wanted rest
  end.

Definition is_infotable_xml (name_lower : string) : bool :=
  (Py.endswith ".xml" name_lower && Py.contains "infotable" name_lower)%bool.

Definition is_other_xml (name_lower : string) : bool :=
  (Py.endswith ".xml" name_lower
   && negb (Py.contains "primary" name_lower))%bool.

(** Method 1, the whole [try] block: [None] when it leaves no URL, be it
    by an exception or by falling off the two loops. *)
Definition index_json_method (cik accession_raw accession_formatted : string)
  : M trace (option string) :=
  try_except
    (body <- fetch_url
               (index_json_url cik accession_raw accession_formatted)
               default_max_retries ;;
     lift (data <~ loads body ;;
           let base_url := base_url_of cik accession_raw in
           directory <~ py_get data "directory" (JObj []) ;;
           item <~ py_get directory "item" (JArr []) ;;
           items <~ py_iter item ;;
           found <~ first_named is_infotable_xml items ;;
           match found with
           | Some name => Ret (Some (base_url ++ name))
           | None =>
               found' <~ first_named is_other_xml items ;;
               Ret (option_map (String.append base_url) found')
           end))
    (fun _ => ret None).

(** [link if link.startswith("http") else base_url + link.split("/")[-1]] *)
Definition link_target (base_url link : string) : string :=
  if Py.startswith "http" link then link
  else base_url ++ Py.last_segment "/" link.

Definition names_table (link : string) : bool :=
  (Py.contains "infotable" (Py.lower link)
   || Py.contains "information" (Py.lower link))%bool.

(** The double quote, and the literal head of the pattern. *)
Definition quote : string := String (ascii_of_nat 34) EmptyString.

Definition href_open : string := "href=" ++ quote.

(** [re.findall] with the pattern of the script and [re.IGNORECASE], from
    left to right: at a position that reads [href=] and a quote, whatever
    case, the text up to the next quote is a match when it ends in [.xml],
    whatever case, and the search goes on after that quote; anywhere else
    it goes on one character further.  [skip] counts the characters of a
    match still to be passed. *)
Fixpoint findall_href_xml_from (skip : nat) (s : string) : list string :=
  match s with
  | EmptyString => []
  | String _ r =>
      match skip with
      | S k => findall_href_xml_from k r
      | O =>
          if Py.startswith href_open (Py.lower (Py.take 6 s)) then
            let body := Py.drop 6 s in
            match Py.find quote body with
            | Some q =>
                let target := Py.take q body in
                if Py.endswith ".xml" (Py.lower target)
                then target :: findall_href_xml_from (6 + q) r
                else findall_href_xml_from 0 r
            | None => findall_href_xml_from 0 r
            end
          else findall_href_xml_from 0 r
      end
  end.

Definition findall_href_xml (html : string) : list string :=
  findall_href_xml_from 0 html.

(** Method 2, the whole [try] block. *)
Definition index_html_method (cik accession_raw accession_formatted : string)
  : M trace (option string) :=
  try_except
    (body <- fetch_url
               (index_html_url cik accession_raw accession_formatted)
               default_max_retries ;;
     let html := decode_utf8_ignore E body in
     let base_url := base_url_of cik accession_raw in
     let links := findall_href_xml html in
     match List.find names_table links with
     | Some link => ret (Some (link_target base_url link))
     | None =>
         if Py.contains "INFORMATION TABLE" (Py.upper html) then
           match List.find (fun link => is_other_xml (Py.lower link)) links with
           | Some link => ret (Some (link_target base_url link))
           | None => ret None
           end
         else ret None
     end)
    (fun _ => ret None).

Definition common_names : list string :=
  [ "form13fInfoTable.xml";
    "infotable.xml";
    "InfoTable.xml";
    "INFOTABLE.XML";
    "information_table.xml";
    "xslForm13F_X02.xml" ].

(** Method 3: the [for name in common_names] loop. *)
Fixpoint probe_names (base_url : string) (names : list string)
  : M trace string :=
  match names with
  | [] => ret EmptyString
  | name :: rest =>
      let test_url := base_url ++ name in
      try_except
        (fetch_url test_url default_max_retries ;;; ret test_url)
        (fun _ => probe_names base_url rest)
  end.

Definition find_info_table_url (cik accession_raw accession_formatted : string)
  : M trace string :=
  via_json <- index_json_method cik accession_raw accession_formatted ;;
  match via_json with
  | Some url => ret url
  | None =>
      via_html <- index_html_method cik accession_raw accession_formatted ;;
      match via_html with
      | Some url => ret url
      | None => probe_names (base_url_of cik accession_raw) common_names
      end
  end.

(* ================================================================= *)
(** ** HoldingsParser: [parse_13f_xml] *)

(** The [weight] entry of a holding: the integer [0], or the float
    [round(value / total * 100, 2)], kept as the two integers it is
    computed from. *)
Inductive weight : Type :=
| WZero
| WPct (value total : Z).

(** A holding is a [dict]; the parser leaves [weight] out. *)
Record holding : Type := {
  h_name : string;
  h_title : string;
  h_cusip : string;
  h_value : Z;
  h_shares : Z;
  h_type : string;
  h_discretion : string;
  h_weight : option weight
}.

(** [elem.iter()] without [elem] itself: the descendants in document
    order. *)
Fixpoint descendants (e : element) : list element :=
  match e with
  | Element _ _ cs => flat_map (fun c => c :: descendants c) cs
  end.

(** [root.findall(".//" + tag)].  Here and in [find] and [findtext] a tag
    is matched by equality; the wildcard forms of ElementPath, [{*}name]
    and [{}name], would need a document whose namespace URI is [*] or
    empty and are left out. *)
Definition findall (root : element) (tag : string) : list element :=
  filter (fun e => String.eqb (tag_of e) tag) (descendants root).

(** [elem.find(tag)]: the first child with that tag. *)
Definition find_child (e : element) (tag : string) : option element :=
  List.find (fun c => String.eqb (tag_of c) tag) (children_of e).

(** [elem.findtext(tag)]: [None] without such a child, and the empty
    string for a child without text. *)
Definition findtext (e : element) (tag : string) : option string :=
  match find_child e tag with
  | Some c => Some (match text_of c with Some x => x | None => EmptyString end)
  | None => None
  end.

(** [elem.findtext(tag, default)] *)
Definition findtext_or (e : element) (tag default : string) : string :=
  match findtext e tag with
  | Some x => x
  | None => default
  end.

Definition ns_patterns : list string :=
  [ "{http://www.sec.gov/edgar/document/thirteenf/informationtable}";
    "{http://www.sec.gov/edgar/thirteenf}";
    "{http://www.sec.gov/edgar/common/informationtable}";
    "" ].

(** The candidate list once the namespace of the root tag is looked at. *)
Definition ns_patterns_for (root_tag : string) : outcome (list string) :=
  if Py.contains "{" root_tag then
    match Py.find "}" root_tag with
    | Some k =>
        let auto_ns := Py.take (k + 1) root_tag in
        if existsb (String.eqb auto_ns) ns_patterns then Ret ns_patterns
        else Ret (auto_ns :: ns_patterns)
    | None => Raise (Exn ValueError "substring not found")
    end
  else Ret ns_patterns.

(** The [for ns in ns_patterns] loop that looks for [infoTable] entries. *)
Fixpoint find_info_tables (root : element) (patterns : list string)
  : list element :=
  match patterns with
  | [] => []
  | ns :: rest =>
      match findall root (ns ++ "infoTable") with
      | [] => find_info_tables root rest
      | found => found
      end
  end.

Definition py_int (text : string) : outcome Z :=
  match Py.int_of_string text with
  | Some n => Ret n
  | None => Raise (Exn ValueError "invalid literal for int() with base 10")
  end.

(** The fields of one entry, read with the namespace that gave its name. *)
Definition read_fields (ns : string) (entry : element) (name : string)
  : outcome holding :=
  let title := Py.strip (findtext_or entry (ns ++ "titleOfClass") "COM") in
  let cusip := Py.strip (findtext_or entry (ns ++ "cusip") "") in
  let val_text := findtext_or entry (ns ++ "value") "0" in
  value <~ py_int val_text ;;
  shares_and_type <~
    match find_child entry (ns ++ "shrsOrPrnAmt") with
    | Some shares_node =>
        shares <~ py_int (findtext_or shares_node (ns ++ "sshPrnamt") "0") ;;
        Ret (shares, findtext_or shares_node (ns ++ "sshPrnamtType") "SH")
    | None => Ret (0, "SH")
    end ;;
  Ret {| h_name := Py.strip name;
         h_title := title;
         h_cusip := cusip;
         h_value := value * 1000;
         h_shares := fst shares_and_type;
         h_type := snd shares_and_type;
         h_discretion :=
           Py.strip (findtext_or entry (ns ++ "investmentDiscretion") "SOLE");
         h_weight := None |}.

(** The inner [for ns in ns_patterns] loop: [None] is the [holding] left
    empty. *)
Fixpoint parse_entry (patterns : list string) (entry : element)
  : outcome (option holding) :=
  match patterns with
  | [] => Ret None
  | ns :: rest =>
      match findtext entry (ns ++ "nameOfIssuer") with
      | Some name =>
          if Py.truthy name then
            h <~ read_fields ns entry name ;; Ret (Some h)
          else parse_entry rest entry
      | None => parse_entry rest entry
      end
  end.

(** [if holding.get("name"): holdings.append(holding)] *)
Definition keep (parsed : option holding) (holdings : list holding)
  : list holding :=
  match parsed with
  | Some h => if Py.truthy (h_name h) then (holdings ++ [h])%list else holdings
  | None => holdings
  end.

(** The [for entry in info_tables] loop. *)
Fixpoint parse_entries (patterns : list string) (entries : list element)
  (holdings : list holding) : outcome (list holding) :=
  match entries with
  | [] => Ret holdings
  | entry :: rest =>
      parsed <~ parse_entry patterns entry ;;
      parse_entries patterns rest (keep parsed holdings)
  end.

(** Everything after the document is parsed into a tree. *)
Definition parse_root (root : element) : outcome (list holding) :=
  patterns <~ ns_patterns_for (tag_of root) ;;
  parse_entries patterns (find_info_tables root patterns) [].

Definition fromstring_bytes (xml_data : string) : outcome element :=
  match xml_fromstring E xml_data with
  | inr root => Ret root
  | inl msg => Raise (Exn ParseError msg)
  end.

Definition fromstring_str (text : string) : outcome element :=
  match xml_fromstring_str E text with
  | inr root => Ret root
  | inl msg => Raise (Exn ParseError msg)
  end.

Definition parse_13f_xml (xml_data : string) : outcome (list holding) :=
  root <~
    match fromstring_bytes xml_data with
    | Ret root => Ret root
    | Raise _ =>
        let text := decode_utf8_ignore E xml_data in
        text' <~
          (if Py.contains "<?xml" text then
             match Py.find "?>" text with
             | Some k => Ret (Py.drop (k + 2) text)
             | None => Raise (Exn ValueError "substring not found")
             end
           else Ret text) ;;
        fromstring_str text'
    end ;;
  parse_root root.

(* ================================================================= *)
(** ** Sorting

    [list.sort] is stable, with [reverse=True] too; so is insertion from
    the right. *)

Fixpoint insert_by {A} (le : A -> A -> bool) (x : A) (l : list A) : list A :=
  match l with
  | [] => [x]
  | y :: r => if le x y then x :: l else y :: insert_by le x r
  end.

Definition stable_sort {A} (le : A -> A -> bool) (l : list A) : list A :=
  fold_right (insert_by le) [] l.

(* ================================================================= *)
(** ** EntityProcessor: [process_fund] *)

(** An entry of [FUNDS]. *)
Record fund_info : Type := {
  fi_name : string;
  fi_manager : string;
  fi_group : string;
  fi_tag : string;
  fi_emoji : string;
  fi_strategy : string;
  fi_return_2025 : option string   (* [None] or the literal of a float *)
}.

(** The [result] dict; the seven entries copied from the registry are kept
    together in [r_info]. *)
Record fund_result : Type := {
  r_cik : string;
  r_info : fund_info;
  r_period : json;
  r_total_value : Z;
  r_num_holdings : Z;
  r_top_holdings : list holding;
  r_all_holdings : list holding;
  r_fetched_at : string;
  r_error : option string
}.

Definition set_period (v : json) (r : fund_result) : fund_result :=
  {| r_cik := r_cik r; r_info := r_info r; r_period := v;
     r_total_value := r_total_value r; r_num_holdings := r_num_holdings r;
     r_top_holdings := r_top_holdings r; r_all_holdings := r_all_holdings r;
     r_fetched_at := r_fetched_at r; r_error := r_error r |}.

Definition set_total_value (v : Z) (r : fund_result) : fund_result :=
  {| r_cik := r_cik r; r_info := r_info r; r_period := r_period r;
     r_total_value := v; r_num_holdings := r_num_holdings r;
     r_top_holdings := r_top_holdings r; r_all_holdings := r_all_holdings r;
     r_fetched_at := r_fetched_at r; r_error := r_error r |}.

Definition set_num_holdings (v : Z) (r : fund_result) : fund_result :=
  {| r_cik := r_cik r; r_info := r_info r; r_period := r_period r;
     r_total_value := r_total_value r; r_num_holdings := v;
     r_top_holdings := r_top_holdings r; r_all_holdings := r_all_holdings r;
     r_fetched_at := r_fetched_at r; r_error := r_error r |}.

Definition set_top_holdings (v : list holding) (r : fund_result)
  : fund_result :=
  {| r_cik := r_cik r; r_info := r_info r; r_period := r_period r;
     r_total_value := r_total_value r; r_num_holdings := r_num_holdings r;
     r_top_holdings := v; r_all_holdings := r_all_holdings r;
     r_fetched_at := r_fetched_at r; r_error := r_error r |}.

Definition set_all_holdings (v : list holding) (r : fund_result)
  : fund_result :=
  {| r_cik := r_cik r; r_info := r_info r; r_period := r_period r;
     r_total_value := r_total_value r; r_num_holdings := r_num_holdings r;
     r_top_holdings := r_top_holdings r; r_all_holdings := v;
     r_fetched_at := r_fetched_at r; r_error := r_error r |}.

Definition set_error (v : string) (r : fund_result) : fund_result :=
  {| r_cik := r_cik r; r_info := r_info r; r_period := r_period r;
     r_total_value := r_total_value r; r_num_holdings := r_num_holdings r;
     r_top_holdings := r_top_holdings r; r_all_holdings := r_all_holdings r;
     r_fetched_at := r_fetched_at r; r_error := Some v |}.

Definition set_weight (w : weight) (h : holding) : holding :=
  {| h_name := h_name h; h_title := h_title h; h_cusip := h_cusip h;
     h_value := h_value h; h_shares := h_shares h; h_type := h_type h;
     h_discretion := h_discretion h; h_weight := Some w |}.

(** The least magnitude that no longer rounds to a finite double:
    [2^1024 - 2^970].  [int / int] and the conversion of an [int] to
    [float] raise [OverflowError] from there on. *)
Definition float_limit : Z := 2 ^ 1024 - 2 ^ 970.

Definition true_div_overflows (a b : Z) : bool :=
  float_limit * Z.abs b <=? Z.abs a.

Definition float_overflows (n : Z) : bool := float_limit <=? Z.abs n.

(** [h["weight"] = round(h["value"] / total_value * 100, 2)
                    if total_value > 0 else 0] *)
Definition weigh (total_value : Z) (h : holding) : outcome holding :=
  if 0 <? total_value then
    if true_div_overflows (h_value h) total_value then
      Raise (Exn OverflowError "integer division result too large for a float")
    else Ret (set_weight (WPct (h_value h) total_value) h)
  else Ret (set_weight WZero h).

(** The [for h in holdings] loop that adds the weights. *)
Fixpoint add_weights (total_value : Z) (holdings : list holding)
  : outcome (list holding) :=
  match holdings with
  | [] => Ret []
  | h :: rest =>
      h' <~ weigh total_value h ;;
      rest' <~ add_weights total_value rest ;;
      Ret (h' :: rest')
  end.

(** The format [{total_value:,.0f}] of the closing [print] turns the
    integer into a float first. *)
Definition format_total (total_value : Z) : outcome unit :=
  if float_overflows total_value then
    Raise (Exn OverflowError "int too large to convert to float")
  else Ret tt.

(** [sum(h["value"] for h in holdings)] *)
Definition sum_values (holdings : list holding) : Z :=
  fold_left (fun acc h => acc + h_value h) holdings 0.

(** [key=lambda x: x["value"], reverse=True] *)
Definition by_value_desc (a b : holding) : bool := h_value b <=? h_value a.

Definition on_trace {A} (m : M trace A) : M (trace * fund_result) A :=
  fun s =>
    match m (fst s) with
    | (o, t') => (o, (t', snd s))
    end.

Definition update (f : fund_result -> fund_result)
  : M (trace * fund_result) unit :=
  fun s => (Ret tt, (fst s, f (snd s))).

(** The body of the [try] in [process_fund]; [result] is the second half
    of the state. *)
Definition process_steps (cik : string) (info : fund_info)
  : M (trace * fund_result) unit :=
  located <- on_trace (get_latest_13f_url cik) ;;
  let accession_raw := fst (fst located) in
  let period := snd (fst located) in
  let accession_formatted := snd located in
  if negb (Py.truthy accession_raw) then
    update (set_error "No 13F filing found")
  else
    update (set_period period) ;;;
    on_trace (sleep 150) ;;;
    xml_url <- on_trace
                 (find_info_table_url cik accession_raw accession_formatted) ;;
    if negb (Py.truthy xml_url) then
      update (set_error "Could not find information table XML")
    else
      on_trace (sleep 150) ;;;
      xml_data <- on_trace (fetch_url xml_url default_max_retries) ;;
      holdings <- lift (parse_13f_xml xml_data) ;;
      match holdings with
      | [] => update (set_error "No holdings parsed from XML")
      | _ :: _ =>
          let total_value := sum_values holdings in
          update (set_total_value total_value) ;;;
          update (set_num_holdings (Z.of_nat (List.length holdings))) ;;;
          let sorted := stable_sort by_value_desc holdings in
          weighted <- lift (add_weights total_value sorted) ;;
          update (set_top_holdings (firstn 20 weighted)) ;;;
          (if String.eqb (fi_group info) "C"
           then update (set_top_holdings (firstn 10 weighted))
           else ret tt) ;;;
          update (set_all_holdings (firstn 50 weighted)) ;;;
          lift (format_total total_value)
      end.

Definition initial_result (cik : string) (info : fund_info) (now : string)
  : fund_result :=
  {| r_cik := cik; r_info := info; r_period := JStr EmptyString;
     r_total_value := 0; r_num_holdings := 0;
     r_top_holdings := []; r_all_holdings := [];
     r_fetched_at := now; r_error := None |}.

Definition process_fund (cik : string) (info : fund_info)
  : M trace fund_result :=
  fun t =>
    let result := initial_result cik info (utcnow_iso E t) in
    match try_except (process_steps cik info)
                     (fun e => update (set_error (exn_str e)))
                     (t, result) with
    | (Ret _, (t', result')) => (Ret result', t')
    | (Raise e, (t', _)) => (Raise e, t')
    end.

End Pipeline.

(* ================================================================= *)
(** ** OverlapAnalyzer: [find_cross_fund_overlap] *)

(** An entry of a stock's [funds] list. *)
Record holder : Type := {
  hd_fund : string;
  hd_manager : string;
  hd_value : Z;
  hd_shares : Z;
  hd_weight : weight
}.

(** A value of [stock_funds]; [fund_count] and [fund_names] are added to
    the ones that are kept. *)
Record stock : Type := {
  s_name : string;
  s_cusip : string;
  s_funds : list holder;
  s_total_value : Z;
  s_fund_count : option Z;
  s_fund_names : option (list string)
}.

Definition new_stock (name cusip : string) : stock :=
  {| s_name := name; s_cusip := cusip; s_funds := []; s_total_value := 0;
     s_fund_count := None; s_fund_names := None |}.

(** [funds.append(entry)] and [total_value += value] *)
Definition add_holder (entry : holder) (value : Z) (v : stock) : stock :=
  {| s_name := s_name v; s_cusip := s_cusip v;
     s_funds := (s_funds v ++ [entry])%list;
     s_total_value := s_total_value v + value;
     s_fund_count := s_fund_count v; s_fund_names := s_fund_names v |}.

Definition counted (v : stock) : stock :=
  {| s_name := s_name v; s_cusip := s_cusip v; s_funds := s_funds v;
     s_total_value := s_total_value v;
     s_fund_count := Some (Z.of_nat (List.length (s_funds v)));
     s_fund_names := Some (map hd_fund (s_funds v)) |}.

(** [stock_funds] is a [dict]: keys in insertion order. *)
Definition stock_map : Type := list (string * stock).

Fixpoint adjust (key : string) (f : stock -> stock) (m : stock_map)
  : stock_map :=
  match m with
  | [] => []
  | (k, v) :: rest =>
      if String.eqb k key then (k, f v) :: rest
      else (k, v) :: adjust key f rest
  end.

Definition holder_entry (fund : fund_result) (h : holding) : holder :=
  {| hd_fund := fi_name (r_info fund);
     hd_manager := fi_manager (r_info fund);
     hd_value := h_value h;
     hd_shares := h_shares h;
     hd_weight := match h_weight h with Some w => w | None => WZero end |}.

(** The body of [for h in fund.get("all_holdings", [])]. *)
Definition note_holding (fund : fund_result) (stock_funds : stock_map)
  (h : holding) : stock_map :=
  let cusip := h_cusip h in
  if negb (Py.truthy cusip) then stock_funds
  else
    let stock_funds' :=
      match assoc cusip stock_funds with
      | Some _ => stock_funds
      | None => (stock_funds ++ [(cusip, new_stock (h_name h) cusip)])%list
      end in
    adjust cusip (add_holder (holder_entry fund h) (h_value h)) stock_funds'.

(** [fund.get("error")] as a condition. *)
Definition has_error (fund : fund_result) : bool :=
  match r_error fund with
  | Some msg => Py.truthy msg
  | None => false
  end.

(** The body of [for fund in all_funds]. *)
Definition note_fund (stock_funds : stock_map) (fund : fund_result)
  : stock_map :=
  if has_error fund then stock_funds
  else fold_left (note_holding fund) (r_all_holdings fund) stock_funds.

(** [len(v["funds"]) >= 2] *)
Definition shared (v : stock) : bool :=
  2 <=? Z.of_nat (List.length (s_funds v)).

(** The tuple [(-x["fund_count"], -x["total_value"])] and its order. *)
Definition overlap_key (v : stock) : Z * Z :=
  (- match s_fund_count v with Some n => n | None => 0 end,
   - s_total_value v).

Definition tuple_le (a b : Z * Z) : bool :=
  ((fst a <? fst b) || ((fst a =? fst b) && (snd a <=? snd b)))%bool.

Definition by_overlap_key (a b : stock) : bool :=
  tuple_le (overlap_key a) (overlap_key b).

Definition find_cross_fund_overlap (all_funds : list fund_result)
  : list stock :=
  let stock_funds := fold_left note_fund all_funds [] in
  let overlaps := map counted (filter shared (map snd stock_funds)) in
  firstn 30 (stable_sort by_overlap_key overlaps).

(* ================================================================= *)
(** ** Orchestration: [main], up to the [output] it hands to [json.dump]

    The registry [FUNDS] is a parameter: its entries are passed through
    untouched.  The progress report and the write to [data/holdings.json]
    are left out. *)

(** An item of [results]: what [process_fund] returned, or the record the
    [except] clause of [main] builds, which has no [period],
    [total_value], [num_holdings] and [fetched_at]. *)
Inductive entry : Type :=
| Processed (result : fund_result)
| Fatal (cik : string) (info : fund_info) (error : string).

(** An item as [find_cross_fund_overlap] and the summary read it: they
    look at [error], [all_holdings], [name], [manager] and
    [num_holdings], the last with the default [0]. *)
Definition as_fund (e : entry) : fund_result :=
  match e with
  | Processed result => result
  | Fatal cik info error =>
      set_error error (initial_result cik info EmptyString)
  end.

(** The [output] dict. *)
Record output : Type := {
  o_generated_at : string;
  o_num_funds : Z;
  o_funds : list entry;
  o_cross_fund_overlap : list stock
}.

Section Main.

Variable E : Env.

(** The body of [for cik, info in FUNDS.items()]. *)
Definition process_entry (results : list entry) (cik : string)
  (info : fund_info) : M trace (list entry) :=
  try_except
    (result <- process_fund E cik info ;;
     let appended := (results ++ [Processed result])%list in
     sleep 500 ;;;
     ret appended)
    (fun e => ret (results ++ [Fatal cik info (exn_str e)])%list).

Fixpoint process_all (funds : list (string * fund_info))
  (results : list entry) : M trace (list entry) :=
  match funds with
  | [] => ret results
  | (cik, info) :: rest =>
      results' <- process_entry results cik info ;;
      process_all rest results'
  end.

Definition main_output (funds : list (string * fund_info))
  : M trace output :=
  results <- process_all funds [] ;;
  let overlaps := find_cross_fund_overlap (map as_fund results) in
  fun t =>
    (Ret {| o_generated_at := utcnow_iso E t;
            o_num_funds := Z.of_nat (List.length results);
            o_funds := results;
            o_cross_fund_overlap := overlaps |}, t).

End Main.

(** [sum(1 for r in results if not r.get("error"))] *)
Definition successes (results : list entry) : Z :=
  Z.of_nat
    (List.length (filter (fun e => negb (has_error (as_fund e))) results)).

(* ================================================================= *)
(** ** Vocabulary of the properties *)

(** The URLs opened along a trace, oldest first. *)
Fixpoint opens (t : trace) : list string :=
  match t with
  | [] => []
  | EvOpen url :: rest => url :: opens rest
  | EvSleep _ :: rest => opens rest
  end.

(** A stretch of trace that opens [url], at least once, and nothing else. *)
Definition opens_only (url : string) (d : trace) : Prop :=
  opens d <> [] /\ Forall (eq url) (opens d).

(** A trace made of one such stretch per name, in the order of the names. *)
Inductive probed_in_order (base_url : string) : list string -> trace -> Prop :=
| probed_nil : probed_in_order base_url [] []
| probed_cons name names d ds :
    opens_only (base_url ++ name) d ->
    probed_in_order base_url names ds ->
    probed_in_order base_url (name :: names) (d ++ ds)%list.

(** No issuer name under the candidate [ns]: no such child, or one
    without text. *)
Definition no_name (entry : element) (ns : string) : Prop :=
  findtext entry (ns ++ "nameOfIssuer") = None
  \/ findtext entry (ns ++ "nameOfIssuer") = Some EmptyString.

(** The same tree with every tag put in the namespace [ns]. *)
Fixpoint qualify (ns : string) (e : element) : element :=
  match e with
  | Element tag text cs => Element (ns ++ tag) text (map (qualify ns) cs)
  end.

(** A tag, and a tree, without any namespace. *)
Definition plain_tag (tag : string) : bool := negb (Py.contains "{" tag).

Fixpoint plain (e : element) : bool :=
  match e with
  | Element tag _ cs => (plain_tag tag && forallb plain cs)%bool
  end.

(** Induction on trees, with the hypothesis on all children. *)
Fixpoint element_induction (P : element -> Prop)
  (step : forall tag text cs, Forall P cs -> P (Element tag text cs))
  (e : element) : P e :=
  match e with
  | Element tag text cs =>
      step tag text cs
        ((fix all (l : list element) : Forall P l :=
            match l with
            | [] => Forall_nil P
            | c :: r => Forall_cons c (element_induction P step c) (all r)
            end) cs)
  end.

(** A list of holdings whose values never increase. *)
Definition non_increasing (l : list holding) : Prop :=
  StronglySorted Z.ge (map h_value l).

(** The funds without error that list the security [cusip] among their
    [all_holdings]. *)
Definition holders_of (cusip : string) (all_funds : list fund_result)
  : list fund_result :=
  filter (fun fund =>
            (negb (has_error fund)
             && existsb (fun h => String.eqb (h_cusip h) cusip)
                  (r_all_holdings fund))%bool)
         all_funds.

(** A string of whitespace only. *)
Fixpoint blank (s : string) : bool :=
  match s with
  | EmptyString => true
  | String c r => (Py.is_space c && blank r)%bool
  end.

(** [out] is [raw] without the whitespace around it: whitespace before,
    whitespace after, and neither end of [out] is whitespace. *)
Definition trims_to (raw out : string) : Prop :=
  exists lead trail,
    raw = lead ++ out ++ trail
    /\ blank lead = true
    /\ blank trail = true
    /\ (forall c r, out = String c r -> Py.is_space c = false)
    /\ (forall r c, out = r ++ String c EmptyString -> Py.is_space c = false).

(** *** Costs, namespaces and holding lines *)

(** The time slept along a trace, in milliseconds. *)
Fixpoint sleep_total (t : trace) : Z :=
  match t with
  | [] => 0
  | EvOpen _ :: rest => sleep_total rest
  | EvSleep ms :: rest => ms + sleep_total rest
  end.

(** The longest the loop can sleep over the attempts it is given. *)
Fixpoint longest_wait (attempts : list Z) : Z :=
  match attempts with
  | [] => 0
  | attempt :: rest =>
      Z.max 5000 (1000 * (12 * (attempt + 1))) + longest_wait rest
  end.

(** [c.join(parts)] for a one-character [c]. *)
Fixpoint join (c : ascii) (parts : list string) : string :=
  match parts with
  | [] => EmptyString
  | [part] => part
  | part :: rest => part ++ String c (join c rest)
  end.

(** An upper bound on what a stretch of trace cost: requests and sleep. *)
Definition costs_at_most (fetches : nat) (d : trace) : Prop :=
  (List.length (opens d) <= 3 * fetches)%nat
  /\ 0 <= sleep_total d <= 72000 * Z.of_nat fetches.

(** The prefix Clark notation gives the tags of the namespace [uri]. *)
Definition clark (uri : string) : string := String "{" (uri ++ "}").

(** What every holding that leaves the parser has: a name that is not
    empty, text fields without surrounding whitespace, no weight yet, and
    a value that is a whole number of thousands. *)
Definition well_parsed (h : holding) : Prop :=
  h_name h <> EmptyString
  /\ Py.strip (h_name h) = h_name h
  /\ Py.strip (h_title h) = h_title h
  /\ Py.strip (h_cusip h) = h_cusip h
  /\ Py.strip (h_discretion h) = h_discretion h
  /\ h_weight h = None
  /\ exists thousands, h_value h = thousands * 1000.

(** The holding lines the analysis reads: for each fund without error, in
    the order of the funds, its [all_holdings] in their order. *)
Definition lines (all_funds : list fund_result)
  : list (fund_result * holding) :=
  flat_map (fun fund =>
              if has_error fund then []
              else map (pair fund) (r_all_holdings fund))
           all_funds.

(** The lines that list the security [cusip]. *)
Definition lists (cusip : string) (line : fund_result * holding) : bool :=
  String.eqb (h_cusip (snd line)) cusip.

Definition lines_of (cusip : string) (all_funds : list fund_result)
  : list (fund_result * holding) :=
  filter (lists cusip) (lines all_funds).

Definition holder_of_line (line : fund_result * holding) : holder :=
  holder_entry (fst line) (snd line).

(** A stock entry under the key [k] that sums up the lines of [L] for the
    security [k]. *)
Definition records (L : list (fund_result * holding))
  (kv : string * stock) : Prop :=
  let ls := filter (lists (fst kv)) L in
  fst kv <> EmptyString
  /\ s_cusip (snd kv) = fst kv
  /\ s_funds (snd kv) = map holder_of_line ls
  /\ s_total_value (snd kv)
     = fold_right Z.add 0 (map (fun l => h_value (snd l)) ls)
  /\ exists first rest,
       ls = first :: rest /\ s_name (snd kv) = h_name (snd first).

(** A map of stocks that sums up the lines [L]: distinct keys, a key for
    every security of [L], and every entry a record of its lines. *)
Definition summed (L : list (fund_result * holding)) (m : stock_map) : Prop :=
  NoDup (map fst m)
  /\ (forall x, In x L -> Py.truthy (h_cusip (snd x)) = true ->
        In (h_cusip (snd x)) (map fst m))
  /\ Forall (records L) m.

(* ================================================================= *)
(** ** Sample environments and data *)

(** An environment whose every request gets the same answer and whose
    parsers accept nothing. *)
Definition answering (r : response) : Env :=
  {| urlopen := fun _ _ => r;
     utcnow_iso := fun _ => "2025-01-01T00:00:00+00:00";
     gzip_decompress := fun _ => inl "Not a gzipped file";
     json_loads := fun _ => inl "Expecting value";
     xml_fromstring := fun _ => inl "syntax error";
     xml_fromstring_str := fun _ => inl "syntax error";
     decode_utf8_ignore := fun s => s |}.

Definition rate_limited : Env :=
  answering (RespHTTPError 429 "HTTP Error 429: Too Many Requests").

Definition unreachable : Env :=
  answering (RespError "<urlopen error timed out>").

Definition not_found : Env :=
  answering (RespHTTPError 404 "HTTP Error 404: Not Found").


Definition field (ns name text : string) : element :=
  Element (ns ++ name) (Some text) [].

(** One [infoTable] entry with all its children. *)
Definition info_table (ns issuer cusip value shares : string) : element :=
  Element (ns ++ "infoTable") None
    [ field ns "nameOfIssuer" issuer;
      field ns "titleOfClass" "COM";
      field ns "cusip" cusip;
      field ns "value" value;
      Element (ns ++ "shrsOrPrnAmt") None
        [ field ns "sshPrnamt" shares; field ns "sshPrnamtType" "SH" ];
      field ns "investmentDiscretion" "SOLE" ].

Definition information_table (ns : string) (entries : list element)
  : element :=
  Element (ns ++ "informationTable") None entries.

Definition ns_document : string :=
  "{http://www.sec.gov/edgar/document/thirteenf/informationtable}".

Definition ns_thirteenf : string := "{http://www.sec.gov/edgar/thirteenf}".

(** A table with three lines, two of them for the same security. *)
Definition sample_entries (ns : string) : list element :=
  [ info_table ns "APPLE INC" "037833100" "1234" "5000";
    info_table ns "MICROSOFT CORP" "594918104" "2000" "4000";
    info_table ns "APPLE INC" "037833100" "500" "2000" ].

Definition sample_table : element :=
  information_table ns_document (sample_entries ns_document).

(** A table whose only line has a value of 307 digits. *)
Definition huge_table : element :=
  information_table ns_document
    [ info_table ns_document "HUGE CORP" "000000000"
        (String "1" (Py.zeros 306)) "1" ].

(** A filing history: an annual report, then a 13F and its amendment. *)
Definition sample_submissions : json :=
  JObj
    [ ("cik", JStr "1423053");
      ("filings",
       JObj
         [ ("recent",
            JObj
              [ ("accessionNumber",
                 JArr [ JStr "0001104659-25-000001";
                        JStr "0000950123-25-008343";
                        JStr "0000950123-25-009999" ]);
                ("filingDate",
                 JArr [ JStr "2025-02-20"; JStr "2025-02-14";
                        JStr "2025-02-28" ]);
                ("reportDate",
                 JArr [ JStr "2024-12-31"; JStr "2024-12-31";
                        JStr "2024-12-31" ]);
                ("form",
                 JArr [ JStr "10-K"; JStr "13F-HR"; JStr "13F-HR/A" ]) ]) ]) ].

Definition sample_index : json :=
  JObj
    [ ("directory",
       JObj
         [ ("name", JStr "/Archives/edgar/data/1423053/000095012325008343");
           ("item",
            JArr [ JObj [ ("name", JStr "primary_doc.xml") ];
                   JObj [ ("name", JStr "form13fInfoTable.xml") ] ]) ]) ].

(** An environment in which the filing history is [submissions], the
    filing is found through its JSON index and its table is [table]. *)
Definition serving (submissions : json) (table : element) : Env :=
  {| urlopen := fun _ url =>
       if Py.startswith "https://data.sec.gov/submissions/" url
       then RespData "submissions"
       else if Py.endswith "-index.json" url then RespData "index"
       else if Py.endswith ".xml" url then RespData "table"
       else RespHTTPError 404 "HTTP Error 404: Not Found";
     utcnow_iso := fun _ => "2025-01-01T00:00:00+00:00";
     gzip_decompress := fun _ => inl "Not a gzipped file";
     json_loads := fun body =>
       if String.eqb body "submissions" then inr submissions
       else if String.eqb body "index" then inr sample_index
       else inl "Expecting value";
     xml_fromstring := fun body =>
       if String.eqb body "table" then inr table
       else if String.eqb body "plain"
       then inr (information_table EmptyString (sample_entries EmptyString))
       else if String.eqb body "thirteenf"
       then inr (information_table ns_thirteenf (sample_entries ns_thirteenf))
       else inl "syntax error";
     xml_fromstring_str := fun _ => inl "syntax error";
     decode_utf8_ignore := fun s => s |}.

(** An environment in which only the index page of a filing exists. *)
Definition serving_page (html : string) : Env :=
  {| urlopen := fun _ url =>
       if Py.endswith "-index.htm" url then RespData html
       else RespHTTPError 404 "HTTP Error 404: Not Found";
     utcnow_iso := fun _ => "2025-01-01T00:00:00+00:00";
     gzip_decompress := fun _ => inl "Not a gzipped file";
     json_loads := fun _ => inl "Expecting value";
     xml_fromstring := fun _ => inl "syntax error";
     xml_fromstring_str := fun _ => inl "syntax error";
     decode_utf8_ignore := fun s => s |}.

(** An index page with a link to the primary document and one to the
    table. *)
Definition sample_page : string :=
  "<a href=" ++ quote
    ++ "/Archives/edgar/data/1423053/000095012325008343/primary_doc.xml"
    ++ quote ++ ">primary_doc.xml</a> <a HREF=" ++ quote
    ++ "/Archives/edgar/data/1423053/000095012325008343/form13fInfoTable.xml"
    ++ quote ++ ">form13fInfoTable.xml</a>".

(** The registry entry of Citadel Advisors, its non-Latin text left out. *)
Definition citadel : fund_info :=
  {| fi_name := "Citadel Advisors";
     fi_manager := "(Ken Griffin)";
     fi_group := "C";
     fi_tag := "2025 +10.2%";
     fi_emoji := "";
     fi_strategy := "Multi-Strategy";
     fi_return_2025 := Some "10.2" |}.

(** An entry whose name and identifier have whitespace around them. *)
Definition padded_entry : element :=
  info_table ns_document "  APPLE INC  " " 037833100" "1234" "5000".

(** An entry whose name is whitespace only, with the value text [value]. *)
Definition blank_named (value : string) : element :=
  info_table EmptyString "   " "037833100" value "10".

(** An entry with a name and a value child without text. *)
Definition empty_value_entry : element :=
  Element "infoTable" None
    [ field EmptyString "nameOfIssuer" "ACME CORP";
      Element "value" None [] ].

(** An entry whose amount is no whole number. *)
Definition fractional_shares_entry : element :=
  info_table EmptyString "ACME CORP" "123456789" "100" "1.5".

(** *** More sample data *)

(** An environment in which only the JSON index of a filing exists, with
    the content [index]. *)
Definition serving_index (index : json) : Env :=
  {| urlopen := fun _ url =>
       if Py.endswith "-index.json" url then RespData "index"
       else RespHTTPError 404 "HTTP Error 404: Not Found";
     utcnow_iso := fun _ => "2025-01-01T00:00:00+00:00";
     gzip_decompress := fun _ => inl "Not a gzipped file";
     json_loads := fun body =>
       if String.eqb body "index" then inr index else inl "Expecting value";
     xml_fromstring := fun _ => inl "syntax error";
     xml_fromstring_str := fun _ => inl "syntax error";
     decode_utf8_ignore := fun s => s |}.

(** A directory whose first item has a number for a name. *)
Definition odd_index : json :=
  JObj
    [ ("directory",
       JObj
         [ ("item",
            JArr [ JObj [ ("name", JInt 5) ];
                   JObj [ ("name", JStr "infotable.xml") ] ]) ]) ].

(** A filing history whose only 13F has no accession number. *)
Definition short_submissions : json :=
  JObj
    [ ("filings",
       JObj
         [ ("recent",
            JObj
              [ ("accessionNumber", JArr []);
                ("form", JArr [ JStr "10-K"; JStr "13F-HR" ]) ]) ]) ].

(** What processing the sample filing gives, and the trace it leaves. *)
Definition sample_fund : fund_result :=
  match fst (process_fund (serving sample_submissions sample_table)
               "1423053" citadel []) with
  | Ret result => result
  | Raise _ => initial_result "1423053" citadel EmptyString
  end.

Definition sample_trace : trace :=
  snd (process_fund (serving sample_submissions sample_table)
         "1423053" citadel []).

(** A second fund with one line for each of the two securities. *)
Definition other_fund : fund_result :=
  {| r_cik := "1067983";
     r_info := {| fi_name := "Berkshire Hathaway";
                  fi_manager := "(Warren Buffett)";
                  fi_group := "B";
                  fi_tag := "Legend";
                  fi_emoji := "";
                  fi_strategy := "Value Investing";
                  fi_return_2025 := None |};
     r_period := JStr "2024-12-31";
     r_total_value := 9000000;
     r_num_holdings := 2;
     r_top_holdings := [];
     r_all_holdings :=
       [ {| h_name := "APPLE INC"; h_title := "COM";
            h_cusip := "037833100"; h_value := 8000000; h_shares := 30000;
            h_type := "SH"; h_discretion := "SOLE";
            h_weight := Some (WPct 8000000 9000000) |};
         {| h_name := "MICROSOFT CORP"; h_title := "COM";
            h_cusip := "594918104"; h_value := 1000000; h_shares := 2000;
            h_type := "SH"; h_discretion := "SOLE";
            h_weight := Some (WPct 1000000 9000000) |} ];
     r_fetched_at := "2025-01-01T00:00:00+00:00";
     r_error := None |}.

(** A fund whose processing failed. *)
Definition failed_fund : fund_result :=
  set_error "No 13F filing found"
    (initial_result "1649339" citadel "2025-01-01T00:00:00+00:00").

(** An entry whose value is not an integer literal. *)
Definition odd_entry : element :=
  info_table EmptyString "ODD CORP" "123456789" "12.5" "10".

(** Three processed funds: two that share both securities and one that
    failed. *)
Definition sample_funds : list fund_result :=
  [sample_fund; other_fund; failed_fund].

(* ================================================================= *)
(** * Properties *)

(** ** Transport *)

Section Transport.

Variable E : Env.

Lemma fetch_attempts_nil url n t :
  fetch_attempts E url n [] t = (Ret EmptyString, t).
Proof. reflexivity. Qed.

(** One turn of the loop when the attempt is answered with status 429. *)
Lemma fetch_attempts_429 url n attempt rest t msg :
  read_response E t url = Raise (Exn (HTTPError 429) msg) ->
  fetch_attempts E url n (attempt :: rest) t
  = fetch_attempts E url n rest
      (t ++ [EvOpen url; EvSleep (1000 * (12 * (attempt + 1)))])%list.
Proof.
  intros H. cbn [fetch_attempts]. rewrite H. cbn.
  unfold bind, sleep, emit. now rewrite <- app_assoc.
Qed.

(** One turn of the loop when the attempt fails outside HTTP and is not the
    last one. *)
Lemma fetch_attempts_other_retry url n attempt rest t msg :
  read_response E t url = Raise (Exn OtherError msg) ->
  attempt < n - 1 ->
  fetch_attempts E url n (attempt :: rest) t
  = fetch_attempts E url n rest (t ++ [EvOpen url; EvSleep 5000])%list.
Proof.
  intros H Hlt. cbn [fetch_attempts]. rewrite H. cbn.
  apply Z.ltb_lt in Hlt. rewrite Hlt.
  unfold bind, sleep, emit. now rewrite <- app_assoc.
Qed.

(** The same failure on the last attempt is raised again. *)
Lemma fetch_attempts_other_last url n attempt rest t msg :
  read_response E t url = Raise (Exn OtherError msg) ->
  n - 1 <= attempt ->
  fetch_attempts E url n (attempt :: rest) t
  = (Raise (Exn OtherError msg), (t ++ [EvOpen url])%list).
Proof.
  intros H Hge. cbn [fetch_attempts]. rewrite H. cbn.
  apply Z.ltb_ge in Hge. now rewrite Hge.
Qed.

(** Any other HTTP status ends the loop at once. *)
Lemma fetch_attempts_http url n attempt rest t code msg :
  read_response E t url = Raise (Exn (HTTPError code) msg) ->
  code <> 429 ->
  fetch_attempts E url n (attempt :: rest) t
  = (Raise (Exn (HTTPError code) msg), (t ++ [EvOpen url])%list).
Proof.
  intros H Hc. cbn [fetch_attempts]. rewrite H. cbn.
  apply Z.eqb_neq in Hc. now rewrite Hc.
Qed.

Lemma fetch_attempts_ok url n attempt rest t data :
  read_response E t url = Ret data ->
  fetch_attempts E url n (attempt :: rest) t
  = (Ret data, (t ++ [EvOpen url])%list).
Proof. intros H. cbn [fetch_attempts]. now rewrite H. Qed.

(** C8, at the input where it fails: three attempts that are all answered
    with status 429 make [fetch_url] sleep 12, 24 and 36 seconds and then
    return the empty byte string, where the claim has it fail with an
    error. *)
Theorem fetch_url_rate_limited_returns_empty url t m1 m2 m3 :
  read_response E t url = Raise (Exn (HTTPError 429) m1) ->
  read_response E (t ++ [EvOpen url; EvSleep 12000])%list url
  = Raise (Exn (HTTPError 429) m2) ->
  read_response E
    (t ++ [EvOpen url; EvSleep 12000; EvOpen url; EvSleep 24000])%list url
  = Raise (Exn (HTTPError 429) m3) ->
  fetch_url E url default_max_retries t
  = (Ret EmptyString,
     (t ++ [EvOpen url; EvSleep 12000; EvOpen url; EvSleep 24000;
            EvOpen url; EvSleep 36000])%list).
Proof.
  intros H1 H2 H3. unfold fetch_url, default_max_retries.
  change (py_range 3) with [0; 1; 2].
  rewrite (fetch_attempts_429 _ _ _ _ _ _ H1).
  change (1000 * (12 * (0 + 1))) with 12000.
  rewrite (fetch_attempts_429 _ _ _ _ _ _ H2).
  change (1000 * (12 * (1 + 1))) with 24000.
  rewrite <- app_assoc. cbn [app].
  rewrite (fetch_attempts_429 _ _ _ _ _ _ H3).
  change (1000 * (12 * (2 + 1))) with 36000.
  rewrite <- app_assoc. reflexivity.
Qed.

End Transport.

(** C9 as the spec words it, refuted: were a failure outside HTTP retried
    exactly once, a host that never answers would be opened twice; it is
    opened three times. *)
Lemma fetch_url_retry_once_counterexample :
  ~ (forall (E : Env) (url : string) (e : exn) (t' : trace),
       (forall t, exists m, read_response E t url = Raise (Exn OtherError m)) ->
       fetch_url E url default_max_retries [] = (Raise e, t') ->
       opens t' = [url; url]).
Proof.
  intros claim.
  specialize (claim unreachable "https://www.sec.gov/"
                (Exn OtherError "<urlopen error timed out>")
                [EvOpen "https://www.sec.gov/"; EvSleep 5000;
                 EvOpen "https://www.sec.gov/"; EvSleep 5000;
                 EvOpen "https://www.sec.gov/"]).
  assert (H : opens [EvOpen "https://www.sec.gov/"; EvSleep 5000;
                     EvOpen "https://www.sec.gov/"; EvSleep 5000;
                     EvOpen "https://www.sec.gov/"]
              = ["https://www.sec.gov/"; "https://www.sec.gov/"]).
  { apply claim.
    - intros t. exists "<urlopen error timed out>". reflexivity.
    - reflexivity. }
  discriminate H.
Qed.

(** C9, amended: three attempts that all fail outside HTTP are three
    [urlopen] calls with a 5 second sleep after the first and after the
    second, and the third failure is the one raised; an HTTP status other
    than 429 is raised by the attempt that meets it, with no sleep and no
    further attempt. *)
Theorem fetch_url_failure_policy (E : Env) (url : string) (t : trace) :
  (forall m1 m2 m3,
     read_response E t url = Raise (Exn OtherError m1) ->
     read_response E (t ++ [EvOpen url; EvSleep 5000])%list url
     = Raise (Exn OtherError m2) ->
     read_response E
       (t ++ [EvOpen url; EvSleep 5000; EvOpen url; EvSleep 5000])%list url
     = Raise (Exn OtherError m3) ->
     fetch_url E url default_max_retries t
     = (Raise (Exn OtherError m3),
        (t ++ [EvOpen url; EvSleep 5000; EvOpen url; EvSleep 5000;
               EvOpen url])%list))
  /\
  (forall code msg attempt rest,
     read_response E t url = Raise (Exn (HTTPError code) msg) ->
     code <> 429 ->
     fetch_attempts E url default_max_retries (attempt :: rest) t
     = (Raise (Exn (HTTPError code) msg), (t ++ [EvOpen url])%list)).
Proof.
  split.
  - intros m1 m2 m3 H1 H2 H3. unfold fetch_url, default_max_retries.
    change (py_range 3) with [0; 1; 2].
    rewrite (fetch_attempts_other_retry _ _ _ _ _ _ _ H1) by lia.
    rewrite (fetch_attempts_other_retry _ _ _ _ _ _ _ H2) by lia.
    rewrite <- app_assoc. cbn [app].
    rewrite (fetch_attempts_other_last _ _ _ _ _ _ _ H3) by lia.
    rewrite <- app_assoc. reflexivity.
  - intros code msg attempt rest H Hc.
    now apply fetch_attempts_http.
Qed.

Lemma fetch_url_failure_policy_witness :
  fetch_url unreachable "https://www.sec.gov/" default_max_retries []
  = (Raise (Exn OtherError "<urlopen error timed out>"),
     [EvOpen "https://www.sec.gov/"; EvSleep 5000;
      EvOpen "https://www.sec.gov/"; EvSleep 5000;
      EvOpen "https://www.sec.gov/"])
  /\ fetch_attempts not_found "https://www.sec.gov/" default_max_retries
       [0; 1; 2] []
     = (Raise (Exn (HTTPError 404) "HTTP Error 404: Not Found"),
        [EvOpen "https://www.sec.gov/"]).
Proof.
  split.
  - apply (proj1 (fetch_url_failure_policy unreachable
                    "https://www.sec.gov/" [])
             "<urlopen error timed out>" "<urlopen error timed out>"
             "<urlopen error timed out>"); reflexivity.
  - apply (proj2 (fetch_url_failure_policy not_found
                    "https://www.sec.gov/" [])
             404 "HTTP Error 404: Not Found" 0 [1; 2]);
      [reflexivity | lia].
Defined.

Lemma fetch_url_rate_limited_witness :
  fetch_url rate_limited "https://www.sec.gov/" default_max_retries []
  = (Ret EmptyString,
     [EvOpen "https://www.sec.gov/"; EvSleep 12000;
      EvOpen "https://www.sec.gov/"; EvSleep 24000;
      EvOpen "https://www.sec.gov/"; EvSleep 36000]).
Proof.
  apply (fetch_url_rate_limited_returns_empty rate_limited
           "https://www.sec.gov/" []
           "HTTP Error 429: Too Many Requests"
           "HTTP Error 429: Too Many Requests"
           "HTTP Error 429: Too Many Requests"); reflexivity.
Defined.

(** ** FilingLocator *)

Section Locator.

Variables accessions dates report_dates : json.

(** Entries that are not of the wanted form are stepped over. *)
Lemma scan_forms_skip pre rest i :
  Forall (fun f => is_13f f = false) pre ->
  scan_forms accessions dates report_dates i (pre ++ rest)%list
  = scan_forms accessions dates report_dates (i + List.length pre) rest.
Proof.
  intros H. revert i. induction H as [| f pre Hf _ IH]; intros i.
  - cbn. now rewrite Nat.add_0_r.
  - cbn [app scan_forms]. rewrite Hf, IH. cbn [List.length].
    now rewrite Nat.add_succ_r.
Qed.

Lemma scan_forms_none forms i :
  Forall (fun f => is_13f f = false) forms ->
  scan_forms accessions dates report_dates i forms
  = Ret (EmptyString, JStr EmptyString, EmptyString).
Proof.
  intros H. rewrite <- (app_nil_r forms).
  now rewrite scan_forms_skip.
Qed.

End Locator.



(** ** ResourceResolver *)

Lemma opens_app t1 t2 : opens (t1 ++ t2)%list = (opens t1 ++ opens t2)%list.
Proof.
  induction t1 as [| [u | ms] t1 IH]; cbn; [reflexivity | now rewrite IH | exact IH].
Qed.

Section Resolver.

Variable E : Env.

(** Whatever the loop does, it only adds to the trace, and opens no other
    URL than its own. *)
Lemma fetch_attempts_trace url n attempts t :
  exists d,
    snd (fetch_attempts E url n attempts t) = (t ++ d)%list
    /\ Forall (eq url) (opens d).
Proof.
  revert t. induction attempts as [| attempt rest IH]; intros t.
  - exists []. cbn. rewrite app_nil_r. split; [reflexivity | constructor].
  - cbn [fetch_attempts].
    destruct (read_response E t url) as [data | e].
    + exists [EvOpen url]. cbn. split; [reflexivity | repeat constructor].
    + destruct (exn_class_of e) as [code | | | | | | | | |];
        try (destruct (attempt <? n - 1);
             [ unfold bind, sleep, emit;
               destruct (IH ((t ++ [EvOpen url]) ++ [EvSleep 5000])%list)
                 as [d [Hd Ho]];
               exists (EvOpen url :: EvSleep 5000 :: d);
               rewrite Hd, <- !app_assoc; cbn;
               split; [reflexivity | now constructor]
             | exists [EvOpen url]; cbn;
               split; [reflexivity | repeat constructor] ]).
      destruct (code =? 429).
      * unfold bind, sleep, emit.
        destruct (IH ((t ++ [EvOpen url])
                        ++ [EvSleep (1000 * (12 * (attempt + 1)))])%list)
          as [d [Hd Ho]].
        exists (EvOpen url :: EvSleep (1000 * (12 * (attempt + 1))) :: d).
        rewrite Hd, <- !app_assoc. cbn.
        split; [reflexivity | now constructor].
      * exists [EvOpen url]. cbn. split; [reflexivity | repeat constructor].
Qed.

(** A turn of the loop opens the URL before anything else. *)
Lemma fetch_attempts_opens_first url n attempt rest t :
  exists d,
    snd (fetch_attempts E url n (attempt :: rest) t)
    = (t ++ EvOpen url :: d)%list
    /\ Forall (eq url) (opens d).
Proof.
  cbn [fetch_attempts].
  destruct (read_response E t url) as [data | e].
  - exists []. cbn. split; [reflexivity | constructor].
  - destruct (exn_class_of e) as [code | | | | | | | | |];
      try (destruct (attempt <? n - 1);
           [ unfold bind, sleep, emit;
             destruct (fetch_attempts_trace url n rest
                         ((t ++ [EvOpen url]) ++ [EvSleep 5000])%list)
               as [d [Hd Ho]];
             exists (EvSleep 5000 :: d);
             rewrite Hd, <- !app_assoc; cbn;
             split; [reflexivity | assumption]
           | exists []; cbn; split; [reflexivity | constructor] ]).
    destruct (code =? 429).
    + unfold bind, sleep, emit.
      destruct (fetch_attempts_trace url n rest
                  ((t ++ [EvOpen url])
                     ++ [EvSleep (1000 * (12 * (attempt + 1)))])%list)
        as [d [Hd Ho]].
      exists (EvSleep (1000 * (12 * (attempt + 1))) :: d).
      rewrite Hd, <- !app_assoc. cbn. split; [reflexivity | assumption].
    + exists []. cbn. split; [reflexivity | constructor].
Qed.

(** A call of [fetch_url] with the default retry count opens its URL first. *)
Lemma fetch_url_opens_first url t :
  exists d,
    snd (fetch_url E url default_max_retries t)
    = (t ++ EvOpen url :: d)%list
    /\ Forall (eq url) (opens d).
Proof.
  unfold fetch_url, default_max_retries.
  change (py_range 3) with [0; 1; 2].
  apply fetch_attempts_opens_first.
Qed.

Lemma fetch_url_opens_only url t :
  exists d,
    snd (fetch_url E url default_max_retries t) = (t ++ d)%list
    /\ opens_only url d.
Proof.
  destruct (fetch_url_opens_first url t) as [d [Hd Ho]].
  exists (EvOpen url :: d). split; [assumption |].
  split; cbn; [discriminate | now constructor].
Qed.

(** The probe loop always returns: the URL of the first name whose fetch
    does not raise, or the empty string after the last name.  Its trace is
    one stretch per name tried, in the order of the list. *)
Lemma probe_names_spec base_url names t :
  exists url probed k,
    probe_names E base_url names t = (Ret url, (t ++ probed)%list)
    /\ probed_in_order base_url (firstn k names) probed
    /\ ((url = EmptyString /\ k = List.length names)
        \/ (exists name,
              (1 <= k)%nat /\ nth_error names (k - 1) = Some name
              /\ url = base_url ++ name)).
Proof.
  revert t. induction names as [| name rest IH]; intros t.
  - exists EmptyString, [], O. cbn. rewrite app_nil_r.
    repeat split; [constructor | now left].
  - cbn [probe_names]. unfold try_except, bind.
    destruct (fetch_url_opens_only (base_url ++ name) t) as [d [Hd Ho]].
    destruct (fetch_url E (base_url ++ name) default_max_retries t)
      as [[data | e] t1] eqn:Hf; cbn [snd] in Hd; subst t1.
    + exists (base_url ++ name), d, 1%nat. cbn.
      repeat split.
      * assert (H : probed_in_order base_url [name] (d ++ [])%list)
          by (constructor; [assumption | constructor]).
        now rewrite app_nil_r in H.
      * right. exists name. repeat split. lia.
    + destruct (IH (t ++ d)%list) as [url [probed [k [Hrun [Hord Hres]]]]].
      exists url, (d ++ probed)%list, (S k). rewrite Hrun, app_assoc.
      split; [reflexivity |]. split.
      * cbn [firstn]. now constructor.
      * destruct Hres as [[-> ->] | [nm [Hk [Hnth ->]]]].
        -- now left.
        -- right. exists nm. split; [lia |]. split; [| reflexivity].
           destruct k as [| k']; [lia |].
           replace (S (S k') - 1)%nat with (S k') by lia.
           replace (S k' - 1)%nat with k' in Hnth by lia.
           exact Hnth.
Qed.

Lemma index_json_method_returns cik raw fmt t :
  exists found t',
    index_json_method E cik raw fmt t = (Ret found, t').
Proof.
  unfold index_json_method, try_except.
  match goal with |- context [match ?m t with _ => _ end] =>
    destruct (m t) as [[found | e] t'] end; unfold ret; eauto.
Qed.

Lemma index_html_method_returns cik raw fmt t :
  exists found t',
    index_html_method E cik raw fmt t = (Ret found, t').
Proof.
  unfold index_html_method, try_except.
  match goal with |- context [match ?m t with _ => _ end] =>
    destruct (m t) as [[found | e] t'] end; unfold ret; eauto.
Qed.

End Resolver.

Section ResolverFallback.

Variable E : Env.
Variables cik accession_raw accession_formatted : string.

Lemma index_html_method_opens t :
  exists d,
    snd (index_html_method E cik accession_raw accession_formatted t)
    = (t ++ EvOpen (index_html_url cik accession_raw accession_formatted)
         :: d)%list.
Proof.
  unfold index_html_method, try_except, bind.
  destruct (fetch_url_opens_first E
              (index_html_url cik accession_raw accession_formatted) t)
    as [d [Hd _]].
  destruct (fetch_url E
              (index_html_url cik accession_raw accession_formatted)
              default_max_retries t) as [[body | e] t1];
    cbn [snd] in Hd; subst t1; exists d.
  - destruct (List.find names_table _); [reflexivity |].
    destruct (Py.contains _ _); [| reflexivity].
    destruct (List.find _ _); reflexivity.
  - reflexivity.
Qed.

(** When every probe raises, the loop ends on the empty string. *)
Lemma probe_names_all_fail base_url names t :
  (forall name t0, In name names ->
     exists e t1,
       fetch_url E (base_url ++ name) default_max_retries t0 = (Raise e, t1)) ->
  exists t', probe_names E base_url names t = (Ret EmptyString, t').
Proof.
  revert t. induction names as [| name rest IH]; intros t Hfail.
  - exists t. reflexivity.
  - cbn [probe_names]. unfold try_except, bind.
    destruct (Hfail name t (or_introl eq_refl)) as [e [t1 Hf]].
    rewrite Hf. apply IH. intros nm t0 Hin. apply Hfail. now right.
Qed.

(** What holds of the fallback.  [find_info_table_url] never raises.
    When the index-document method leaves no URL, the index page is opened
    next.  When the index page leaves none either, the probe names are
    tried in the order of the list, each name's requests before the next
    name's: either all six were tried and the result is the empty string,
    or the result is the URL of the last name tried.  When every probe
    fetch raises, the result is the empty string. *)
Theorem find_info_table_url_fallback (t : trace) :
  (exists url t',
     find_info_table_url E cik accession_raw accession_formatted t
     = (Ret url, t'))
  /\
  (forall t1,
     index_json_method E cik accession_raw accession_formatted t
     = (Ret None, t1) ->
     exists rest,
       snd (find_info_table_url E cik accession_raw accession_formatted t)
       = (t1 ++ EvOpen (index_html_url cik accession_raw accession_formatted)
             :: rest)%list)
  /\
  (forall t1 t2,
     index_json_method E cik accession_raw accession_formatted t
     = (Ret None, t1) ->
     index_html_method E cik accession_raw accession_formatted t1
     = (Ret None, t2) ->
     (exists url probed k,
        find_info_table_url E cik accession_raw accession_formatted t
        = (Ret url, (t2 ++ probed)%list)
        /\ probed_in_order (base_url_of cik accession_raw)
             (firstn k common_names) probed
        /\ ((url = EmptyString /\ k = 6%nat)
            \/ (exists name,
                  (1 <= k)%nat /\ nth_error common_names (k - 1) = Some name
                  /\ url = base_url_of cik accession_raw ++ name)))
     /\
     ((forall name t0, In name common_names ->
         exists e t3,
           fetch_url E (base_url_of cik accession_raw ++ name)
             default_max_retries t0 = (Raise e, t3)) ->
      exists t',
        find_info_table_url E cik accession_raw accession_formatted t
        = (Ret EmptyString, t'))).
Proof.
  split; [| split].
  - unfold find_info_table_url, bind.
    destruct (index_json_method_returns E cik accession_raw
                accession_formatted t) as [f1 [t1 ->]].
    destruct f1 as [url |]; [unfold ret; eauto |].
    destruct (index_html_method_returns E cik accession_raw
                accession_formatted t1) as [f2 [t2 ->]].
    destruct f2 as [url |]; [unfold ret; eauto |].
    destruct (probe_names_spec E (base_url_of cik accession_raw)
                common_names t2) as [url [probed [k [-> _]]]].
    eauto.
  - intros t1 H1. unfold find_info_table_url, bind. rewrite H1.
    destruct (index_html_method_opens t1) as [d Hd].
    destruct (index_html_method E cik accession_raw accession_formatted t1)
      as [[[url |] | e] t2]; cbn [snd] in Hd; subst t2.
    + exists d. reflexivity.
    + cbv beta iota.
      destruct (probe_names_spec E (base_url_of cik accession_raw)
                  common_names
                  (t1 ++ EvOpen (index_html_url cik accession_raw
                                   accession_formatted) :: d)%list)
        as [url [probed [k [-> _]]]].
      exists (d ++ probed)%list. cbn. now rewrite <- app_assoc.
    + exists d. reflexivity.
  - intros t1 t2 H1 H2. split.
    + unfold find_info_table_url, bind. rewrite H1, H2.
      destruct (probe_names_spec E (base_url_of cik accession_raw)
                  common_names t2) as [url [probed [k [Hrun Hrest]]]].
      exists url, probed, k. split; [assumption | exact Hrest].
    + intros Hfail. unfold find_info_table_url, bind. rewrite H1, H2.
      now apply probe_names_all_fail.
Qed.

(** Three answers of status 429 in a row: [fetch_url] returns the empty
    byte string after its three sleeps. *)
Lemma fetch_url_all_429 url t :
  (forall t0, exists msg,
     read_response E t0 url = Raise (Exn (HTTPError 429) msg)) ->
  fetch_url E url default_max_retries t
  = (Ret EmptyString,
     (t ++ [EvOpen url; EvSleep 12000; EvOpen url; EvSleep 24000;
            EvOpen url; EvSleep 36000])%list).
Proof.
  intros H. unfold fetch_url, default_max_retries.
  change (py_range 3) with [0; 1; 2].
  destruct (H t) as [m1 H1].
  rewrite (fetch_attempts_429 E _ _ _ _ _ _ H1).
  change (1000 * (12 * (0 + 1))) with 12000.
  destruct (H (t ++ [EvOpen url; EvSleep 12000])%list) as [m2 H2].
  rewrite (fetch_attempts_429 E _ _ _ _ _ _ H2).
  change (1000 * (12 * (1 + 1))) with 24000.
  rewrite <- app_assoc. cbn [app].
  destruct (H (t ++ [EvOpen url; EvSleep 12000; EvOpen url; EvSleep 24000])
              %list) as [m3 H3].
  rewrite (fetch_attempts_429 E _ _ _ _ _ _ H3).
  change (1000 * (12 * (2 + 1))) with 36000.
  rewrite <- app_assoc. reflexivity.
Qed.

(** The names whose fetch raises are stepped over, one stretch of trace
    each. *)
Lemma probe_names_skip base_url pre rest t :
  (forall name t0, In name pre ->
     exists e t1,
       fetch_url E (base_url ++ name) default_max_retries t0 = (Raise e, t1)) ->
  exists before,
    probe_names E base_url (pre ++ rest)%list t
    = probe_names E base_url rest (t ++ before)%list
    /\ probed_in_order base_url pre before.
Proof.
  revert t. induction pre as [| name pre IH]; intros t Hfail.
  - exists []. rewrite app_nil_r. split; [reflexivity | constructor].
  - cbn [app probe_names]. unfold try_except, bind.
    destruct (fetch_url_opens_only E (base_url ++ name) t) as [d [Hd Ho]].
    destruct (Hfail name t (or_introl eq_refl)) as [e [t1 Hf]].
    rewrite Hf in Hd |- *. cbn [snd] in Hd. subst t1.
    destruct (IH (t ++ d)%list) as [before [Hrun Hord]].
    { intros nm t0 Hin. apply Hfail. now right. }
    exists (d ++ before)%list. rewrite Hrun, app_assoc.
    split; [reflexivity | now constructor].
Qed.

(** C2, at the input where it fails: both index methods are empty, the
    probes before [name] raise, and the three attempts of the probe of
    [name] are all answered with status 429.  That probe retrieved
    nothing, yet it is not treated as a failure: the loop stops there,
    the names after it are never requested, and the result is the URL of
    [name], not the empty string. *)
Theorem find_info_table_url_rate_limited_probe
  (t t1 t2 : trace) (pre post : list string) (name : string) :
  index_json_method E cik accession_raw accession_formatted t
  = (Ret None, t1) ->
  index_html_method E cik accession_raw accession_formatted t1
  = (Ret None, t2) ->
  common_names = (pre ++ name :: post)%list ->
  (forall nm t0, In nm pre ->
     exists e t3,
       fetch_url E (base_url_of cik accession_raw ++ nm)
         default_max_retries t0 = (Raise e, t3)) ->
  (forall t0, exists msg,
     read_response E t0 (base_url_of cik accession_raw ++ name)
     = Raise (Exn (HTTPError 429) msg)) ->
  exists before,
    find_info_table_url E cik accession_raw accession_formatted t
    = (Ret (base_url_of cik accession_raw ++ name),
       (t2 ++ before
           ++ [EvOpen (base_url_of cik accession_raw ++ name);
               EvSleep 12000;
               EvOpen (base_url_of cik accession_raw ++ name);
               EvSleep 24000;
               EvOpen (base_url_of cik accession_raw ++ name);
               EvSleep 36000])%list)
    /\ probed_in_order (base_url_of cik accession_raw) pre before
    /\ base_url_of cik accession_raw ++ name <> EmptyString.
Proof.
  intros H1 H2 Hnames Hpre H429.
  destruct (probe_names_skip (base_url_of cik accession_raw) pre
              (name :: post) t2 Hpre) as [before [Hskip Hord]].
  exists before. split; [| split; [exact Hord | discriminate]].
  unfold find_info_table_url, bind. rewrite H1, H2, Hnames, Hskip.
  cbn [probe_names]. unfold try_except, bind.
  rewrite (fetch_url_all_429 _ _ H429). unfold ret.
  now rewrite <- app_assoc.
Qed.

End ResolverFallback.

(** ** HoldingsParser *)

Lemma parse_entry_skip entry before rest :
  (forall ns, In ns before -> no_name entry ns) ->
  parse_entry (before ++ rest)%list entry = parse_entry rest entry.
Proof.
  induction before as [| ns before IH]; intros H; [reflexivity |].
  cbn [app parse_entry].
  destruct (H ns (or_introl eq_refl)) as [-> | ->]; cbn;
    apply IH; intros ns0 H0; apply H; now right.
Qed.

Lemma findtext_or_default entry tag default :
  findtext_or entry tag default
  = match findtext entry tag with Some x => x | None => default end.
Proof. reflexivity. Qed.

(** *** Trimming *)

Lemma blank_app a b : blank (a ++ b) = (blank a && blank b)%bool.
Proof.
  induction a as [| c a IH]; [reflexivity |].
  cbn [String.append blank]. rewrite IH. apply andb_assoc.
Qed.

(** What [lstrip] removes is whitespace, and what is left does not start
    with whitespace. *)
Lemma lstrip_lead s :
  exists lead,
    s = lead ++ Py.lstrip_of Py.is_space s
    /\ blank lead = true
    /\ (forall c r, Py.lstrip_of Py.is_space s = String c r ->
          Py.is_space c = false).
Proof.
  induction s as [| a s [lead [Hs [Hb Hh]]]].
  - exists EmptyString. repeat split. discriminate.
  - cbn [Py.lstrip_of]. destruct (Py.is_space a) eqn:Ha.
    + exists (String a lead). cbn [String.append blank].
      rewrite <- Hs, Ha, Hb. repeat split. exact Hh.
    + exists EmptyString. repeat split.
      intros c r Hc. injection Hc as <- _. exact Ha.
Qed.

(** What [rstrip] removes is whitespace, what is left does not end with
    whitespace, and it starts as the string did. *)
Lemma rstrip_trail s :
  exists trail,
    s = Py.rstrip_of Py.is_space s ++ trail
    /\ blank trail = true
    /\ (forall r c, Py.rstrip_of Py.is_space s = r ++ String c EmptyString ->
          Py.is_space c = false)
    /\ (forall c r, Py.rstrip_of Py.is_space s = String c r ->
          exists r0, s = String c r0).
Proof.
  induction s as [| a s [trail [Hs [Hb [Hl Hh]]]]].
  - exists EmptyString. repeat split.
    + intros [| x r] c H; discriminate H.
    + discriminate.
  - cbn [Py.rstrip_of].
    destruct (Py.is_space a
              && String.eqb (Py.rstrip_of Py.is_space s) EmptyString)%bool
      eqn:Hc.
    + apply andb_true_iff in Hc as [Ha He]. apply String.eqb_eq in He.
      rewrite He in Hs. cbn [String.append] in Hs. subst s.
      exists (String a trail). cbn [String.append blank].
      rewrite Ha, Hb. repeat split.
      * intros [| x r] c H; discriminate H.
      * discriminate.
    + exists trail. cbn [String.append]. rewrite <- Hs. repeat split.
      * assumption.
      * intros [| x r] c H; cbn [String.append] in H.
        -- injection H as <- He. rewrite He, String.eqb_refl in Hc.
           now rewrite andb_true_r in Hc.
        -- injection H as _ He. exact (Hl _ _ He).
      * intros c r H. injection H as <- _. eauto.
Qed.

(** [strip] removes the whitespace around a string, and nothing else. *)
Lemma strip_trims s : trims_to s (Py.strip s).
Proof.
  unfold trims_to, Py.strip.
  destruct (lstrip_lead s) as [lead [Hs [Hb Hh]]].
  destruct (rstrip_trail (Py.lstrip_of Py.is_space s))
    as [trail [Hr [Hbt [Hl Hk]]]].
  exists lead, trail. split; [now rewrite <- Hr |].
  split; [exact Hb |]. split; [exact Hbt |]. split; [| exact Hl].
  intros c r H. destruct (Hk c r H) as [r0 H0]. exact (Hh c r0 H0).
Qed.

(** A string trims to nothing exactly when it is whitespace only. *)
Lemma trims_to_empty raw out :
  trims_to raw out -> (out = EmptyString <-> blank raw = true).
Proof.
  intros (lead & trail & -> & Hb & Hbt & Hh & _). split.
  - intros ->. cbn [String.append]. now rewrite blank_app, Hb, Hbt.
  - rewrite !blank_app. intros H.
    apply andb_true_iff in H as [_ H]. apply andb_true_iff in H as [H _].
    destruct out as [| c r]; [reflexivity |].
    cbn [blank] in H. apply andb_true_iff in H as [H _].
    now rewrite (Hh c r eq_refl) in H.
Qed.

(** An entry whose value text, or whose amount text, is no integer
    literal raises ValueError, whatever its name is. *)
Lemma parse_entry_bad_number entry before ns after name :
  (forall ns0, In ns0 before -> no_name entry ns0) ->
  findtext entry (ns ++ "nameOfIssuer") = Some name ->
  name <> EmptyString ->
  Py.int_of_string
    (match findtext entry (ns ++ "value") with
     | Some x => x
     | None => "0"
     end) = None
  \/ (exists node,
        find_child entry (ns ++ "shrsOrPrnAmt") = Some node
        /\ Py.int_of_string
             (match findtext node (ns ++ "sshPrnamt") with
              | Some x => x
              | None => "0"
              end) = None) ->
  exists msg,
    parse_entry (before ++ ns :: after)%list entry
    = Raise (Exn ValueError msg).
Proof.
  intros Hbefore Hname Hne Hbad.
  assert (Htruthy : Py.truthy name = true).
  { unfold Py.truthy. apply negb_true_iff, String.eqb_neq. exact Hne. }
  rewrite parse_entry_skip by assumption.
  cbn [parse_entry]. rewrite Hname, Htruthy.
  unfold read_fields, py_int.
  rewrite (findtext_or_default entry (ns ++ "value")).
  destruct (Py.int_of_string
              match findtext entry (ns ++ "value") with
              | Some x => x
              | None => "0"
              end) as [value |] eqn:Hval; [| eexists; reflexivity].
  destruct Hbad as [Hv | [node [Hnode Hs]]]; [discriminate Hv |].
  cbn [obind]. rewrite Hnode.
  rewrite (findtext_or_default node (ns ++ "sshPrnamt")), Hs.
  eexists. reflexivity.
Qed.

(** C7, amended: an entry for which no candidate namespace gives a
    non-empty issuer name adds nothing to the output.  Otherwise the first
    candidate that gives one decides.  When the value text and the amount
    text are integer literals, the entry gives a record: the name
    without the whitespace around it, and the entry is dropped exactly
    when the name is whitespace only; the value is the integer of the
    value text, [0] without a value child, times 1000; the class title is
    [COM], the identifier empty and the discretion [SOLE] without their
    child, and trimmed with it; the shares are [0] and the type [SH]
    without an amount block, and the type is [SH] without a type child.
    When the value text, or the amount text of an amount block, is no
    integer literal (a value child without text is none), the entry is
    neither dropped nor recorded, whatever its name: it raises ValueError
    and the loop over the entries ends with that exception. *)
Theorem parse_entry_extraction
  (entry : element) (patterns : list string)
  (rest : list element) (holdings : list holding) :
  ((forall ns, In ns patterns -> no_name entry ns) ->
   parse_entry patterns entry = Ret None
   /\ parse_entries patterns (entry :: rest) holdings
      = parse_entries patterns rest holdings)
  /\
  (forall before ns after name value shares,
     patterns = (before ++ ns :: after)%list ->
     (forall ns0, In ns0 before -> no_name entry ns0) ->
     findtext entry (ns ++ "nameOfIssuer") = Some name ->
     name <> EmptyString ->
     Py.int_of_string
       (match findtext entry (ns ++ "value") with
        | Some x => x
        | None => "0"
        end) = Some value ->
     match find_child entry (ns ++ "shrsOrPrnAmt") with
     | Some node =>
         Py.int_of_string
           (match findtext node (ns ++ "sshPrnamt") with
            | Some x => x
            | None => "0"
            end) = Some shares
     | None => shares = 0
     end ->
     exists h,
       parse_entry patterns entry = Ret (Some h)
       /\ parse_entries patterns (entry :: rest) holdings
          = parse_entries patterns rest
              (if String.eqb (Py.strip name) EmptyString then holdings
               else (holdings ++ [h])%list)
       /\ h_name h = Py.strip name
       /\ h_value h = 1000 * value
       /\ h_title h = match findtext entry (ns ++ "titleOfClass") with
                      | Some x => Py.strip x
                      | None => "COM"
                      end
       /\ h_cusip h = match findtext entry (ns ++ "cusip") with
                      | Some x => Py.strip x
                      | None => EmptyString
                      end
       /\ h_shares h = shares
       /\ h_type h = match find_child entry (ns ++ "shrsOrPrnAmt") with
                     | Some node =>
                         match findtext node (ns ++ "sshPrnamtType") with
                         | Some x => x
                         | None => "SH"
                         end
                     | None => "SH"
                     end
       /\ h_discretion h
          = match findtext entry (ns ++ "investmentDiscretion") with
            | Some x => Py.strip x
            | None => "SOLE"
            end
       /\ h_weight h = None
       /\ trims_to name (h_name h)
       /\ parse_entries patterns (entry :: rest) holdings
          = parse_entries patterns rest
              (if blank name then holdings else (holdings ++ [h])%list)
       /\ (forall x, findtext entry (ns ++ "titleOfClass") = Some x ->
             trims_to x (h_title h))
       /\ (forall x, findtext entry (ns ++ "cusip") = Some x ->
             trims_to x (h_cusip h))
       /\ (forall x, findtext entry (ns ++ "investmentDiscretion") = Some x ->
             trims_to x (h_discretion h)))
  /\
  (forall before ns after name,
     patterns = (before ++ ns :: after)%list ->
     (forall ns0, In ns0 before -> no_name entry ns0) ->
     findtext entry (ns ++ "nameOfIssuer") = Some name ->
     name <> EmptyString ->
     Py.int_of_string
       (match findtext entry (ns ++ "value") with
        | Some x => x
        | None => "0"
        end) = None
     \/ (exists node,
           find_child entry (ns ++ "shrsOrPrnAmt") = Some node
           /\ Py.int_of_string
                (match findtext node (ns ++ "sshPrnamt") with
                 | Some x => x
                 | None => "0"
                 end) = None) ->
     exists msg,
       parse_entry patterns entry = Raise (Exn ValueError msg)
       /\ parse_entries patterns (entry :: rest) holdings
          = Raise (Exn ValueError msg)).
Proof.
  split; [| split].
  - intros H.
    assert (Hnone : parse_entry patterns entry = Ret None).
    { rewrite <- (app_nil_r patterns). now rewrite parse_entry_skip. }
    split; [exact Hnone |].
    cbn [parse_entries]. now rewrite Hnone.
  - intros before ns after name value shares -> Hbefore Hname Hne Hval Hsh.
    assert (Htruthy : Py.truthy name = true).
    { unfold Py.truthy. apply negb_true_iff, String.eqb_neq. exact Hne. }
    assert (Hrun : exists h,
               parse_entry (before ++ ns :: after)%list entry = Ret (Some h)
               /\ h_name h = Py.strip name
               /\ h_value h = 1000 * value
               /\ h_title h
                  = Py.strip (findtext_or entry (ns ++ "titleOfClass") "COM")
               /\ h_cusip h
                  = Py.strip (findtext_or entry (ns ++ "cusip") EmptyString)
               /\ h_shares h = shares
               /\ h_type h
                  = match find_child entry (ns ++ "shrsOrPrnAmt") with
                    | Some node =>
                        findtext_or node (ns ++ "sshPrnamtType") "SH"
                    | None => "SH"
                    end
               /\ h_discretion h
                  = Py.strip
                      (findtext_or entry (ns ++ "investmentDiscretion")
                         "SOLE")
               /\ h_weight h = None).
    { rewrite parse_entry_skip by assumption.
      cbn [parse_entry]. rewrite Hname, Htruthy.
      unfold read_fields, py_int.
      rewrite (findtext_or_default entry (ns ++ "value")), Hval.
      cbn [obind].
      destruct (find_child entry (ns ++ "shrsOrPrnAmt")) as [node |].
      - rewrite (findtext_or_default node (ns ++ "sshPrnamt")), Hsh.
        cbn [obind]. eexists. split; [reflexivity |].
        cbn [h_name h_value h_title h_cusip h_shares h_type
               h_discretion h_weight fst snd].
        repeat split. lia.
      - subst shares. cbn [obind]. eexists. split; [reflexivity |].
        cbn [h_name h_value h_title h_cusip h_shares h_type
               h_discretion h_weight fst snd].
        repeat split. lia. }
    destruct Hrun as [h [Hparse [Hn [Hv [Ht [Hc [Hs [Hty [Hd Hw]]]]]]]]].
    assert (Hkeep : parse_entries (before ++ ns :: after)%list
                      (entry :: rest) holdings
                    = parse_entries (before ++ ns :: after)%list rest
                        (if String.eqb (Py.strip name) EmptyString
                         then holdings else (holdings ++ [h])%list)).
    { cbn [parse_entries]. rewrite Hparse. cbn [obind keep].
      unfold Py.truthy. rewrite Hn.
      now destruct (String.eqb (Py.strip name) EmptyString). }
    assert (Htrim : trims_to name (h_name h))
      by (rewrite Hn; apply strip_trims).
    exists h. split; [exact Hparse |]. split; [exact Hkeep |].
    split; [exact Hn |]. split; [exact Hv |].
    rewrite Ht, Hc, Hty, Hd, !findtext_or_default.
    split; [now destruct (findtext entry (ns ++ "titleOfClass")) |].
    split; [now destruct (findtext entry (ns ++ "cusip")) |].
    split; [exact Hs |].
    split.
    { destruct (find_child entry (ns ++ "shrsOrPrnAmt")) as [node |];
        [| reflexivity].
      now rewrite findtext_or_default. }
    split; [now destruct (findtext entry (ns ++ "investmentDiscretion")) |].
    split; [exact Hw |].
    split; [exact Htrim |].
    split.
    { rewrite Hkeep.
      destruct (trims_to_empty name (Py.strip name) (strip_trims name))
        as [Hto Hfrom].
      destruct (String.eqb (Py.strip name) EmptyString) eqn:He.
      - apply String.eqb_eq in He. now rewrite (Hto He).
      - destruct (blank name); [| reflexivity].
        rewrite (Hfrom eq_refl), String.eqb_refl in He. discriminate He. }
    split; [| split]; intros x Hx; rewrite Hx; apply strip_trims.
  - intros before ns after name -> Hbefore Hname Hne Hbad.
    destruct (parse_entry_bad_number entry before ns after name
                Hbefore Hname Hne Hbad) as [msg Hraise].
    exists msg. split; [exact Hraise |].
    cbn [parse_entries]. now rewrite Hraise.
Qed.

(** C7 as the spec words it, refuted in both halves.  Were every entry
    whose name is whitespace only dropped, the parse of an entry with
    such a name and the value text 1,234 would be empty; it raises.  Were
    every other entry turned into a record, the parse of an entry with a
    name and a value child without text would be that record; it
    raises. *)
Lemma parse_entry_extraction_counterexample :
  ~ (forall (entry : element) (name : string),
       findtext entry "nameOfIssuer" = Some name ->
       blank name = true ->
       parse_entries ns_patterns [entry] [] = Ret [])
  /\
  ~ (forall (entry : element) (name : string),
       findtext entry "nameOfIssuer" = Some name ->
       blank name = false ->
       exists h,
         parse_entries ns_patterns [entry] [] = Ret [h]
         /\ h_name h = Py.strip name).
Proof.
  split; intros claim.
  - specialize (claim (blank_named "1,234") "   " eq_refl eq_refl).
    vm_compute in claim. discriminate claim.
  - destruct (claim empty_value_entry "ACME CORP" eq_refl eq_refl)
      as [h [H _]].
    vm_compute in H. discriminate H.
Qed.

(** *** Namespaces *)

Lemma eqb_append_same ns a b :
  String.eqb (ns ++ a) (ns ++ b) = String.eqb a b.
Proof.
  induction ns as [| c ns IH]; [reflexivity |].
  cbn. now rewrite Ascii.eqb_refl.
Qed.

Lemma plain_tag_head c r :
  plain_tag (String c r) = true -> Ascii.eqb c "{" = false.
Proof.
  unfold plain_tag, Py.contains. cbn [Py.find Py.startswith].
  rewrite Ascii.eqb_sym.
  destruct (Ascii.eqb c "{"); [discriminate | reflexivity].
Qed.

(** Tags of two different candidates never meet. *)
Lemma tag_mismatch a c t x :
  In a ns_patterns -> In c ns_patterns -> a <> c ->
  plain_tag t = true -> plain_tag x = true ->
  String.eqb (a ++ t) (c ++ x) = false.
Proof.
  unfold ns_patterns.
  intros [<- | [<- | [<- | [<- | []]]]] [<- | [<- | [<- | [<- | []]]]] Hne Ht Hx;
    try (exfalso; apply Hne; reflexivity);
    try reflexivity.
  - destruct x as [| cx x]; [reflexivity |].
    cbn. apply plain_tag_head in Hx. rewrite Ascii.eqb_sym in Hx.
    cbn in Hx. now rewrite Hx.
  - destruct x as [| cx x]; [reflexivity |].
    cbn. apply plain_tag_head in Hx. rewrite Ascii.eqb_sym in Hx.
    cbn in Hx. now rewrite Hx.
  - destruct x as [| cx x]; [reflexivity |].
    cbn. apply plain_tag_head in Hx. rewrite Ascii.eqb_sym in Hx.
    cbn in Hx. now rewrite Hx.
  - destruct t as [| ct t]; [reflexivity |].
    cbn. apply plain_tag_head in Ht. cbn in Ht. now rewrite Ht.
  - destruct t as [| ct t]; [reflexivity |].
    cbn. apply plain_tag_head in Ht. cbn in Ht. now rewrite Ht.
  - destruct t as [| ct t]; [reflexivity |].
    cbn. apply plain_tag_head in Ht. cbn in Ht. now rewrite Ht.
Qed.

Lemma tag_of_qualify ns e : tag_of (qualify ns e) = ns ++ tag_of e.
Proof. now destruct e. Qed.

Lemma text_of_qualify ns e : text_of (qualify ns e) = text_of e.
Proof. now destruct e. Qed.

Lemma children_of_qualify ns e :
  children_of (qualify ns e) = map (qualify ns) (children_of e).
Proof. now destruct e. Qed.

Lemma plain_tag_of e : plain e = true -> plain_tag (tag_of e) = true.
Proof. destruct e as [tag text cs]. cbn. now intros [H _]%andb_true_iff. Qed.

Lemma plain_children e :
  plain e = true -> Forall (fun c => plain c = true) (children_of e).
Proof.
  destruct e as [tag text cs]. cbn. intros [_ H]%andb_true_iff.
  now apply Forall_forall, forallb_forall.
Qed.

Lemma descendants_qualify ns e :
  descendants (qualify ns e) = map (qualify ns) (descendants e).
Proof.
  induction e as [tag text cs IH] using element_induction.
  cbn [qualify descendants].
  induction IH as [| c cs Hc _ IHcs]; [reflexivity |].
  cbn [map flat_map]. rewrite Hc, IHcs.
  now rewrite map_app.
Qed.

Lemma plain_descendants e :
  plain e = true -> Forall (fun d => plain d = true) (descendants e).
Proof.
  induction e as [tag text cs IH] using element_induction.
  intros Hp. apply plain_children in Hp. cbn [children_of] in Hp.
  cbn [descendants].
  induction IH as [| c cs Hc _ IHcs]; [constructor |].
  inversion Hp as [| ? ? Hpc Hpcs]; subst.
  cbn [flat_map]. apply Forall_app. split.
  - constructor; [assumption | now apply Hc].
  - now apply IHcs.
Qed.

Section Namespace.

Variable ns : string.
Hypothesis ns_known : In ns ns_patterns.

(** Among plain elements put in [ns], the ones with the tag [ns ++ x] are
    the ones that had the tag [x]; a tag of another candidate finds none. *)
Lemma filter_tag_same x l :
  filter (fun e => String.eqb (tag_of e) (ns ++ x)) (map (qualify ns) l)
  = map (qualify ns) (filter (fun e => String.eqb (tag_of e) x) l).
Proof.
  induction l as [| e l IH]; [reflexivity |].
  cbn [map filter]. rewrite tag_of_qualify, eqb_append_same, IH.
  now destruct (String.eqb (tag_of e) x).
Qed.

Lemma filter_tag_other c x l :
  In c ns_patterns -> c <> ns -> plain_tag x = true ->
  Forall (fun e => plain e = true) l ->
  filter (fun e => String.eqb (tag_of e) (c ++ x)) (map (qualify ns) l) = [].
Proof.
  intros Hc Hne Hx Hl. induction Hl as [| e l He _ IH]; [reflexivity |].
  cbn [map filter]. rewrite tag_of_qualify.
  rewrite tag_mismatch; auto using plain_tag_of.
Qed.

Lemma find_tag_same x l :
  List.find (fun e => String.eqb (tag_of e) (ns ++ x)) (map (qualify ns) l)
  = option_map (qualify ns)
      (List.find (fun e => String.eqb (tag_of e) x) l).
Proof.
  induction l as [| e l IH]; [reflexivity |].
  cbn [map List.find]. rewrite tag_of_qualify, eqb_append_same, IH.
  now destruct (String.eqb (tag_of e) x).
Qed.

Lemma find_tag_other c x l :
  In c ns_patterns -> c <> ns -> plain_tag x = true ->
  Forall (fun e => plain e = true) l ->
  List.find (fun e => String.eqb (tag_of e) (c ++ x)) (map (qualify ns) l)
  = None.
Proof.
  intros Hc Hne Hx Hl. induction Hl as [| e l He _ IH]; [reflexivity |].
  cbn [map List.find]. rewrite tag_of_qualify.
  rewrite tag_mismatch; auto using plain_tag_of.
Qed.

Lemma findall_same root x :
  findall (qualify ns root) (ns ++ x) = map (qualify ns) (findall root x).
Proof. unfold findall. now rewrite descendants_qualify, filter_tag_same. Qed.

Lemma findall_other root c x :
  In c ns_patterns -> c <> ns -> plain_tag x = true -> plain root = true ->
  findall (qualify ns root) (c ++ x) = [].
Proof.
  intros Hc Hne Hx Hp. unfold findall. rewrite descendants_qualify.
  apply filter_tag_other; auto using plain_descendants.
Qed.

Lemma find_child_same e x :
  find_child (qualify ns e) (ns ++ x)
  = option_map (qualify ns) (find_child e x).
Proof. unfold find_child. now rewrite children_of_qualify, find_tag_same. Qed.

Lemma findtext_same e x :
  findtext (qualify ns e) (ns ++ x) = findtext e x.
Proof.
  unfold findtext. rewrite find_child_same.
  destruct (find_child e x) as [c |]; [| reflexivity].
  cbn. now rewrite text_of_qualify.
Qed.

Lemma findtext_or_same e x default :
  findtext_or (qualify ns e) (ns ++ x) default = findtext_or e x default.
Proof. unfold findtext_or. now rewrite findtext_same. Qed.

Lemma findtext_other e c x :
  In c ns_patterns -> c <> ns -> plain_tag x = true -> plain e = true ->
  findtext (qualify ns e) (c ++ x) = None.
Proof.
  intros Hc Hne Hx Hp. unfold findtext, find_child.
  rewrite children_of_qualify, find_tag_other; auto using plain_children.
Qed.

(** The fields read in [ns] from the qualified entry are the fields read
    without namespace from the plain one. *)
Lemma read_fields_same entry name :
  read_fields ns (qualify ns entry) name = read_fields EmptyString entry name.
Proof.
  unfold read_fields. cbn [String.append].
  rewrite !findtext_or_same, find_child_same.
  destruct (find_child entry "shrsOrPrnAmt") as [node |]; cbn [option_map].
  - now rewrite !findtext_or_same.
  - reflexivity.
Qed.

(** Candidates other than [ns] find no name in the qualified entry. *)
Lemma parse_entry_others entry patterns :
  plain entry = true ->
  (forall c, In c patterns -> In c ns_patterns /\ c <> ns) ->
  parse_entry patterns (qualify ns entry) = Ret None.
Proof.
  intros Hp. induction patterns as [| c patterns IH]; intros H;
    [reflexivity |].
  cbn [parse_entry].
  destruct (H c (or_introl eq_refl)) as [Hc Hne].
  rewrite findtext_other by auto.
  apply IH. intros c0 H0. apply H. now right.
Qed.

Lemma parse_entry_around entry before after :
  plain entry = true ->
  (forall c, In c before -> In c ns_patterns /\ c <> ns) ->
  (forall c, In c after -> In c ns_patterns /\ c <> ns) ->
  parse_entry (before ++ ns :: after)%list (qualify ns entry)
  = parse_entry [EmptyString] entry.
Proof.
  intros Hp Hb Ha. induction before as [| c before IH].
  - cbn [app parse_entry String.append]. rewrite findtext_same.
    destruct (findtext entry "nameOfIssuer") as [name |].
    + destruct (Py.truthy name).
      * now rewrite read_fields_same.
      * now apply parse_entry_others.
    + now apply parse_entry_others.
  - cbn [app parse_entry].
    destruct (Hb c (or_introl eq_refl)) as [Hc Hne].
    rewrite findtext_other by auto.
    apply IH. intros c0 H0. apply Hb. now right.
Qed.

End Namespace.

Ltac known_and_other :=
  let c := fresh "c" in
  let H := fresh "H" in
  intros c H; cbn in H;
  repeat (destruct H as [<- | H]);
  [ .. | contradiction ];
  (split; [unfold ns_patterns; cbn; tauto | discriminate]).

(** Whichever candidate the document is written in, an entry is read as
    the plain entry is read without namespace. *)
Lemma parse_entry_qualify ns entry :
  In ns ns_patterns -> plain entry = true ->
  parse_entry ns_patterns (qualify ns entry)
  = parse_entry [EmptyString] entry.
Proof.
  intros Hin Hp. pose proof Hin as Hk. unfold ns_patterns in Hin.
  destruct Hin as [<- | [<- | [<- | [<- | []]]]].
  - apply (parse_entry_around _ Hk entry [] _ Hp); known_and_other.
  - apply (parse_entry_around _ Hk entry [_] _ Hp); known_and_other.
  - apply (parse_entry_around _ Hk entry [_; _] _ Hp); known_and_other.
  - apply (parse_entry_around _ Hk entry [_; _; _] [] Hp); known_and_other.
Qed.

Lemma parse_entries_qualify ns entries holdings :
  In ns ns_patterns -> Forall (fun e => plain e = true) entries ->
  parse_entries ns_patterns (map (qualify ns) entries) holdings
  = parse_entries [EmptyString] entries holdings.
Proof.
  intros Hin Hp. revert holdings.
  induction Hp as [| e entries He _ IH]; intros holdings; [reflexivity |].
  cbn [map parse_entries]. rewrite parse_entry_qualify by assumption.
  destruct (parse_entry [EmptyString] e) as [parsed | err]; cbn [obind];
    [apply IH | reflexivity].
Qed.

(** The entries found in the qualified document are the qualified entries
    of the plain one. *)
Lemma find_info_tables_qualify ns root :
  In ns ns_patterns -> plain root = true ->
  find_info_tables (qualify ns root) ns_patterns
  = map (qualify ns) (findall root "infoTable").
Proof.
  intros Hin Hp. pose proof Hin as Hk. unfold ns_patterns in Hin.
  assert (Hother : forall c, In c ns_patterns -> c <> ns ->
            findall (qualify ns root) (c ++ "infoTable") = []).
  { intros c Hc Hne. now apply findall_other. }
  assert (Hsame : findall (qualify ns root) (ns ++ "infoTable")
                  = map (qualify ns) (findall root "infoTable")).
  { apply findall_same. }
  destruct Hin as [<- | [<- | [<- | [<- | []]]]];
    unfold ns_patterns; cbn [find_info_tables];
    repeat (first
      [ rewrite Hsame
      | rewrite Hother by (unfold ns_patterns; cbn; first [tauto | discriminate]) ]);
    destruct (map _ (findall root "infoTable")); reflexivity.
Qed.

(** A root tag in a known namespace, or in none, leaves the candidate list
    as it is. *)
Lemma ns_patterns_for_known ns tag :
  In ns ns_patterns -> plain_tag tag = true ->
  ns_patterns_for (ns ++ tag) = Ret ns_patterns.
Proof.
  intros Hin Hp. unfold ns_patterns in Hin.
  destruct Hin as [<- | [<- | [<- | [<- | []]]]]; try reflexivity.
  unfold ns_patterns_for. cbn [String.append].
  unfold plain_tag in Hp. apply negb_true_iff in Hp. now rewrite Hp.
Qed.

Lemma qualify_empty e : qualify EmptyString e = e.
Proof.
  induction e as [tag text cs IH] using element_induction.
  cbn. f_equal. induction IH as [| c cs Hc _ IHcs]; [reflexivity |].
  cbn. now rewrite Hc, IHcs.
Qed.

(** A document in a known namespace is parsed as its plain tree is read
    without namespace. *)
Lemma parse_root_qualified ns root :
  In ns ns_patterns -> plain root = true ->
  parse_root (qualify ns root)
  = parse_entries [EmptyString] (findall root "infoTable") [].
Proof.
  intros Hin Hp. unfold parse_root.
  rewrite tag_of_qualify, ns_patterns_for_known by auto using plain_tag_of.
  cbn [obind]. rewrite find_info_tables_qualify by assumption.
  apply parse_entries_qualify; [assumption |].
  unfold findall. apply Forall_forall. intros e [He _]%filter_In.
  revert e He. apply Forall_forall. now apply plain_descendants.
Qed.

Lemma parse_root_qualify ns root :
  In ns ns_patterns -> plain root = true ->
  parse_root (qualify ns root) = parse_root root.
Proof.
  intros Hin Hp. rewrite parse_root_qualified by assumption.
  rewrite <- (qualify_empty root) at 2.
  rewrite parse_root_qualified; [reflexivity | | assumption].
  unfold ns_patterns. cbn. tauto.
Qed.

(** C3: let three documents carry the same plain tree, one without
    namespace and the other two in namespaces [a] and [b] of the known
    list.  Then [parse_13f_xml] gives the same outcome, hence the same
    holdings, on all three. *)
Theorem parse_13f_xml_namespace_tolerant
  (E : Env) (doc : element) (a b xml_plain xml_a xml_b : string) :
  plain doc = true ->
  In a ns_patterns -> In b ns_patterns ->
  xml_fromstring E xml_plain = inr doc ->
  xml_fromstring E xml_a = inr (qualify a doc) ->
  xml_fromstring E xml_b = inr (qualify b doc) ->
  parse_13f_xml E xml_a = parse_13f_xml E xml_plain
  /\ parse_13f_xml E xml_b = parse_13f_xml E xml_plain
  /\ parse_13f_xml E xml_plain = parse_root doc.
Proof.
  intros Hp Ha Hb H0 H1 H2.
  unfold parse_13f_xml, fromstring_bytes. rewrite H0, H1, H2.
  cbn [obind]. rewrite !parse_root_qualify by assumption.
  repeat split.
Qed.

(** ** Sorting *)

Section StableSort.

Context {A : Type}.
Variable le : A -> A -> bool.
Hypothesis le_total : forall a b, le a b = true \/ le b a = true.
Hypothesis le_trans :
  forall a b c, le a b = true -> le b c = true -> le a c = true.

Let R (a b : A) : Prop := le a b = true.

Lemma insert_by_In x y l : In y (insert_by le x l) <-> y = x \/ In y l.
Proof.
  induction l as [| z l IH]; cbn.
  - intuition.
  - destruct (le x z); cbn; [intuition |].
    rewrite IH. intuition.
Qed.

Lemma insert_by_sorted x l :
  StronglySorted R l -> StronglySorted R (insert_by le x l).
Proof.
  induction 1 as [| z l Hs IH Hz]; cbn.
  - repeat constructor.
  - destruct (le x z) eqn:Hxz.
    + constructor; [now constructor |].
      constructor; [exact Hxz |].
      apply Forall_forall. intros y Hy.
      rewrite Forall_forall in Hz. eapply le_trans; [exact Hxz |].
      now apply Hz.
    + constructor; [assumption |].
      apply Forall_forall. intros y [-> | Hy]%insert_by_In.
      * destruct (le_total x z) as [H | H]; [congruence | exact H].
      * rewrite Forall_forall in Hz. now apply Hz.
Qed.

Lemma stable_sort_sorted l : StronglySorted R (stable_sort le l).
Proof.
  induction l as [| x l IH]; cbn; [constructor |].
  now apply insert_by_sorted.
Qed.

Lemma insert_by_length x l :
  List.length (insert_by le x l) = S (List.length l).
Proof.
  induction l as [| z l IH]; cbn; [reflexivity |].
  destruct (le x z); cbn; [reflexivity | now rewrite IH].
Qed.

Lemma stable_sort_length l :
  List.length (stable_sort le l) = List.length l.
Proof.
  induction l as [| x l IH]; [reflexivity |].
  unfold stable_sort in *. cbn [fold_right].
  now rewrite insert_by_length, IH.
Qed.

End StableSort.

(** The sort only reorders. *)
Lemma stable_sort_Permutation {A} (le : A -> A -> bool) l :
  Permutation (stable_sort le l) l.
Proof.
  induction l as [| x l IH]; [constructor |].
  unfold stable_sort in *. cbn [fold_right].
  transitivity (x :: fold_right (insert_by le) [] l);
    [| now constructor].
  generalize (fold_right (insert_by le) [] l). clear.
  intros s. induction s as [| y s IH]; cbn; [reflexivity |].
  destruct (le x y); [reflexivity |].
  rewrite IH. apply perm_swap.
Qed.

Lemma StronglySorted_firstn {A} (R : A -> A -> Prop) n l :
  StronglySorted R l -> StronglySorted R (firstn n l).
Proof.
  intros H. revert n. induction H as [| x l Hs IH Hx]; intros [| n]; cbn;
    try constructor.
  - apply IH.
  - apply Forall_forall. intros y Hy.
    rewrite Forall_forall in Hx. apply Hx.
    rewrite <- (firstn_skipn n l). apply in_or_app. now left.
Qed.

(** ** EntityProcessor *)

Lemma sorted_by_value_desc l :
  non_increasing (stable_sort by_value_desc l).
Proof.
  unfold non_increasing.
  assert (H : StronglySorted (fun a b => by_value_desc a b = true)
                (stable_sort by_value_desc l)).
  { apply stable_sort_sorted; unfold by_value_desc.
    - intros a b. rewrite !Z.leb_le. lia.
    - intros a b c. rewrite !Z.leb_le. lia. }
  induction H as [| x s Hs IH Hx]; cbn; constructor; [assumption |].
  rewrite Forall_map. rewrite Forall_forall in *. intros y Hy.
  specialize (Hx y Hy). unfold by_value_desc in Hx.
  apply Z.leb_le in Hx. lia.
Qed.

(** Adding the weights changes no other entry, the value least of all. *)
Lemma add_weights_values total l weighted :
  add_weights total l = Ret weighted ->
  map h_value weighted = map h_value l.
Proof.
  revert weighted. induction l as [| h l IH]; intros weighted; cbn.
  - now intros [= <-].
  - unfold weigh.
    destruct (0 <? total).
    + destruct (true_div_overflows (h_value h) total); cbn; [discriminate |].
      destruct (add_weights total l) as [w |]; cbn; [| discriminate].
      intros [= <-]. cbn. now rewrite (IH w).
    + cbn. destruct (add_weights total l) as [w |]; cbn; [| discriminate].
      intros [= <-]. cbn. now rewrite (IH w).
Qed.

Lemma non_increasing_firstn n l :
  non_increasing l -> non_increasing (firstn n l).
Proof.
  unfold non_increasing. rewrite <- firstn_map.
  apply StronglySorted_firstn.
Qed.

Lemma pair_ret_inv {A S} (a b : A) (s s' : S) :
  (Ret a, s) = (Ret b, s') -> a = b /\ s = s'.
Proof. intros H. inversion H. auto. Qed.

(** One case split per step of [process_steps]. *)
Ltac run_steps H :=
  repeat (cbv beta iota in H;
          match type of H with
          | context [negb (Py.truthy ?x)] =>
              destruct (Py.truthy x) eqn:?; cbn [negb] in H
          | context [find_info_table_url ?E ?a ?b ?c ?t] =>
              destruct (find_info_table_url E a b c t) as [[? | ?] ?] eqn:?
          | context [fetch_url ?E ?a ?b ?t] =>
              destruct (fetch_url E a b t) as [[? | ?] ?] eqn:?
          | context [parse_13f_xml ?E ?x] =>
              destruct (parse_13f_xml E x) as [[| ? ?] | ?] eqn:?
          | context [add_weights ?a ?b] =>
              destruct (add_weights a b) as [? | ?] eqn:?
          | context [format_total ?x] =>
              destruct (format_total x) as [? | ?] eqn:?
          | context [String.eqb (fi_group ?i) ?c] =>
              destruct (String.eqb (fi_group i) c) eqn:?
          end).

(** A result without error went through every step: its two lists are
    cut from the parsed holdings, sorted and weighed. *)
Lemma process_fund_success E cik info t r t' :
  process_fund E cik info t = (Ret r, t') ->
  r_error r = None ->
  exists holdings weighted,
    holdings <> []
    /\ add_weights (sum_values holdings)
         (stable_sort by_value_desc holdings) = Ret weighted
    /\ r_top_holdings r
       = firstn (if String.eqb (fi_group info) "C" then 10 else 20) weighted
    /\ r_all_holdings r = firstn 50 weighted
    /\ r_total_value r = sum_values holdings
    /\ r_num_holdings r = Z.of_nat (List.length holdings).
Proof.
  unfold process_fund, try_except, process_steps.
  cbv beta iota delta [bind on_trace update lift ret sleep emit fst snd].
  intros H Herr.
  destruct (get_latest_13f_url E cik t)
    as [[[[raw period] fmt] | e] t1] eqn:Hloc.
  2:{ cbv beta iota in H. inversion H; subst. discriminate Herr. }
  run_steps H; apply pair_ret_inv in H as [Hr Ht]; subst r t';
    try discriminate Herr.
  all: match goal with
       | Hw : add_weights _ (stable_sort _ ?hs) = Ret ?w |- _ => exists hs, w
       end.
  all: repeat split; try reflexivity; try assumption; discriminate.
Qed.

(** [process_fund] hands back a result whatever happens below it. *)
Lemma process_fund_never_raises E cik info t :
  exists r t', process_fund E cik info t = (Ret r, t').
Proof.
  unfold process_fund, try_except.
  destruct (process_steps E cik info (t, _)) as [[[] | e] [t1 r1]]; eauto.
  cbv beta iota delta [update fst snd]. eauto.
Qed.

(** C5: in a result without error, [top_holdings] has at most 10 entries
    for a fund of group C and at most 20 otherwise, [all_holdings] has at
    most 50, and in both the values never increase. *)
Theorem process_fund_truncation E cik info t r t' :
  process_fund E cik info t = (Ret r, t') ->
  r_error r = None ->
  (List.length (r_top_holdings r)
   <= if String.eqb (fi_group info) "C" then 10 else 20)%nat
  /\ (List.length (r_all_holdings r) <= 50)%nat
  /\ non_increasing (r_top_holdings r)
  /\ non_increasing (r_all_holdings r).
Proof.
  intros H Herr.
  destruct (process_fund_success _ _ _ _ _ _ H Herr)
    as [holdings [weighted [_ [Hw [-> [-> _]]]]]].
  assert (Hs : non_increasing weighted).
  { unfold non_increasing. rewrite (add_weights_values _ _ _ Hw).
    apply sorted_by_value_desc. }
  repeat split; auto using firstn_le_length, non_increasing_firstn.
Qed.

(** C10: in a result without error, [top_holdings] is an initial segment
    of [all_holdings]: every entry of the first is the entry of the second
    at the same index. *)
Theorem process_fund_top_prefix_of_all E cik info t r t' :
  process_fund E cik info t = (Ret r, t') ->
  r_error r = None ->
  r_top_holdings r
  = firstn (List.length (r_top_holdings r)) (r_all_holdings r)
  /\ (forall i h,
        nth_error (r_top_holdings r) i = Some h ->
        nth_error (r_all_holdings r) i = Some h).
Proof.
  intros H Herr.
  destruct (process_fund_success _ _ _ _ _ _ H Herr)
    as [holdings [weighted [_ [_ [Htop [Hall _]]]]]].
  assert (Hpre : exists n, (n <= 50)%nat
                           /\ r_top_holdings r = firstn n (r_all_holdings r)).
  { rewrite Htop, Hall.
    destruct (String.eqb (fi_group info) "C");
      [exists 10%nat | exists 20%nat];
      (split; [lia |]); rewrite firstn_firstn; reflexivity. }
  destruct Hpre as [n [_ Hn]]. split.
  - rewrite Hn at 2. rewrite length_firstn.
    rewrite Hn at 1.
    destruct (Nat.le_ge_cases n (List.length (r_all_holdings r))).
    + now rewrite Nat.min_l.
    + rewrite Nat.min_r by assumption.
      now rewrite !firstn_all2 by lia.
  - intros i h Hi. rewrite Hn, nth_error_firstn in Hi.
    destruct (Nat.ltb i n); [exact Hi | discriminate Hi].
Qed.

(** C1, at the input where it fails.  The table has one line whose value
    has 307 digits.  Every step succeeds, the totals and both lists are
    stored, and then the closing [print] cannot format the total: the
    handler records the error on a result that keeps one holding in each
    list, a count of 1 and a total of [10^309]. *)
Theorem process_fund_error_keeps_positions :
  exists r t',
    process_fund (serving sample_submissions huge_table) "1423053" citadel []
    = (Ret r, t')
    /\ r_error r = Some "int too large to convert to float"
    /\ List.length (r_top_holdings r) = 1%nat
    /\ List.length (r_all_holdings r) = 1%nat
    /\ r_num_holdings r = 1
    /\ r_total_value r = 10 ^ 309.
Proof.
  eexists. eexists. split; [vm_compute; reflexivity |].
  repeat split; vm_compute; reflexivity.
Qed.

Lemma add_weights_raises total l e :
  add_weights total l = Raise e -> exn_class_of e = OverflowError.
Proof.
  induction l as [| h l IH]; cbn; [discriminate |].
  unfold weigh. destruct (0 <? total).
  - destruct (true_div_overflows (h_value h) total); cbn.
    + now intros [= <-].
    + destruct (add_weights total l) as [w | e0]; cbn; [discriminate |].
      intros [= <-]. now apply IH.
  - cbn. destruct (add_weights total l) as [w | e0]; cbn; [discriminate |].
    intros [= <-]. now apply IH.
Qed.

Lemma format_total_raises total e :
  format_total total = Raise e -> exn_class_of e = OverflowError.
Proof.
  unfold format_total. destruct (float_overflows total); [| discriminate].
  now intros [= <-].
Qed.

(** What does hold of C1.  [process_fund] never raises, and a result with
    an error has empty lists and zero totals unless the failure is an
    overflow met after the holdings were parsed, in the weights or in the
    closing [print]. *)
Lemma process_fund_error_cases E cik info t r t' msg :
  process_fund E cik info t = (Ret r, t') ->
  r_error r = Some msg ->
  (r_top_holdings r = [] /\ r_all_holdings r = []
   /\ r_total_value r = 0 /\ r_num_holdings r = 0)
  \/ (exists holdings e,
        holdings <> []
        /\ r_total_value r = sum_values holdings
        /\ r_num_holdings r = Z.of_nat (List.length holdings)
        /\ msg = exn_str e
        /\ exn_class_of e = OverflowError).
Proof.
  unfold process_fund, try_except, process_steps.
  cbv beta iota delta [bind on_trace update lift ret sleep emit fst snd].
  intros H Herr.
  destruct (get_latest_13f_url E cik t)
    as [[[[raw period] fmt] | e] t1] eqn:Hloc.
  2:{ cbv beta iota in H. apply pair_ret_inv in H as [<- _].
      left. repeat split. }
  run_steps H; apply pair_ret_inv in H as [<- _];
    try discriminate Herr;
    try (left; repeat split; reflexivity).
  all: right; injection Herr as <-.
  all: match goal with
       | Hw : add_weights _ (stable_sort _ ?hs) = Raise ?e |- _ =>
           exists hs, e; repeat split;
           [discriminate | exact (add_weights_raises _ _ _ Hw)]
       | Hf : format_total (sum_values ?hs) = Raise ?e |- _ =>
           exists hs, e; repeat split;
           [discriminate | exact (format_total_raises _ _ Hf)]
       end.
Qed.

(** ** OverlapAnalyzer *)

Lemma stable_sort_In {A} (le : A -> A -> bool) y l :
  In y (stable_sort le l) <-> In y l.
Proof.
  induction l as [| x l IH]; [reflexivity |].
  unfold stable_sort in *. cbn [fold_right].
  rewrite insert_by_In. cbn. rewrite IH. intuition.
Qed.

Lemma In_firstn {A} (x : A) n l : In x (firstn n l) -> In x l.
Proof.
  intros H. rewrite <- (firstn_skipn n l). apply in_or_app. now left.
Qed.

Lemma tuple_le_iff a b :
  tuple_le a b = true
  <-> fst a < fst b \/ (fst a = fst b /\ snd a <= snd b).
Proof.
  unfold tuple_le.
  rewrite orb_true_iff, andb_true_iff, Z.ltb_lt, Z.eqb_eq, Z.leb_le.
  reflexivity.
Qed.

(** The order of the output: more holders first, and among equal counts
    the larger total first. *)
Lemma by_overlap_key_counted a b :
  by_overlap_key (counted a) (counted b) = true
  <-> (List.length (s_funds b) < List.length (s_funds a))%nat
      \/ (List.length (s_funds a) = List.length (s_funds b)
          /\ s_total_value b <= s_total_value a).
Proof.
  unfold by_overlap_key. rewrite tuple_le_iff. cbn. lia.
Qed.

(** What does hold of C4: at most 30 records; each with [fund_count] the
    length of its [funds], which is at least 2, and [fund_names] the names
    in [funds]; the records in the order of the sort key. *)
Lemma find_cross_fund_overlap_shape all_funds :
  (List.length (find_cross_fund_overlap all_funds) <= 30)%nat
  /\ Forall (fun v =>
               s_fund_count v = Some (Z.of_nat (List.length (s_funds v)))
               /\ (2 <= List.length (s_funds v))%nat
               /\ s_fund_names v = Some (map hd_fund (s_funds v)))
       (find_cross_fund_overlap all_funds)
  /\ StronglySorted (fun a b => by_overlap_key a b = true)
       (find_cross_fund_overlap all_funds).
Proof.
  unfold find_cross_fund_overlap. split; [apply firstn_le_length |]. split.
  - apply Forall_forall. intros v Hv.
    apply In_firstn, stable_sort_In, in_map_iff in Hv.
    destruct Hv as [u [<- [_ Hu]%filter_In]].
    unfold shared in Hu. apply Z.leb_le in Hu.
    cbn. repeat split. lia.
  - apply StronglySorted_firstn, stable_sort_sorted.
    + intros a b. unfold by_overlap_key. rewrite !tuple_le_iff. lia.
    + intros a b c. unfold by_overlap_key. rewrite !tuple_le_iff. lia.
Qed.

(** C4, at the input where it fails.  One fund, processed without error,
    lists the same security on two lines.  It is the only holder, and the
    security is emitted with a [fund_count] of 2 and the fund named
    twice. *)
Theorem find_cross_fund_overlap_counts_lines :
  exists r t' v,
    process_fund (serving sample_submissions sample_table) "1423053"
      citadel [] = (Ret r, t')
    /\ r_error r = None
    /\ List.length (holders_of "037833100" [r]) = 1%nat
    /\ find_cross_fund_overlap [r] = [v]
    /\ s_cusip v = "037833100"
    /\ s_fund_count v = Some 2
    /\ s_fund_names v = Some ["Citadel Advisors"; "Citadel Advisors"].
Proof.
  eexists. eexists. eexists. split; [vm_compute; reflexivity |].
  split; [reflexivity |]. split; [reflexivity |].
  split; [vm_compute; reflexivity |].
  repeat split.
Qed.

(** ** The theorems at work on the sample data *)

(** The sample table parses to its three lines, values in dollars. *)
Example parse_13f_xml_sample :
  option_map (map (fun h => (h_name h, h_cusip h, h_value h, h_shares h)))
    (match parse_13f_xml (serving sample_submissions sample_table) "table"
     with
     | Ret holdings => Some holdings
     | Raise _ => None
     end)
  = Some [ ("APPLE INC", "037833100", 1234000, 5000);
           ("MICROSOFT CORP", "594918104", 2000000, 4000);
           ("APPLE INC", "037833100", 500000, 2000) ].
Proof. reflexivity. Qed.

(** With only the index page at hand, the table is found by the second
    method, after two requests. *)
Example find_info_table_url_by_page :
  find_info_table_url (serving_page sample_page) "1423053"
    "000095012325008343" "0000950123-25-008343" []
  = (Ret ("https://www.sec.gov/Archives/edgar/data/1423053/"
            ++ "000095012325008343/form13fInfoTable.xml"),
     [EvOpen (index_json_url "1423053" "000095012325008343"
                "0000950123-25-008343");
      EvOpen (index_html_url "1423053" "000095012325008343"
                "0000950123-25-008343")]).
Proof. reflexivity. Qed.


Lemma find_info_table_url_fallback_witness :
  (exists rest,
     snd (find_info_table_url not_found "1423053" "000095012325008343"
            "0000950123-25-008343" [])
     = EvOpen (index_json_url "1423053" "000095012325008343"
                 "0000950123-25-008343")
         :: EvOpen (index_html_url "1423053" "000095012325008343"
                      "0000950123-25-008343")
         :: rest)
  /\ (exists t',
        find_info_table_url not_found "1423053" "000095012325008343"
          "0000950123-25-008343" []
        = (Ret EmptyString, t')).
Proof.
  pose proof (find_info_table_url_fallback not_found "1423053"
                "000095012325008343" "0000950123-25-008343" [])
    as [_ [Hpage Hprobe]].
  split.
  - apply (Hpage [EvOpen (index_json_url "1423053" "000095012325008343"
                            "0000950123-25-008343")]).
    reflexivity.
  - apply (Hprobe
             [EvOpen (index_json_url "1423053" "000095012325008343"
                        "0000950123-25-008343")]
             [EvOpen (index_json_url "1423053" "000095012325008343"
                        "0000950123-25-008343");
              EvOpen (index_html_url "1423053" "000095012325008343"
                        "0000950123-25-008343")]);
      [reflexivity | reflexivity |].
    intros name t0 _. eexists. eexists. reflexivity.
Defined.

Lemma find_info_table_url_rate_limited_probe_witness :
  find_info_table_url rate_limited "1423053" "000095012325008343"
    "0000950123-25-008343" []
  = (Ret (base_url_of "1423053" "000095012325008343"
            ++ "form13fInfoTable.xml"),
     [EvOpen (index_json_url "1423053" "000095012325008343"
                "0000950123-25-008343"); EvSleep 12000;
      EvOpen (index_json_url "1423053" "000095012325008343"
                "0000950123-25-008343"); EvSleep 24000;
      EvOpen (index_json_url "1423053" "000095012325008343"
                "0000950123-25-008343"); EvSleep 36000;
      EvOpen (index_html_url "1423053" "000095012325008343"
                "0000950123-25-008343"); EvSleep 12000;
      EvOpen (index_html_url "1423053" "000095012325008343"
                "0000950123-25-008343"); EvSleep 24000;
      EvOpen (index_html_url "1423053" "000095012325008343"
                "0000950123-25-008343"); EvSleep 36000;
      EvOpen (base_url_of "1423053" "000095012325008343"
                ++ "form13fInfoTable.xml"); EvSleep 12000;
      EvOpen (base_url_of "1423053" "000095012325008343"
                ++ "form13fInfoTable.xml"); EvSleep 24000;
      EvOpen (base_url_of "1423053" "000095012325008343"
                ++ "form13fInfoTable.xml"); EvSleep 36000]).
Proof.
  destruct (find_info_table_url_rate_limited_probe rate_limited
              "1423053" "000095012325008343" "0000950123-25-008343"
              []
              [EvOpen (index_json_url "1423053" "000095012325008343"
                         "0000950123-25-008343"); EvSleep 12000;
               EvOpen (index_json_url "1423053" "000095012325008343"
                         "0000950123-25-008343"); EvSleep 24000;
               EvOpen (index_json_url "1423053" "000095012325008343"
                         "0000950123-25-008343"); EvSleep 36000]
              [EvOpen (index_json_url "1423053" "000095012325008343"
                         "0000950123-25-008343"); EvSleep 12000;
               EvOpen (index_json_url "1423053" "000095012325008343"
                         "0000950123-25-008343"); EvSleep 24000;
               EvOpen (index_json_url "1423053" "000095012325008343"
                         "0000950123-25-008343"); EvSleep 36000;
               EvOpen (index_html_url "1423053" "000095012325008343"
                         "0000950123-25-008343"); EvSleep 12000;
               EvOpen (index_html_url "1423053" "000095012325008343"
                         "0000950123-25-008343"); EvSleep 24000;
               EvOpen (index_html_url "1423053" "000095012325008343"
                         "0000950123-25-008343"); EvSleep 36000]
              []
              ["infotable.xml"; "InfoTable.xml"; "INFOTABLE.XML";
               "information_table.xml"; "xslForm13F_X02.xml"]
              "form13fInfoTable.xml")
    as [before [Hrun [Hord _]]].
  - vm_compute. reflexivity.
  - vm_compute. reflexivity.
  - reflexivity.
  - intros nm t0 [].
  - intros t0. exists "HTTP Error 429: Too Many Requests". reflexivity.
  - inversion Hord; subst. exact Hrun.
Defined.

Lemma parse_13f_xml_namespace_tolerant_witness :
  parse_13f_xml (serving sample_submissions sample_table) "table"
  = parse_13f_xml (serving sample_submissions sample_table) "plain"
  /\ parse_13f_xml (serving sample_submissions sample_table) "thirteenf"
     = parse_13f_xml (serving sample_submissions sample_table) "plain"
  /\ parse_13f_xml (serving sample_submissions sample_table) "plain"
     = parse_root (information_table EmptyString
                     (sample_entries EmptyString)).
Proof.
  apply (parse_13f_xml_namespace_tolerant
           (serving sample_submissions sample_table)
           (information_table EmptyString (sample_entries EmptyString))
           ns_document ns_thirteenf "plain" "table" "thirteenf");
    try reflexivity.
  - left. reflexivity.
  - right. left. reflexivity.
Defined.

Lemma parse_entry_extraction_witness :
  (parse_entry ns_patterns (Element "infoTable" None []) = Ret None
   /\ parse_entries ns_patterns [Element "infoTable" None []] [] = Ret [])
  /\ (exists h,
        parse_entry ns_patterns padded_entry = Ret (Some h)
        /\ parse_entries ns_patterns [padded_entry] [] = Ret [h]
        /\ h_name h = "APPLE INC"
        /\ h_value h = 1234000
        /\ h_cusip h = "037833100"
        /\ trims_to "  APPLE INC  " (h_name h))
  /\ (exists h,
        parse_entry ns_patterns (blank_named "1234") = Ret (Some h)
        /\ parse_entries ns_patterns [blank_named "1234"] [] = Ret [])
  /\ (exists msg,
        parse_entries ns_patterns [blank_named "1,234"] []
        = Raise (Exn ValueError msg))
  /\ (exists msg,
        parse_entries ns_patterns [empty_value_entry] []
        = Raise (Exn ValueError msg))
  /\ (exists msg,
        parse_entries ns_patterns [fractional_shares_entry] []
        = Raise (Exn ValueError msg)).
Proof.
  assert (Hne : forall c r, String c r <> EmptyString) by discriminate.
  split; [| split; [| split; [| split; [| split]]]].
  - apply (proj1 (parse_entry_extraction (Element "infoTable" None [])
                    ns_patterns [] [])).
    intros ns _. left. reflexivity.
  - destruct (proj1 (proj2 (parse_entry_extraction padded_entry
                              ns_patterns [] []))
                [] ns_document
                [ns_thirteenf;
                 "{http://www.sec.gov/edgar/common/informationtable}";
                 EmptyString]
                "  APPLE INC  " 1234 5000
                eq_refl
                (fun ns0 (H : In ns0 []) => match H with end)
                eq_refl (Hne _ _) eq_refl eq_refl)
      as (h & Hrun & Hkeep & Hname & Hvalue & _ & Hcusip & _ & _ & _ & _
          & Htrim & _).
    exists h. split; [exact Hrun |]. split; [exact Hkeep |].
    split; [exact Hname |]. split; [exact Hvalue |].
    split; [exact Hcusip | exact Htrim].
  - destruct (proj1 (proj2 (parse_entry_extraction (blank_named "1234")
                              ns_patterns [] []))
                [ns_document; ns_thirteenf;
                 "{http://www.sec.gov/edgar/common/informationtable}"]
                EmptyString []
                "   " 1234 10 eq_refl)
      as (h & Hrun & _ & _ & _ & _ & _ & _ & _ & _ & _ & _ & Hkeep & _).
    + intros ns0 H. left.
      repeat (destruct H as [<- | H]; [reflexivity |]). destruct H.
    + reflexivity.
    + apply Hne.
    + reflexivity.
    + reflexivity.
    + exists h. split; [exact Hrun | exact Hkeep].
  - destruct (proj2 (proj2 (parse_entry_extraction (blank_named "1,234")
                              ns_patterns [] []))
                [ns_document; ns_thirteenf;
                 "{http://www.sec.gov/edgar/common/informationtable}"]
                EmptyString [] "   " eq_refl)
      as (msg & _ & Hrun).
    + intros ns0 H. left.
      repeat (destruct H as [<- | H]; [reflexivity |]). destruct H.
    + reflexivity.
    + apply Hne.
    + left. reflexivity.
    + exists msg. exact Hrun.
  - destruct (proj2 (proj2 (parse_entry_extraction empty_value_entry
                              ns_patterns [] []))
                [ns_document; ns_thirteenf;
                 "{http://www.sec.gov/edgar/common/informationtable}"]
                EmptyString [] "ACME CORP" eq_refl)
      as (msg & _ & Hrun).
    + intros ns0 H. left.
      repeat (destruct H as [<- | H]; [reflexivity |]). destruct H.
    + reflexivity.
    + apply Hne.
    + left. reflexivity.
    + exists msg. exact Hrun.
  - destruct (proj2 (proj2 (parse_entry_extraction fractional_shares_entry
                              ns_patterns [] []))
                [ns_document; ns_thirteenf;
                 "{http://www.sec.gov/edgar/common/informationtable}"]
                EmptyString [] "ACME CORP" eq_refl)
      as (msg & _ & Hrun).
    + intros ns0 H. left.
      repeat (destruct H as [<- | H]; [reflexivity |]). destruct H.
    + reflexivity.
    + apply Hne.
    + right. eexists. split; reflexivity.
    + exists msg. exact Hrun.
Defined.

Lemma process_fund_truncation_witness :
  exists r t',
    process_fund (serving sample_submissions sample_table) "1423053"
      citadel [] = (Ret r, t')
    /\ List.length (r_top_holdings r) = 3%nat
    /\ (List.length (r_top_holdings r) <= 10)%nat
    /\ (List.length (r_all_holdings r) <= 50)%nat
    /\ non_increasing (r_top_holdings r)
    /\ non_increasing (r_all_holdings r).
Proof.
  eexists. eexists. split; [vm_compute; reflexivity |].
  split; [reflexivity |].
  refine (process_fund_truncation (serving sample_submissions sample_table)
            "1423053" citadel [] _ _ _ _);
    [vm_compute; reflexivity | reflexivity].
Defined.

Lemma process_fund_top_prefix_of_all_witness :
  exists r t',
    process_fund (serving sample_submissions sample_table) "1423053"
      citadel [] = (Ret r, t')
    /\ List.length (r_top_holdings r) = 3%nat
    /\ r_top_holdings r
       = firstn (List.length (r_top_holdings r)) (r_all_holdings r)
    /\ (forall i h,
          nth_error (r_top_holdings r) i = Some h ->
          nth_error (r_all_holdings r) i = Some h).
Proof.
  eexists. eexists. split; [vm_compute; reflexivity |].
  split; [reflexivity |].
  refine (process_fund_top_prefix_of_all
            (serving sample_submissions sample_table)
            "1423053" citadel [] _ _ _ _);
    [vm_compute; reflexivity | reflexivity].
Defined.

(** * Further properties *)

(** ** Transport: effort, failures and bodies *)

Lemma sleep_total_app t1 t2 :
  sleep_total (t1 ++ t2)%list = sleep_total t1 + sleep_total t2.
Proof.
  induction t1 as [| [u | ms] t1 IH]; cbn [app sleep_total]; lia.
Qed.

Section Effort.

Variable E : Env.

Lemma fetch_attempts_effort url n attempts t :
  Forall (fun a => 0 <= a) attempts ->
  exists d,
    snd (fetch_attempts E url n attempts t) = (t ++ d)%list
    /\ (List.length (opens d) <= List.length attempts)%nat
    /\ 0 <= sleep_total d <= longest_wait attempts.
Proof.
  intros Hpos. revert t.
  induction Hpos as [| attempt rest Ha _ IH]; intros t.
  - exists []. cbn. rewrite app_nil_r. repeat split; lia.
  - cbn [fetch_attempts].
    assert (Hstop : exists d,
              (t ++ [EvOpen url])%list = (t ++ d)%list
              /\ (List.length (opens d) <= List.length (attempt :: rest))%nat
              /\ 0 <= sleep_total d <= longest_wait (attempt :: rest)).
    { exists [EvOpen url]. cbn [opens List.length sleep_total longest_wait].
      specialize (IH t) as [d0 [_ [_ Hd0]]].
      repeat split; lia. }
    assert (Hgo : forall ms,
              0 <= ms <= Z.max 5000 (1000 * (12 * (attempt + 1))) ->
              exists d,
                snd (fetch_attempts E url n rest
                       ((t ++ [EvOpen url]) ++ [EvSleep ms])%list)
                = (t ++ d)%list
                /\ (List.length (opens d)
                    <= List.length (attempt :: rest))%nat
                /\ 0 <= sleep_total d <= longest_wait (attempt :: rest)).
    { intros ms Hms.
      destruct (IH ((t ++ [EvOpen url]) ++ [EvSleep ms])%list)
        as [d [Hd [Ho Hs]]].
      exists (EvOpen url :: EvSleep ms :: d).
      rewrite Hd, <- !app_assoc.
      cbn [app opens List.length sleep_total longest_wait].
      repeat split; lia. }
    destruct (read_response E t url) as [data | e]; [exact Hstop |].
    destruct (exn_class_of e) as [code | | | | | | | | |];
      try (destruct (attempt <? n - 1);
           [ unfold bind, sleep, emit; apply Hgo; lia | exact Hstop ]).
    destruct (code =? 429); [| exact Hstop].
    unfold bind, sleep, emit. apply Hgo. lia.
Qed.

(** X1. [fetch_url], with its default of three attempts, always comes
    back: it opens the URL it was given, and no other, between one and
    three times, and sleeps at most 72 seconds in all (12 + 24 + 36, when
    every attempt is answered with status 429). *)
Theorem fetch_url_bounded_effort url t :
  exists d,
    snd (fetch_url E url default_max_retries t) = (t ++ d)%list
    /\ Forall (eq url) (opens d)
    /\ (1 <= List.length (opens d) <= 3)%nat
    /\ 0 <= sleep_total d <= 72000.
Proof.
  destruct (fetch_url_opens_first E url t) as [d1 [Hd1 Hall]].
  unfold fetch_url, default_max_retries in *.
  change (py_range 3) with [0; 1; 2] in *.
  destruct (fetch_attempts_effort url 3 [0; 1; 2] t) as [d [Hd [Ho Hs]]].
  { repeat constructor; lia. }
  rewrite Hd in Hd1. apply app_inv_head in Hd1. subst d.
  exists (EvOpen url :: d1). split; [exact Hd |].
  cbn [opens List.length] in *.
  change (longest_wait [0; 1; 2]) with 72000 in Hs.
  split; [now constructor |]. split; lia.
Qed.

(** What the loop raises, an attempt raised, and it is not status 429. *)
Lemma fetch_attempts_raises url n attempts t e t' :
  fetch_attempts E url n attempts t = (Raise e, t') ->
  (exists t0, read_response E t0 url = Raise e)
  /\ exn_class_of e <> HTTPError 429.
Proof.
  revert t. induction attempts as [| attempt rest IH]; intros t.
  - cbn. discriminate.
  - cbn [fetch_attempts].
    destruct (read_response E t url) as [data | e0] eqn:Hread;
      [discriminate |].
    destruct (exn_class_of e0) as [code | | | | | | | | |] eqn:Hclass;
      try (destruct (attempt <? n - 1);
           [ unfold bind, sleep, emit; apply IH
           | intros [= <- <-]; split;
             [now exists t | rewrite Hclass; discriminate] ]).
    destruct (code =? 429) eqn:Hcode.
    + unfold bind, sleep, emit. apply IH.
    + intros [= <- <-]. split; [now exists t |].
      rewrite Hclass. intros [= ->]. discriminate.
Qed.

(** What the loop returns is the empty string or a body an attempt read. *)
Lemma fetch_attempts_returns url n attempts t data t' :
  fetch_attempts E url n attempts t = (Ret data, t') ->
  data = EmptyString \/ exists t0, read_response E t0 url = Ret data.
Proof.
  revert t. induction attempts as [| attempt rest IH]; intros t.
  - cbn. intros [= <- <-]. now left.
  - cbn [fetch_attempts].
    destruct (read_response E t url) as [data0 | e0] eqn:Hread.
    + intros [= <- <-]. right. now exists t.
    + destruct (exn_class_of e0) as [code | | | | | | | | |];
        try (destruct (attempt <? n - 1);
             [ unfold bind, sleep, emit; apply IH | discriminate ]).
      destruct (code =? 429); [| discriminate].
      unfold bind, sleep, emit. apply IH.
Qed.

End Effort.

(** X2. Whatever [fetch_url] raises is the exception of one of its
    attempts, and it never is HTTP status 429: the loop always absorbs
    that status. *)
Theorem fetch_url_never_raises_429 E url max_retries t e t' :
  fetch_url E url max_retries t = (Raise e, t') ->
  (exists t0, read_response E t0 url = Raise e)
  /\ exn_class_of e <> HTTPError 429.
Proof. apply fetch_attempts_raises. Qed.

Lemma read_response_body E t url data :
  read_response E t url = Ret data ->
  exists body,
    urlopen E t url = RespData body
    /\ (if String.eqb (Py.take 2 body) gzip_magic
        then gzip_decompress E body = inr data
        else data = body).
Proof.
  unfold read_response.
  destruct (urlopen E t url) as [body | code msg | msg]; try discriminate.
  exists body. split; [reflexivity |].
  destruct (String.eqb (Py.take 2 body) gzip_magic).
  - destruct (gzip_decompress E body); [discriminate |]. now injection H as ->.
  - now injection H as ->.
Qed.

(** X3. A result of [fetch_url] that is not empty is the body of a
    response the server gave for that URL: decompressed when the body
    starts with the gzip magic number, untouched otherwise. *)
Theorem fetch_url_returns_served_body E url max_retries t data t' :
  fetch_url E url max_retries t = (Ret data, t') ->
  data <> EmptyString ->
  exists t0 body,
    urlopen E t0 url = RespData body
    /\ (if String.eqb (Py.take 2 body) gzip_magic
        then gzip_decompress E body = inr data
        else data = body).
Proof.
  intros H Hne. apply fetch_attempts_returns in H as [-> | [t0 H]];
    [contradiction |].
  exists t0. now apply read_response_body.
Qed.

(** ** FilingLocator: the accession pair, missing keys, short arrays *)

Lemma contains_char_cons c a r :
  Py.contains (String c EmptyString) (String a r)
  = (Ascii.eqb c a || Py.contains (String c EmptyString) r)%bool.
Proof.
  unfold Py.contains. cbn [Py.find Py.startswith].
  destruct (Ascii.eqb c a); cbn [andb orb]; [reflexivity |].
  now destruct (Py.find (String c EmptyString) r).
Qed.

Lemma contains_char_nil c : Py.contains (String c EmptyString) EmptyString = false.
Proof. reflexivity. Qed.

Lemma remove_char_clean c s :
  Py.contains (String c EmptyString) (Py.remove_char c s) = false.
Proof.
  induction s as [| a s IH]; [reflexivity |].
  cbn [Py.remove_char]. destruct (Ascii.eqb a c) eqn:Hac; [exact IH |].
  rewrite contains_char_cons, IH, Ascii.eqb_sym, Hac. reflexivity.
Qed.

Lemma remove_char_id c s :
  Py.contains (String c EmptyString) s = false -> Py.remove_char c s = s.
Proof.
  induction s as [| a s IH]; [reflexivity |].
  rewrite contains_char_cons. intros [Hac Hs]%orb_false_iff.
  cbn [Py.remove_char]. rewrite Ascii.eqb_sym, Hac. now rewrite IH.
Qed.

Lemma scan_forms_pair accessions dates report_dates i forms raw period fmt :
  scan_forms accessions dates report_dates i forms = Ret (raw, period, fmt) ->
  raw = Py.remove_char "-" fmt.
Proof.
  revert i. induction forms as [| form rest IH]; intros i; cbn [scan_forms].
  - now intros [= <- _ <-].
  - destruct (is_13f form); [| apply IH].
    destruct (py_item accessions i) as [acc |]; cbn [obind]; [| discriminate].
    destruct (as_str acc) as [s |]; cbn [obind]; [| discriminate].
    destruct (period_at report_dates dates i); cbn [obind]; [| discriminate].
    now intros [= <- _ <-].
Qed.

(** X4. In what [get_latest_13f_url] returns, the raw accession number
    is the formatted one without its dashes: it holds no dash, and it is
    the formatted one when that holds none. *)
Theorem get_latest_13f_url_accession_pair E cik t raw period fmt t' :
  get_latest_13f_url E cik t = (Ret (raw, period, fmt), t') ->
  raw = Py.remove_char "-" fmt
  /\ Py.contains "-" raw = false
  /\ (Py.contains "-" fmt = false -> raw = fmt).
Proof.
  unfold get_latest_13f_url, bind, lift.
  destruct (fetch_url E (submissions_url cik) default_max_retries t)
    as [[body | e] t1]; [| discriminate].
  destruct (loads E body) as [data |]; cbn [obind]; [| discriminate].
  unfold latest_13f_in.
  destruct (recent_arrays data) as [[[[forms accs] dates] rdates] |];
    cbn [obind]; [| discriminate].
  destruct (py_iter forms) as [items |]; cbn [obind]; [| discriminate].
  intros [= H _]. apply scan_forms_pair in H. subst raw.
  split; [reflexivity |]. split; [apply remove_char_clean |].
  apply remove_char_id.
Qed.

(** X6. A filing history that is a JSON object without [filings], or
    without [recent] under it, or without [form] under that, is answered
    like a history without a 13F filing, with the three empty strings; a
    history that is no JSON object raises AttributeError. *)
Theorem latest_13f_in_missing_keys (data : json) :
  (forall m,
     data = JObj m ->
     assoc "filings" m = None
     \/ (exists f,
           assoc "filings" m = Some (JObj f)
           /\ (assoc "recent" f = None
               \/ exists rc,
                    assoc "recent" f = Some (JObj rc)
                    /\ assoc "form" rc = None)) ->
     latest_13f_in data = Ret (EmptyString, JStr EmptyString, EmptyString))
  /\
  ((forall m, data <> JObj m) ->
   exists msg, latest_13f_in data = Raise (Exn AttributeError msg)).
Proof.
  split.
  - intros m -> [H | [f [Hf [H | [rc [Hrc H]]]]]];
      unfold latest_13f_in, recent_arrays; cbn [py_get obind].
    + rewrite H. reflexivity.
    + rewrite Hf. cbn [py_get obind]. rewrite H. reflexivity.
    + rewrite Hf. cbn [py_get obind]. rewrite Hrc. cbn [py_get obind].
      rewrite H. reflexivity.
  - intros H. destruct data; try (eexists; reflexivity).
    now destruct (H members).
Qed.

(** X7. The arrays of the history are trusted to be parallel: when the
    first 13F form stands at an index that the accession numbers do not
    reach, the lookup raises IndexError. *)
Theorem latest_13f_in_short_accessions
  (data : json) (forms accessions : list json) (dates report_dates : json)
  (pre post : list json) (form : json) :
  recent_arrays data
  = Ret (JArr forms, JArr accessions, dates, report_dates) ->
  forms = (pre ++ form :: post)%list ->
  Forall (fun f => is_13f f = false) pre ->
  is_13f form = true ->
  (List.length accessions <= List.length pre)%nat ->
  exists msg, latest_13f_in data = Raise (Exn IndexError msg).
Proof.
  intros Harr -> Hpre Hform Hlen.
  unfold latest_13f_in. rewrite Harr. cbn [obind py_iter].
  rewrite scan_forms_skip by assumption.
  cbn [Nat.add scan_forms]. rewrite Hform. cbn [py_item].
  apply nth_error_None in Hlen. rewrite Hlen. cbn [obind].
  eexists. reflexivity.
Qed.

Lemma zeros_length n : String.length (Py.zeros n) = n.
Proof. induction n; cbn; congruence. Qed.

Lemma append_length a b :
  String.length (a ++ b) = (String.length a + String.length b)%nat.
Proof. induction a as [| c a IH]; cbn; congruence. Qed.

Lemma append_empty_r a : a ++ EmptyString = a.
Proof. induction a as [| c a IH]; cbn; congruence. Qed.

(** [s.zfill(width)]: the length, the padding of a string without sign,
    and a string that is long enough. *)
Lemma zfill_pads (width : nat) (s : string) :
  String.length (Py.zfill width s) = Nat.max width (String.length s)
  /\ (Py.startswith "+" s = false -> Py.startswith "-" s = false ->
      Py.zfill width s = Py.zeros (width - String.length s) ++ s)
  /\ ((width <= String.length s)%nat -> Py.zfill width s = s).
Proof.
  unfold Py.zfill. split; [| split].
  - destruct s as [| c r].
    + cbn [String.length]. rewrite zeros_length. lia.
    + destruct (Ascii.eqb c "+" || Ascii.eqb c "-")%bool;
        cbn [String.length]; rewrite append_length, zeros_length;
        cbn [String.length]; lia.
  - intros Hp Hm. destruct s as [| c r].
    + cbn [String.length]. now rewrite append_empty_r.
    + cbn [Py.startswith] in Hp, Hm.
      rewrite andb_true_r in Hp, Hm.
      rewrite Ascii.eqb_sym in Hp. rewrite Ascii.eqb_sym in Hm.
      now rewrite Hp, Hm.
  - intros Hle. replace (width - String.length s)%nat with O by lia.
    cbn [Py.zeros String.append].
    destruct s as [| c r]; [reflexivity |].
    now destruct (Ascii.eqb c "+" || Ascii.eqb c "-")%bool.
Qed.

(** X5. The filing history is requested under the CIK padded with zeros
    to ten characters: for a CIK of at most ten characters that starts
    with no sign, the URL is the prefix of the submissions service, then
    ten characters that end in the CIK, then the suffix .json. *)
Theorem submissions_url_padded (cik : string) :
  Py.startswith "+" cik = false ->
  Py.startswith "-" cik = false ->
  (String.length cik <= 10)%nat ->
  exists padded,
    submissions_url cik
    = "https://data.sec.gov/submissions/CIK" ++ padded ++ ".json"
    /\ String.length padded = 10%nat
    /\ padded = Py.zeros (10 - String.length cik) ++ cik.
Proof.
  intros Hp Hm Hl. exists (Py.zfill 10 cik).
  destruct (zfill_pads 10 cik) as (Hlen & Hpad & _).
  split; [reflexivity |]. split; [rewrite Hlen; lia | exact (Hpad Hp Hm)].
Qed.

(** ** ResourceResolver: what the methods hand back *)

Lemma first_named_wanted wanted items name :
  first_named wanted items = Ret (Some name) ->
  wanted (Py.lower name) = true.
Proof.
  induction items as [| item rest IH]; cbn [first_named]; [discriminate |].
  destruct (py_get item "name" (JStr EmptyString)) as [v |]; cbn [obind];
    [| discriminate].
  destruct (as_str v) as [nm |]; cbn [obind]; [| discriminate].
  destruct (wanted (Py.lower nm)) eqn:Hw; [| exact IH].
  now intros [= <-].
Qed.

(** The scan stops at the first item with a wanted name, provided the
    items before it are objects with string names. *)
Lemma first_named_first wanted pre item post name :
  Forall (fun it => exists nm,
            py_get it "name" (JStr EmptyString) = Ret (JStr nm)
            /\ wanted (Py.lower nm) = false) pre ->
  py_get item "name" (JStr EmptyString) = Ret (JStr name) ->
  wanted (Py.lower name) = true ->
  first_named wanted (pre ++ item :: post)%list = Ret (Some name).
Proof.
  intros Hpre Hitem Hw.
  induction Hpre as [| it pre [nm [Hnm Hno]] _ IH]; cbn [app first_named].
  - rewrite Hitem. cbn [obind as_str]. now rewrite Hw.
  - rewrite Hnm. cbn [obind as_str]. now rewrite Hno.
Qed.

Lemma first_named_none wanted items :
  Forall (fun it => exists nm,
            py_get it "name" (JStr EmptyString) = Ret (JStr nm)
            /\ wanted (Py.lower nm) = false) items ->
  first_named wanted items = Ret None.
Proof.
  induction 1 as [| it items [nm [Hnm Hno]] _ IH]; cbn [first_named];
    [reflexivity |].
  rewrite Hnm. cbn [obind as_str]. now rewrite Hno.
Qed.

(** X8. A URL found through the JSON index is the folder of the filing
    followed by a directory name that ends in .xml, case ignored, and
    that contains infotable or else does not contain primary. *)
Theorem index_json_method_result E cik accession_raw accession_formatted
  t url t' :
  index_json_method E cik accession_raw accession_formatted t
  = (Ret (Some url), t') ->
  exists name,
    url = base_url_of cik accession_raw ++ name
    /\ Py.endswith ".xml" (Py.lower name) = true
    /\ (Py.contains "infotable" (Py.lower name) = true
        \/ Py.contains "primary" (Py.lower name) = false).
Proof.
  unfold index_json_method, try_except, bind, lift, ret.
  destruct (fetch_url E _ default_max_retries t) as [[body | e] t1];
    [| discriminate].
  destruct (loads E body) as [data |]; cbn [obind]; [| discriminate].
  destruct (py_get data "directory" (JObj [])) as [dir |]; cbn [obind];
    [| discriminate].
  destruct (py_get dir "item" (JArr [])) as [item |]; cbn [obind];
    [| discriminate].
  destruct (py_iter item) as [items |]; cbn [obind]; [| discriminate].
  destruct (first_named is_infotable_xml items) as [[name |] |] eqn:H1;
    cbn [obind]; [| | discriminate].
  - intros [= <- _]. exists name. apply first_named_wanted in H1.
    unfold is_infotable_xml in H1. apply andb_true_iff in H1 as [Hx Hi].
    auto.
  - destruct (first_named is_other_xml items) as [[name |] |] eqn:H2;
      cbn [obind option_map]; try discriminate.
    intros [= <- _]. exists name. apply first_named_wanted in H2.
    unfold is_other_xml in H2. apply andb_true_iff in H2 as [Hx Hp].
    apply negb_true_iff in Hp. auto.
Qed.

(** X9. The JSON index method chooses the first directory item whose
    name ends in .xml and contains infotable, case ignored, whatever
    follows it and whatever other XML files precede it, provided the
    items before it have strings for names. *)
Theorem index_json_method_prefers_infotable
  E cik accession_raw accession_formatted t body t' data directory
  (pre post : list json) (item : json) (name : string) :
  fetch_url E (index_json_url cik accession_raw accession_formatted)
    default_max_retries t = (Ret body, t') ->
  json_loads E body = inr data ->
  py_get data "directory" (JObj []) = Ret directory ->
  py_get directory "item" (JArr []) = Ret (JArr (pre ++ item :: post)) ->
  Forall (fun it => exists nm,
            py_get it "name" (JStr EmptyString) = Ret (JStr nm)
            /\ is_infotable_xml (Py.lower nm) = false) pre ->
  py_get item "name" (JStr EmptyString) = Ret (JStr name) ->
  is_infotable_xml (Py.lower name) = true ->
  index_json_method E cik accession_raw accession_formatted t
  = (Ret (Some (base_url_of cik accession_raw ++ name)), t').
Proof.
  intros Hfetch Hloads Hdir Hitems Hpre Hitem Hw.
  unfold index_json_method, try_except, bind, lift, ret.
  rewrite Hfetch. unfold loads. rewrite Hloads. cbn [obind].
  rewrite Hdir. cbn [obind]. rewrite Hitems. cbn [obind py_iter].
  rewrite (first_named_first _ _ _ _ _ Hpre Hitem Hw). reflexivity.
Qed.

(** A directory item that is no object, or whose name is no string, makes
    the pass raise, whatever follows it. *)
Lemma first_named_gives_up wanted pre item post :
  Forall (fun it => exists nm,
            py_get it "name" (JStr EmptyString) = Ret (JStr nm)
            /\ wanted (Py.lower nm) = false) pre ->
  (forall nm, py_get item "name" (JStr EmptyString) <> Ret (JStr nm)) ->
  exists e, first_named wanted (pre ++ item :: post)%list = Raise e.
Proof.
  intros Hpre Hbad.
  induction Hpre as [| it pre [nm [Hnm Hno]] _ IH]; cbn [app first_named].
  - destruct (py_get item "name" (JStr EmptyString)) as [v | e]; cbn [obind];
      [| eauto].
    destruct v; cbn [as_str obind]; eauto.
    now destruct (Hbad s).
  - rewrite Hnm. cbn [obind as_str]. now rewrite Hno.
Qed.

(** X10. A directory item without a string for a name, met before any
    infotable name, makes the JSON index method end without a result,
    even when a later item names the information table: the handler of
    the method catches the exception of the item and the scan is over. *)
Theorem index_json_method_gives_up
  E cik accession_raw accession_formatted t body t' data directory
  (pre post : list json) (item : json) :
  fetch_url E (index_json_url cik accession_raw accession_formatted)
    default_max_retries t = (Ret body, t') ->
  json_loads E body = inr data ->
  py_get data "directory" (JObj []) = Ret directory ->
  py_get directory "item" (JArr []) = Ret (JArr (pre ++ item :: post)) ->
  Forall (fun it => exists nm,
            py_get it "name" (JStr EmptyString) = Ret (JStr nm)
            /\ is_infotable_xml (Py.lower nm) = false) pre ->
  (forall nm, py_get item "name" (JStr EmptyString) <> Ret (JStr nm)) ->
  index_json_method E cik accession_raw accession_formatted t
  = (Ret None, t').
Proof.
  intros Hfetch Hloads Hdir Hitems Hpre Hbad.
  unfold index_json_method, try_except, bind, lift, ret.
  rewrite Hfetch. unfold loads. rewrite Hloads. cbn [obind].
  rewrite Hdir. cbn [obind]. rewrite Hitems. cbn [obind py_iter].
  destruct (first_named_gives_up is_infotable_xml pre item post Hpre Hbad)
    as [e ->].
  reflexivity.
Qed.

Lemma find_char_take c s q :
  Py.find (String c EmptyString) s = Some q ->
  Py.contains (String c EmptyString) (Py.take q s) = false.
Proof.
  revert q. induction s as [| a s IH]; intros q; cbn [Py.find Py.startswith].
  - discriminate.
  - destruct (Ascii.eqb c a) eqn:Hca; cbn [andb].
    + now intros [= <-].
    + destruct (Py.find (String c EmptyString) s) as [q' |]; cbn;
        [| discriminate].
      intros [= <-]. cbn [Py.take].
      rewrite contains_char_cons, Hca. now apply IH.
Qed.

(** X11. Every link the scan of the index page extracts ends in .xml,
    case ignored, and contains no double quote. *)
Theorem findall_href_xml_matches (html : string) :
  Forall (fun link =>
            Py.endswith ".xml" (Py.lower link) = true
            /\ Py.contains quote link = false)
         (findall_href_xml html).
Proof.
  unfold findall_href_xml. generalize O.
  induction html as [| c r IH]; intros skip; cbn [findall_href_xml_from];
    [constructor |].
  destruct skip as [| k]; [| apply IH].
  destruct (Py.startswith href_open (Py.lower (Py.take 6 (String c r))));
    [| apply IH].
  destruct (Py.find quote (Py.drop 6 (String c r))) as [q |] eqn:Hq;
    [| apply IH].
  destruct (Py.endswith ".xml"
              (Py.lower (Py.take q (Py.drop 6 (String c r))))) eqn:Hx;
    [| apply IH].
  constructor; [| apply IH].
  split; [exact Hx |]. now apply find_char_take.
Qed.

Lemma split_shape c s : exists seg segs, Py.split c s = seg :: segs.
Proof.
  induction s as [| a s [seg [segs IH]]]; cbn [Py.split]; [eauto |].
  rewrite IH. destruct (Ascii.eqb a c); eauto.
Qed.

(** Splitting and joining again gives the string back. *)
Lemma join_split c s : join c (Py.split c s) = s.
Proof.
  induction s as [| a s IH]; [reflexivity |].
  cbn [Py.split]. destruct (split_shape c s) as [seg [segs Hs]].
  rewrite Hs in *. destruct (Ascii.eqb a c) eqn:Hac.
  - apply Ascii.eqb_eq in Hac. subst a.
    change (join c (EmptyString :: seg :: segs))
      with (String c (join c (seg :: segs))).
    now rewrite IH.
  - destruct segs as [| seg' segs]; cbn [join] in *.
    + now rewrite IH.
    + cbn [String.append]. now rewrite IH.
Qed.

Lemma split_clean c s :
  Forall (fun seg => Py.contains (String c EmptyString) seg = false)
         (Py.split c s).
Proof.
  induction s as [| a s IH]; cbn [Py.split]; [now repeat constructor |].
  destruct (split_shape c s) as [seg [segs Hs]]. rewrite Hs in *.
  inversion IH as [| ? ? Hseg Hsegs]; subst.
  destruct (Ascii.eqb a c) eqn:Hac.
  - constructor; [reflexivity | assumption].
  - constructor; [| assumption].
    rewrite contains_char_cons, Ascii.eqb_sym, Hac. exact Hseg.
Qed.

Lemma last_Forall {A} (P : A -> Prop) l d :
  Forall P l -> P d -> P (List.last l d).
Proof.
  intros H Hd. induction H as [| x l Hx Hl IH]; [exact Hd |].
  destruct l; [exact Hx | exact IH].
Qed.

Lemma append_assoc_str a b c : (a ++ b) ++ c = a ++ (b ++ c).
Proof. induction a as [| x a IH]; cbn; congruence. Qed.

Lemma join_last c parts :
  parts <> [] ->
  exists before,
    join c parts = before ++ List.last parts EmptyString
    /\ (before = EmptyString
        \/ exists d, before = d ++ String c EmptyString).
Proof.
  induction parts as [| part rest IH]; [contradiction |]. intros _.
  destruct rest as [| part' rest].
  - exists EmptyString. split; [reflexivity | now left].
  - destruct IH as [before [Hb He]]; [discriminate |].
    exists (part ++ String c before).
    change (join c (part :: part' :: rest))
      with (part ++ String c (join c (part' :: rest))).
    rewrite Hb.
    change (List.last (part :: part' :: rest) EmptyString)
      with (List.last (part' :: rest) EmptyString).
    split; [now rewrite append_assoc_str |].
    right. destruct He as [-> | [d ->]].
    + exists part. reflexivity.
    + exists (part ++ String c d). now rewrite append_assoc_str.
Qed.

(** A string without the separator is its own and only segment. *)
Lemma split_whole c s :
  Py.contains (String c EmptyString) s = false -> Py.split c s = [s].
Proof.
  induction s as [| a s IH]; [reflexivity |].
  rewrite contains_char_cons. intros H.
  apply orb_false_iff in H as [Hca Hs].
  cbn [Py.split]. rewrite (IH Hs), Ascii.eqb_sym, Hca. reflexivity.
Qed.

(** X12. A link that starts with http is requested as it stands; of any
    other link only the file name is kept and appended to the folder of
    the filing: the link is a directory part, empty or ending in its last
    slash, followed by a file name without slash, and the directory part
    is dropped.  A relative link without slash is appended whole. *)
Theorem link_target_file_name (base_url link : string) :
  (Py.startswith "http" link = true -> link_target base_url link = link)
  /\
  (Py.startswith "http" link = false ->
   exists directory file,
     link = directory ++ file
     /\ Py.contains "/" file = false
     /\ (directory = EmptyString \/ exists d, directory = d ++ "/")
     /\ link_target base_url link = base_url ++ file)
  /\
  (Py.startswith "http" link = false ->
   Py.contains "/" link = false ->
   link_target base_url link = base_url ++ link).
Proof.
  unfold link_target. split; [| split]; intros H; rewrite H; [reflexivity | |].
  - destruct (split_shape "/" link) as [seg [segs Hs]].
    destruct (join_last "/" (Py.split "/" link)) as [before [Hb He]];
      [rewrite Hs; discriminate |].
    rewrite join_split in Hb.
    exists before, (Py.last_segment "/" link).
    split; [exact Hb |]. split; [| split; [exact He | reflexivity]].
    unfold Py.last_segment.
    apply last_Forall; [apply split_clean | reflexivity].
  - intros Hn. unfold Py.last_segment. now rewrite (split_whole _ _ Hn).
Qed.

Lemma costs_nil : costs_at_most 0 [].
Proof. unfold costs_at_most. cbn. lia. Qed.

Lemma costs_app m n d1 d2 :
  costs_at_most m d1 -> costs_at_most n d2 ->
  costs_at_most (m + n) (d1 ++ d2)%list.
Proof.
  unfold costs_at_most. rewrite opens_app, length_app, sleep_total_app. lia.
Qed.

Lemma costs_more m n d : (m <= n)%nat -> costs_at_most m d -> costs_at_most n d.
Proof. unfold costs_at_most. lia. Qed.

Section Cost.

Variable E : Env.

Lemma fetch_url_cost url t :
  exists d,
    snd (fetch_url E url default_max_retries t) = (t ++ d)%list
    /\ costs_at_most 1 d.
Proof.
  unfold fetch_url, default_max_retries.
  change (py_range 3) with [0; 1; 2].
  destruct (fetch_attempts_effort E url 3 [0; 1; 2] t) as [d [Hd [Ho Hs]]].
  { repeat constructor; lia. }
  exists d. split; [exact Hd |].
  change (longest_wait [0; 1; 2]) with 72000 in Hs.
  unfold costs_at_most. cbn [List.length] in Ho. lia.
Qed.

Lemma index_json_method_cost cik raw fmt t :
  exists d,
    snd (index_json_method E cik raw fmt t) = (t ++ d)%list
    /\ costs_at_most 1 d.
Proof.
  unfold index_json_method, try_except, bind, lift, ret.
  destruct (fetch_url_cost (index_json_url cik raw fmt) t) as [d [Hd Hc]].
  destruct (fetch_url E (index_json_url cik raw fmt) default_max_retries t)
    as [[body | e] t1]; cbn [snd] in Hd; subst t1; exists d;
    (split; [| exact Hc]); [| reflexivity].
  match goal with |- context [match ?o with Ret _ => _ | Raise _ => _ end] =>
    destruct o as [[u |] | e] end; reflexivity.
Qed.

Lemma index_html_method_cost cik raw fmt t :
  exists d,
    snd (index_html_method E cik raw fmt t) = (t ++ d)%list
    /\ costs_at_most 1 d.
Proof.
  unfold index_html_method, try_except, bind, ret.
  destruct (fetch_url_cost (index_html_url cik raw fmt) t) as [d [Hd Hc]].
  destruct (fetch_url E (index_html_url cik raw fmt) default_max_retries t)
    as [[body | e] t1]; cbn [snd] in Hd; subst t1; exists d;
    (split; [| exact Hc]); [| reflexivity].
  destruct (List.find names_table _); [reflexivity |].
  destruct (Py.contains _ _); [| reflexivity].
  destruct (List.find _ _); reflexivity.
Qed.

Lemma probe_names_cost base_url names t :
  exists d,
    snd (probe_names E base_url names t) = (t ++ d)%list
    /\ costs_at_most (List.length names) d.
Proof.
  revert t. induction names as [| name rest IH]; intros t.
  - exists []. cbn. rewrite app_nil_r. split; [reflexivity | apply costs_nil].
  - cbn [probe_names]. unfold try_except, bind, ret.
    destruct (fetch_url_cost (base_url ++ name) t) as [d [Hd Hc]].
    destruct (fetch_url E (base_url ++ name) default_max_retries t)
      as [[data | e] t1]; cbn [snd] in Hd; subst t1.
    + exists d. split; [reflexivity |].
      apply (costs_more 1); [cbn; lia | exact Hc].
    + destruct (IH (t ++ d)%list) as [d' [Hd' Hc']].
      exists (d ++ d')%list. rewrite Hd', app_assoc.
      split; [reflexivity |].
      change (List.length (name :: rest)) with (1 + List.length rest)%nat.
      now apply costs_app.
Qed.

(** X13. [find_info_table_url] always comes back; it opens the JSON index
    first and makes at most eight fetches, that is at most 24 requests
    and 576 seconds of sleep. *)
Theorem find_info_table_url_cost cik accession_raw accession_formatted t :
  exists d,
    snd (find_info_table_url E cik accession_raw accession_formatted t)
    = (t ++ d)%list
    /\ (1 <= List.length (opens d) <= 24)%nat
    /\ 0 <= sleep_total d <= 576000
    /\ exists rest,
         d = EvOpen (index_json_url cik accession_raw accession_formatted)
               :: rest.
Proof.
  assert (Hcost : exists d,
            snd (find_info_table_url E cik accession_raw accession_formatted t)
            = (t ++ d)%list /\ costs_at_most 8 d).
  { unfold find_info_table_url, bind, ret.
    destruct (index_json_method_cost cik accession_raw accession_formatted t)
      as [d1 [Hd1 Hc1]].
    destruct (index_json_method E cik accession_raw accession_formatted t)
      as [[[url |] | e] t1]; cbn [snd] in Hd1; subst t1;
      try (exists d1; split; [reflexivity |];
           apply (costs_more 1); [lia | exact Hc1]).
    destruct (index_html_method_cost cik accession_raw accession_formatted
                (t ++ d1)%list) as [d2 [Hd2 Hc2]].
    destruct (index_html_method E cik accession_raw accession_formatted
                (t ++ d1)%list)
      as [[[url |] | e] t2]; cbn [snd] in Hd2; subst t2;
      try (exists (d1 ++ d2)%list; rewrite app_assoc;
           split; [reflexivity |];
           apply (costs_more (1 + 1)); [lia | now apply costs_app]).
    destruct (probe_names_cost (base_url_of cik accession_raw) common_names
                ((t ++ d1) ++ d2)%list) as [d3 [Hd3 Hc3]].
    exists (d1 ++ d2 ++ d3)%list. rewrite Hd3, !app_assoc.
    split; [reflexivity |].
    change 8%nat with (1 + (1 + List.length common_names))%nat.
    rewrite <- app_assoc. apply costs_app; [exact Hc1 |].
    now apply costs_app. }
  destruct Hcost as [d [Hd [Ho Hs]]].
  assert (Hfirst : exists rest,
            d = EvOpen (index_json_url cik accession_raw accession_formatted)
                  :: rest).
  { destruct (fetch_url_opens_first E
                (index_json_url cik accession_raw accession_formatted) t)
      as [d0 [Hd0 _]].
    assert (Hext : exists d', (t ++ d)%list
               = (snd (fetch_url E
                         (index_json_url cik accession_raw
                            accession_formatted)
                         default_max_retries t) ++ d')%list).
    { rewrite <- Hd. unfold find_info_table_url, bind, ret.
      unfold index_json_method at 1. unfold try_except, bind, lift, ret.
      destruct (fetch_url E
                  (index_json_url cik accession_raw accession_formatted)
                  default_max_retries t) as [[body | e] t1]; cbn [snd].
      - match goal with
        | |- context [match ?o with Ret _ => _ | Raise _ => _ end] =>
            destruct o as [[u |] | e]
        end; cbv beta iota.
        + exists []. cbn. now rewrite app_nil_r.
        + destruct (index_html_method_cost cik accession_raw
                      accession_formatted t1) as [d2 [Hd2 _]].
          destruct (index_html_method E cik accession_raw
                      accession_formatted t1)
            as [[[u |] | e] t2]; cbn [snd] in Hd2; subst t2;
            try (exists d2; reflexivity).
          destruct (probe_names_cost (base_url_of cik accession_raw)
                      common_names (t1 ++ d2)%list) as [d3 [Hd3 _]].
          exists (d2 ++ d3)%list. rewrite Hd3. now rewrite app_assoc.
        + destruct (index_html_method_cost cik accession_raw
                      accession_formatted t1) as [d2 [Hd2 _]].
          destruct (index_html_method E cik accession_raw
                      accession_formatted t1)
            as [[[u |] | e0] t2]; cbn [snd] in Hd2; subst t2;
            try (exists d2; reflexivity).
          destruct (probe_names_cost (base_url_of cik accession_raw)
                      common_names (t1 ++ d2)%list) as [d3 [Hd3 _]].
          exists (d2 ++ d3)%list. rewrite Hd3. now rewrite app_assoc.
      - destruct (index_html_method_cost cik accession_raw
                    accession_formatted t1) as [d2 [Hd2 _]].
        destruct (index_html_method E cik accession_raw
                    accession_formatted t1)
          as [[[u |] | e0] t2]; cbn [snd] in Hd2; subst t2;
          try (exists d2; reflexivity).
        destruct (probe_names_cost (base_url_of cik accession_raw)
                    common_names (t1 ++ d2)%list) as [d3 [Hd3 _]].
        exists (d2 ++ d3)%list. rewrite Hd3. now rewrite app_assoc. }
    destruct Hext as [d' Hext]. rewrite Hd0, <- app_assoc in Hext.
    apply app_inv_head in Hext. cbn [app] in Hext. eauto. }
  exists d. split; [exact Hd |].
  destruct Hfirst as [rest ->]. cbn [opens List.length] in *.
  repeat split; try lia. eauto.
Qed.

End Cost.

Lemma base_url_http cik raw rest :
  Py.startswith "http" (base_url_of cik raw ++ rest) = true.
Proof. reflexivity. Qed.

Lemma link_target_http cik raw link :
  Py.startswith "http" (link_target (base_url_of cik raw) link) = true.
Proof.
  unfold link_target.
  destruct (Py.startswith "http" link) eqn:H; [exact H | reflexivity].
Qed.

Lemma probe_names_http E cik raw names t url t' :
  probe_names E (base_url_of cik raw) names t = (Ret url, t') ->
  url = EmptyString \/ Py.startswith "http" url = true.
Proof.
  revert t. induction names as [| name rest IH]; intros t;
    cbn [probe_names].
  - intros [= <- _]. now left.
  - unfold try_except, bind, ret.
    destruct (fetch_url E _ default_max_retries t) as [[data | e] t1].
    + intros [= <- _]. right. reflexivity.
    + apply IH.
Qed.

(** X14. What [find_info_table_url] returns is the empty string or
    starts with http. *)
Theorem find_info_table_url_result_shape
  E cik accession_raw accession_formatted t url t' :
  find_info_table_url E cik accession_raw accession_formatted t
  = (Ret url, t') ->
  url = EmptyString \/ Py.startswith "http" url = true.
Proof.
  unfold find_info_table_url, bind, ret.
  destruct (index_json_method E cik accession_raw accession_formatted t)
    as [[[u |] | e] t1] eqn:H1; [| | discriminate].
  - intros [= <- _]. right.
    revert H1. unfold index_json_method, try_except, bind, lift, ret.
    destruct (fetch_url E _ default_max_retries t) as [[body | e] t0];
      [| discriminate].
    destruct (loads E body) as [data |]; cbn [obind]; [| discriminate].
    destruct (py_get data "directory" (JObj [])) as [dir |]; cbn [obind];
      [| discriminate].
    destruct (py_get dir "item" (JArr [])) as [item |]; cbn [obind];
      [| discriminate].
    destruct (py_iter item) as [items |]; cbn [obind]; [| discriminate].
    destruct (first_named is_infotable_xml items) as [[name |] |];
      cbn [obind]; [| | discriminate].
    + intros [= <- _]. reflexivity.
    + destruct (first_named is_other_xml items) as [[name |] |];
        cbn [obind option_map]; try discriminate.
      intros [= <- _]. reflexivity.
  - destruct (index_html_method E cik accession_raw accession_formatted t1)
      as [[[u |] | e] t2] eqn:H2; [| | discriminate].
    + intros [= <- _]. right.
      revert H2. unfold index_html_method, try_except, bind, ret.
      destruct (fetch_url E _ default_max_retries t1) as [[body | e] t0];
        [| discriminate].
      destruct (List.find names_table _) as [link |].
      * intros [= <- _]. apply link_target_http.
      * destruct (Py.contains _ _); [| discriminate].
        destruct (List.find _ _) as [link |]; [| discriminate].
        intros [= <- _]. apply link_target_http.
    + apply probe_names_http.
Qed.

(** ** HoldingsParser: any namespace, what is kept, what aborts *)

Lemma clark_append uri t : clark uri ++ t = String "{" (uri ++ String "}" t).
Proof. unfold clark. cbn [String.append]. now rewrite append_assoc_str. Qed.

(** Two URIs without closing brace that agree up to the brace are equal. *)
Lemma brace_ends_uri u k t x :
  Py.contains "}" u = false -> Py.contains "}" k = false ->
  u ++ String "}" t = k ++ String "}" x -> u = k.
Proof.
  revert k. induction u as [| a u IH]; intros [| b k] Hu Hk H;
    cbn [String.append] in H.
  - reflexivity.
  - injection H as <- _. rewrite contains_char_cons in Hk. discriminate Hk.
  - injection H as -> _. rewrite contains_char_cons in Hu. discriminate Hu.
  - injection H as <- H.
    rewrite contains_char_cons in Hu, Hk.
    apply orb_false_iff in Hu as [_ Hu]. apply orb_false_iff in Hk as [_ Hk].
    f_equal. now apply IH.
Qed.

Lemma clark_apart_known uri k t x :
  Py.contains "}" uri = false -> Py.contains "}" k = false ->
  clark k <> clark uri ->
  String.eqb (clark uri ++ t) (clark k ++ x) = false.
Proof.
  intros Hu Hk Hne. apply String.eqb_neq. intros H.
  rewrite !clark_append in H. injection H as H.
  apply brace_ends_uri in H; [| assumption | assumption].
  apply Hne. now rewrite H.
Qed.

Lemma clark_apart uri c t x :
  Py.contains "}" uri = false ->
  In c ns_patterns -> c <> clark uri ->
  plain_tag t = true -> plain_tag x = true ->
  String.eqb (clark uri ++ t) (c ++ x) = false.
Proof.
  intros Hu Hc Hne Ht Hx.
  unfold ns_patterns in Hc.
  destruct Hc as [<- | [<- | [<- | [<- | []]]]].
  - exact (clark_apart_known uri
             "http://www.sec.gov/edgar/document/thirteenf/informationtable"
             t x Hu eq_refl Hne).
  - exact (clark_apart_known uri "http://www.sec.gov/edgar/thirteenf"
             t x Hu eq_refl Hne).
  - exact (clark_apart_known uri
             "http://www.sec.gov/edgar/common/informationtable"
             t x Hu eq_refl Hne).
  - apply String.eqb_neq. intros H. rewrite clark_append in H.
    cbn [String.append] in H. destruct x as [| cx x]; [discriminate |].
    injection H as <- _. apply plain_tag_head in Hx. discriminate Hx.
Qed.

Section AnyNamespace.

Variable ns : string.
Hypothesis apart :
  forall c t x,
    In c ns_patterns -> plain_tag t = true -> plain_tag x = true ->
    String.eqb (ns ++ t) (c ++ x) = false.

Lemma find_tag_apart c x l :
  In c ns_patterns -> plain_tag x = true ->
  Forall (fun e => plain e = true) l ->
  List.find (fun e => String.eqb (tag_of e) (c ++ x)) (map (qualify ns) l)
  = None.
Proof.
  intros Hc Hx Hl. induction Hl as [| e l He _ IH]; [reflexivity |].
  cbn [map List.find]. rewrite tag_of_qualify.
  rewrite apart; auto using plain_tag_of.
Qed.

Lemma filter_tag_apart c x l :
  In c ns_patterns -> plain_tag x = true ->
  Forall (fun e => plain e = true) l ->
  filter (fun e => String.eqb (tag_of e) (c ++ x)) (map (qualify ns) l) = [].
Proof.
  intros Hc Hx Hl. induction Hl as [| e l He _ IH]; [reflexivity |].
  cbn [map filter]. rewrite tag_of_qualify.
  rewrite apart; auto using plain_tag_of.
Qed.

Lemma parse_entry_apart entry patterns :
  plain entry = true -> incl patterns ns_patterns ->
  parse_entry patterns (qualify ns entry) = Ret None.
Proof.
  intros Hp. induction patterns as [| c patterns IH]; intros Hin;
    [reflexivity |].
  cbn [parse_entry]. unfold findtext, find_child.
  rewrite children_of_qualify, find_tag_apart;
    [| apply Hin; now left | reflexivity | now apply plain_children].
  apply IH. intros c0 H0. apply Hin. now right.
Qed.

Lemma parse_entry_detected entry :
  plain entry = true ->
  parse_entry (ns :: ns_patterns) (qualify ns entry)
  = parse_entry [EmptyString] entry.
Proof.
  intros Hp. cbn [parse_entry String.append]. rewrite findtext_same.
  destruct (findtext entry "nameOfIssuer") as [name |].
  - destruct (Py.truthy name).
    + now rewrite read_fields_same.
    + apply parse_entry_apart; [assumption | apply incl_refl].
  - apply parse_entry_apart; [assumption | apply incl_refl].
Qed.

Lemma parse_entries_detected entries holdings :
  Forall (fun e => plain e = true) entries ->
  parse_entries (ns :: ns_patterns) (map (qualify ns) entries) holdings
  = parse_entries [EmptyString] entries holdings.
Proof.
  intros Hp. revert holdings.
  induction Hp as [| e entries He _ IH]; intros holdings; [reflexivity |].
  cbn [map parse_entries]. rewrite parse_entry_detected by assumption.
  destruct (parse_entry [EmptyString] e) as [parsed | err]; cbn [obind];
    [apply IH | reflexivity].
Qed.

Lemma find_info_tables_apart root patterns :
  plain root = true -> incl patterns ns_patterns ->
  find_info_tables (qualify ns root) patterns = [].
Proof.
  intros Hp. induction patterns as [| c patterns IH]; intros Hin;
    [reflexivity |].
  cbn [find_info_tables]. unfold findall at 1.
  rewrite descendants_qualify, filter_tag_apart;
    [| apply Hin; now left | reflexivity | now apply plain_descendants].
  apply IH. intros c0 H0. apply Hin. now right.
Qed.

Lemma find_info_tables_detected root :
  plain root = true ->
  find_info_tables (qualify ns root) (ns :: ns_patterns)
  = map (qualify ns) (findall root "infoTable").
Proof.
  intros Hp. cbn [find_info_tables]. rewrite findall_same.
  destruct (map (qualify ns) (findall root "infoTable")) eqn:Hm;
    [| reflexivity].
  apply find_info_tables_apart; [assumption | apply incl_refl].
Qed.

End AnyNamespace.

Lemma find_brace_clark uri t :
  Py.contains "}" uri = false ->
  Py.find "}" (uri ++ String "}" t) = Some (String.length uri).
Proof.
  induction uri as [| a uri IH]; [reflexivity |].
  rewrite contains_char_cons. intros [Ha Hu]%orb_false_iff.
  cbn [String.append Py.find Py.startswith String.length].
  rewrite Ha. cbn [andb]. now rewrite IH.
Qed.

Lemma take_clark uri t :
  Py.take (String.length uri + 1) (uri ++ String "}" t) = uri ++ "}".
Proof.
  induction uri as [| a uri IH]; [reflexivity |].
  cbn [String.length Nat.add Py.take String.append]. now rewrite IH.
Qed.

(** The candidate list for a root tag in the namespace [uri]. *)
Lemma ns_patterns_for_clark uri tag :
  Py.contains "}" uri = false ->
  ns_patterns_for (clark uri ++ tag)
  = Ret (if existsb (String.eqb (clark uri)) ns_patterns then ns_patterns
         else clark uri :: ns_patterns).
Proof.
  intros Hu. unfold ns_patterns_for. rewrite clark_append.
  change (Py.contains "{" (String "{" (uri ++ String "}" tag))) with true.
  cbv beta iota.
  change (Py.find "}" (String "{" (uri ++ String "}" tag)))
    with (option_map S (Py.find "}" (uri ++ String "}" tag))).
  rewrite find_brace_clark by assumption. cbn [option_map].
  change (Py.take (S (String.length uri) + 1)
            (String "{" (uri ++ String "}" tag)))
    with (String "{" (Py.take (String.length uri + 1)
                        (uri ++ String "}" tag))).
  rewrite take_clark. fold (clark uri).
  now destruct (existsb (String.eqb (clark uri)) ns_patterns).
Qed.

(** X15. The parser is not bound to the namespaces it lists.  A document
    whose tags are all in one namespace, of any URI (not empty, not the
    wildcard, without closing brace), parses to the same outcome as the
    same document without namespace: the namespace of the root tag joins
    the candidates. *)
Theorem parse_root_any_namespace (uri : string) (root : element) :
  Py.contains "}" uri = false ->
  uri <> EmptyString -> uri <> "*" ->
  plain root = true ->
  parse_root (qualify (clark uri) root) = parse_root root.
Proof.
  intros Hu _ _ Hp.
  destruct (existsb (String.eqb (clark uri)) ns_patterns) eqn:Hknown.
  - apply parse_root_qualify; [| assumption].
    apply existsb_exists in Hknown as [c [Hc Heq]].
    apply String.eqb_eq in Heq. now subst c.
  - assert (Hapart : forall c t x,
              In c ns_patterns -> plain_tag t = true -> plain_tag x = true ->
              String.eqb (clark uri ++ t) (c ++ x) = false).
    { intros c t x Hc Ht Hx. apply clark_apart; try assumption.
      intros ->. 
      assert (Hex : existsb (String.eqb (clark uri)) ns_patterns = true).
      { apply existsb_exists. exists (clark uri).
        split; [assumption | apply String.eqb_refl]. }
      congruence. }
    rewrite <- (qualify_empty root) at 2.
    rewrite (parse_root_qualified EmptyString root);
      [| unfold ns_patterns; cbn; tauto | assumption].
    unfold parse_root. rewrite tag_of_qualify.
    rewrite ns_patterns_for_clark by assumption. rewrite Hknown.
    cbn [obind].
    rewrite find_info_tables_detected by assumption.
    apply parse_entries_detected; [assumption |].
    unfold findall. apply Forall_forall. intros e [He _]%filter_In.
    revert e He. apply Forall_forall. now apply plain_descendants.
Qed.

Lemma rstrip_of_idem space s :
  Py.rstrip_of space (Py.rstrip_of space s) = Py.rstrip_of space s.
Proof.
  induction s as [| c r IH]; [reflexivity |].
  cbn [Py.rstrip_of].
  destruct (space c && String.eqb (Py.rstrip_of space r) EmptyString)%bool
    eqn:Hc; [reflexivity |].
  cbn [Py.rstrip_of]. now rewrite IH, Hc.
Qed.

Lemma lstrip_of_head space s :
  Py.lstrip_of space s = EmptyString
  \/ exists c r, Py.lstrip_of space s = String c r /\ space c = false.
Proof.
  induction s as [| c r IH]; [now left |].
  cbn [Py.lstrip_of]. destruct (space c) eqn:Hc; [exact IH |].
  right. eauto.
Qed.

(** Trimming twice is trimming once. *)
Lemma strip_idem s : Py.strip (Py.strip s) = Py.strip s.
Proof.
  unfold Py.strip.
  destruct (lstrip_of_head Py.is_space s) as [-> | [c [r [-> Hc]]]];
    [reflexivity |].
  cbn [Py.rstrip_of]. rewrite Hc. cbn [andb Py.lstrip_of]. rewrite Hc.
  cbn [Py.rstrip_of]. rewrite Hc. cbn [andb]. now rewrite rstrip_of_idem.
Qed.

Lemma read_fields_trimmed ns entry name h :
  read_fields ns entry name = Ret h ->
  h_name h = Py.strip name
  /\ Py.strip (h_title h) = h_title h
  /\ Py.strip (h_cusip h) = h_cusip h
  /\ Py.strip (h_discretion h) = h_discretion h
  /\ h_weight h = None
  /\ exists thousands, h_value h = thousands * 1000.
Proof.
  unfold read_fields.
  destruct (py_int (findtext_or entry (ns ++ "value") "0")) as [value |];
    cbn [obind]; [| discriminate].
  destruct (find_child entry (ns ++ "shrsOrPrnAmt")) as [node |].
  - destruct (py_int (findtext_or node (ns ++ "sshPrnamt") "0"))
      as [shares |]; cbn [obind]; [| discriminate].
    intros [= <-].
    cbn [h_name h_title h_cusip h_discretion h_weight h_value].
    rewrite !strip_idem. repeat split. now exists value.
  - cbn [obind]. intros [= <-].
    cbn [h_name h_title h_cusip h_discretion h_weight h_value].
    rewrite !strip_idem. repeat split. now exists value.
Qed.

Lemma parse_entry_trimmed patterns entry h :
  parse_entry patterns entry = Ret (Some h) ->
  Py.strip (h_name h) = h_name h
  /\ Py.strip (h_title h) = h_title h
  /\ Py.strip (h_cusip h) = h_cusip h
  /\ Py.strip (h_discretion h) = h_discretion h
  /\ h_weight h = None
  /\ exists thousands, h_value h = thousands * 1000.
Proof.
  induction patterns as [| ns rest IH]; cbn [parse_entry]; [discriminate |].
  destruct (findtext entry (ns ++ "nameOfIssuer")) as [name |]; [| exact IH].
  destruct (Py.truthy name); [| exact IH].
  destruct (read_fields ns entry name) as [h0 |] eqn:Hr; cbn [obind];
    [| discriminate].
  intros [= <-]. apply read_fields_trimmed in Hr as [Hn Hrest].
  split; [| exact Hrest]. rewrite Hn. apply strip_idem.
Qed.

Lemma parse_entries_well_parsed patterns entries acc holdings :
  Forall well_parsed acc ->
  parse_entries patterns entries acc = Ret holdings ->
  Forall well_parsed holdings
  /\ (List.length holdings <= List.length acc + List.length entries)%nat.
Proof.
  revert acc. induction entries as [| entry rest IH]; intros acc Hacc;
    cbn [parse_entries].
  - intros [= <-]. split; [assumption | lia].
  - destruct (parse_entry patterns entry) as [parsed |] eqn:Hp; cbn [obind];
      [| discriminate].
    intros H. apply IH in H as [Hall Hlen].
    + split; [exact Hall |]. cbn [List.length].
      destruct parsed as [h |]; cbn [keep] in Hlen; [| lia].
      destruct (Py.truthy (h_name h)); [| lia].
      rewrite length_app in Hlen. cbn [List.length] in Hlen. lia.
    + destruct parsed as [h |]; cbn [keep]; [| assumption].
      destruct (Py.truthy (h_name h)) eqn:Ht; [| assumption].
      apply Forall_app. split; [assumption |]. constructor; [| constructor].
      apply parse_entry_trimmed in Hp.
      split; [| exact Hp].
      unfold Py.truthy in Ht. apply negb_true_iff, String.eqb_neq in Ht.
      exact Ht.
Qed.

(** X16. Every holding [parse_13f_xml] returns has a name that is not
    empty, a name, title, CUSIP and discretion without surrounding
    whitespace, no weight yet, and a value that is a multiple of 1000. *)
Theorem parse_13f_xml_well_parsed E xml_data holdings :
  parse_13f_xml E xml_data = Ret holdings ->
  Forall well_parsed holdings.
Proof.
  unfold parse_13f_xml.
  match goal with
  | |- obind ?o _ = _ -> _ => destruct o as [root |]
  end; cbn [obind]; [| discriminate].
  unfold parse_root.
  destruct (ns_patterns_for (tag_of root)) as [patterns |]; cbn [obind];
    [| discriminate].
  intros H. now apply parse_entries_well_parsed in H as [H _].
Qed.

(** An entry that raises ends the loop with its exception. *)
Lemma parse_entries_raises patterns pre entry post acc err :
  Forall (fun e => exists parsed, parse_entry patterns e = Ret parsed) pre ->
  parse_entry patterns entry = Raise err ->
  parse_entries patterns (pre ++ entry :: post)%list acc = Raise err.
Proof.
  intros Hpre Hraise. revert acc.
  induction Hpre as [| e pre [parsed Hp] _ IH]; intros acc;
    cbn [app parse_entries].
  - now rewrite Hraise.
  - rewrite Hp. cbn [obind]. apply IH.
Qed.

(** X17. One entry with a name whose value text is no integer literal
    makes the whole loop over the entries raise ValueError: the holdings
    parsed before it are not returned. *)
Theorem parse_entries_all_or_nothing
  (patterns before after : list string) (ns name : string)
  (entry : element) (pre post : list element) (acc : list holding) :
  patterns = (before ++ ns :: after)%list ->
  (forall ns0, In ns0 before -> no_name entry ns0) ->
  findtext entry (ns ++ "nameOfIssuer") = Some name ->
  name <> EmptyString ->
  Py.int_of_string
    (match findtext entry (ns ++ "value") with
     | Some x => x
     | None => "0"
     end) = None ->
  Forall (fun e => exists parsed, parse_entry patterns e = Ret parsed) pre ->
  exists msg,
    parse_entries patterns (pre ++ entry :: post)%list acc
    = Raise (Exn ValueError msg).
Proof.
  intros -> Hbefore Hname Hne Hval Hpre.
  eexists. apply parse_entries_raises; [exact Hpre |].
  rewrite parse_entry_skip by assumption.
  cbn [parse_entry]. rewrite Hname.
  assert (Htruthy : Py.truthy name = true).
  { unfold Py.truthy. apply negb_true_iff, String.eqb_neq. exact Hne. }
  rewrite Htruthy. unfold read_fields, py_int.
  rewrite (findtext_or_default entry (ns ++ "value")), Hval.
  reflexivity.
Qed.

(** ** EntityProcessor: counts, weights, totals, metadata *)

Lemma add_weights_length total l weighted :
  add_weights total l = Ret weighted ->
  List.length weighted = List.length l.
Proof.
  intros H. apply add_weights_values in H.
  rewrite <- (length_map h_value weighted), H. apply length_map.
Qed.

(** X18. A result without error has at least one top holding and no more
    top holdings than stored holdings; [num_holdings] counts all parsed
    holdings, so it is at least the number of stored ones, and equal to
    it when it is at most 50. *)
Theorem process_fund_success_counts E cik info t r t' :
  process_fund E cik info t = (Ret r, t') ->
  r_error r = None ->
  r_top_holdings r <> []
  /\ (List.length (r_top_holdings r) <= List.length (r_all_holdings r))%nat
  /\ Z.of_nat (List.length (r_all_holdings r)) <= r_num_holdings r
  /\ (r_num_holdings r <= 50 ->
      Z.of_nat (List.length (r_all_holdings r)) = r_num_holdings r).
Proof.
  intros H Herr.
  destruct (process_fund_success _ _ _ _ _ _ H Herr)
    as [holdings [weighted [Hne [Hw [Htop [Hall [_ Hnum]]]]]]].
  apply add_weights_length in Hw.
  rewrite stable_sort_length in Hw.
  rewrite Htop, Hall, Hnum, !length_firstn, Hw.
  destruct holdings as [| h holdings]; [contradiction |].
  cbn [List.length] in *.
  split.
  - destruct weighted as [| w weighted]; [discriminate Hw |].
    destruct (String.eqb (fi_group info) "C"); discriminate.
  - destruct (String.eqb (fi_group info) "C"); lia.
Qed.

Lemma add_weights_weight total l weighted :
  add_weights total l = Ret weighted ->
  Forall (fun h =>
            h_weight h
            = Some (if 0 <? total then WPct (h_value h) total else WZero)
            /\ (0 < total -> true_div_overflows (h_value h) total = false))
         weighted.
Proof.
  revert weighted. induction l as [| h l IH]; intros weighted;
    cbn [add_weights].
  - intros [= <-]. constructor.
  - unfold weigh. destruct (0 <? total) eqn:Ht.
    + destruct (true_div_overflows (h_value h) total) eqn:Hov;
        cbn [obind]; [discriminate |].
      destruct (add_weights total l) as [w |]; cbn [obind]; [| discriminate].
      intros [= <-]. constructor; [| now apply IH].
      cbn [h_weight h_value set_weight]. auto.
    + cbn [obind].
      destruct (add_weights total l) as [w |]; cbn [obind]; [| discriminate].
      intros [= <-]. constructor; [| now apply IH].
      cbn [h_weight h_value set_weight]. split; [reflexivity |].
      apply Z.ltb_ge in Ht. lia.
Qed.

Lemma Forall_firstn {A} (P : A -> Prop) n l :
  Forall P l -> Forall P (firstn n l).
Proof.
  intros H. apply Forall_forall. intros x Hx.
  rewrite Forall_forall in H. apply H. eapply In_firstn. exact Hx.
Qed.

(** X19. In a result without error every stored holding carries its
    weight: its value over [total_value] as a rounded percentage when the
    total is positive, a division that did not overflow, and 0 otherwise. *)
Theorem process_fund_weights E cik info t r t' :
  process_fund E cik info t = (Ret r, t') ->
  r_error r = None ->
  Forall (fun h =>
            h_weight h
            = Some (if 0 <? r_total_value r
                    then WPct (h_value h) (r_total_value r) else WZero)
            /\ (0 < r_total_value r ->
                true_div_overflows (h_value h) (r_total_value r) = false))
         (r_all_holdings r).
Proof.
  intros H Herr.
  destruct (process_fund_success _ _ _ _ _ _ H Herr)
    as [holdings [weighted [_ [Hw [_ [-> [-> _]]]]]]].
  apply Forall_firstn. exact (add_weights_weight _ _ _ Hw).
Qed.

(** The sum of a list of integers, which [sum_values] computes from the
    left. *)
Lemma sum_values_fold l acc :
  fold_left (fun a h => a + h_value h) l acc
  = acc + fold_right Z.add 0 (map h_value l).
Proof.
  revert acc. induction l as [| h l IH]; intros acc; cbn; [lia |].
  rewrite IH. lia.
Qed.

Lemma sum_values_map l :
  sum_values l = fold_right Z.add 0 (map h_value l).
Proof. unfold sum_values. rewrite sum_values_fold. lia. Qed.

Lemma sum_Permutation (l l' : list Z) :
  Permutation l l' -> fold_right Z.add 0 l = fold_right Z.add 0 l'.
Proof. induction 1; cbn; lia. Qed.

(** X20. In a result without error that counts at most 50 holdings,
    [total_value] is the sum of the values of [all_holdings]. *)
Theorem process_fund_total_of_all E cik info t r t' :
  process_fund E cik info t = (Ret r, t') ->
  r_error r = None ->
  r_num_holdings r <= 50 ->
  r_total_value r = sum_values (r_all_holdings r).
Proof.
  intros H Herr Hnum.
  destruct (process_fund_success _ _ _ _ _ _ H Herr)
    as [holdings [weighted [_ [Hw [_ [Hall [Htot Hn]]]]]]].
  rewrite Htot, Hall.
  pose proof (add_weights_length _ _ _ Hw) as Hlen.
  rewrite stable_sort_length in Hlen.
  rewrite firstn_all2 by lia.
  rewrite !sum_values_map, (add_weights_values _ _ _ Hw).
  apply sum_Permutation, Permutation_map, Permutation_sym,
    stable_sort_Permutation.
Qed.

(** X21. Whatever happens on the way, the result of [process_fund]
    carries the CIK and the registry entry of the call, and as
    [fetched_at] the time at which the call started. *)
Theorem process_fund_metadata E cik info t r t' :
  process_fund E cik info t = (Ret r, t') ->
  r_cik r = cik /\ r_info r = info /\ r_fetched_at r = utcnow_iso E t.
Proof.
  unfold process_fund, try_except, process_steps.
  cbv beta iota delta [bind on_trace update lift ret sleep emit fst snd].
  intros H.
  destruct (get_latest_13f_url E cik t)
    as [[[[raw period] fmt] | e] t1] eqn:Hloc.
  2:{ cbv beta iota in H. apply pair_ret_inv in H as [<- _].
      repeat split. }
  run_steps H; apply pair_ret_inv in H as [<- _]; repeat split.
Qed.

(** X22. When the filing history lists no 13F form, [process_fund]
    returns the initial result with the error No 13F filing found, and has
    made no request and no pause beyond the fetch of the history. *)
Theorem process_fund_no_filing
  E cik info t body t1 data (forms : list json)
  (accessions dates report_dates : json) :
  fetch_url E (submissions_url cik) default_max_retries t = (Ret body, t1) ->
  json_loads E body = inr data ->
  recent_arrays data = Ret (JArr forms, accessions, dates, report_dates) ->
  Forall (fun f => is_13f f = false) forms ->
  process_fund E cik info t
  = (Ret (set_error "No 13F filing found"
            (initial_result cik info (utcnow_iso E t))), t1).
Proof.
  intros Hfetch Hloads Harr Hnone.
  assert (Hloc : get_latest_13f_url E cik t
                 = (Ret (EmptyString, JStr EmptyString, EmptyString), t1)).
  { unfold get_latest_13f_url, bind, lift. rewrite Hfetch.
    unfold loads. rewrite Hloads. cbn [obind].
    unfold latest_13f_in. rewrite Harr. cbn [obind py_iter].
    now rewrite scan_forms_none. }
  unfold process_fund, try_except, process_steps.
  cbv beta iota delta [bind on_trace update lift ret sleep emit fst snd].
  rewrite Hloc. reflexivity.
Qed.

(** ** OverlapAnalyzer: what a record sums up *)

Lemma assoc_None {V} key (m : list (string * V)) :
  assoc key m = None <-> ~ In key (map fst m).
Proof.
  induction m as [| [k v] m IH]; cbn; [tauto |].
  destruct (String.eqb k key) eqn:Hk.
  - apply String.eqb_eq in Hk. split; [discriminate | tauto].
  - apply String.eqb_neq in Hk. rewrite IH. tauto.
Qed.

Lemma map_fst_adjust key f m : map fst (adjust key f m) = map fst m.
Proof.
  induction m as [| [k v] m IH]; [reflexivity |].
  cbn [adjust]. destruct (String.eqb k key); cbn; [reflexivity |].
  now rewrite IH.
Qed.

Lemma filter_snoc {A} (p : A -> bool) l x :
  filter p (l ++ [x])%list = (filter p l ++ if p x then [x] else [])%list.
Proof. rewrite filter_app. cbn. now destruct (p x). Qed.

(** Changing the entry of one key, in a map whose keys are distinct. *)
Lemma adjust_Forall (Q Q' : string * stock -> Prop) key f m :
  NoDup (map fst m) ->
  Forall Q m ->
  (forall v, Q (key, v) -> Q' (key, f v)) ->
  (forall k v, k <> key -> Q (k, v) -> Q' (k, v)) ->
  Forall Q' (adjust key f m).
Proof.
  intros Hnd Hall Hkey Hother.
  induction m as [| [k v] m IH]; cbn [adjust]; [constructor |].
  inversion Hnd as [| ? ? Hnotin Hnd']; subst.
  inversion Hall as [| ? ? Hkv Hall']; subst.
  destruct (String.eqb k key) eqn:Hk.
  - apply String.eqb_eq in Hk. subst k. constructor; [now apply Hkey |].
    apply Forall_forall. intros [k' v'] Hin.
    rewrite Forall_forall in Hall'. apply Hother; [| now apply Hall'].
    intros ->. apply Hnotin. apply in_map_iff. now exists (key, v').
  - apply String.eqb_neq in Hk. constructor; [now apply Hother |].
    now apply IH.
Qed.

Lemma records_other L x k v :
  lists k x = false -> records L (k, v) -> records (L ++ [x])%list (k, v).
Proof.
  unfold records. cbn [fst snd]. intros Hx H.
  now rewrite filter_snoc, Hx, app_nil_r.
Qed.

Lemma sum_snoc (l : list Z) z :
  fold_right Z.add 0 (l ++ [z])%list = fold_right Z.add 0 l + z.
Proof. induction l as [| a l IH]; cbn; lia. Qed.

Lemma summed_step L m fund h :
  summed L m ->
  summed (L ++ [(fund, h)])%list (note_holding fund m h).
Proof.
  intros [Hnd [Hkeys Hrec]]. unfold note_holding.
  destruct (Py.truthy (h_cusip h)) eqn:Ht; cbn [negb].
  - (* a line with an identifier *)
    set (c := h_cusip h) in *.
    assert (Hc : c <> EmptyString).
    { unfold Py.truthy in Ht. now apply negb_true_iff, String.eqb_neq in Ht. }
    set (m0 := match assoc c m with
               | Some _ => m
               | None => (m ++ [(c, new_stock (h_name h) c)])%list
               end).
    assert (Hkeys0 : In c (map fst m0)).
    { unfold m0. destruct (assoc c m) eqn:Ha.
      - destruct (in_dec string_dec c (map fst m)) as [Hin | Hout];
          [exact Hin |].
        apply assoc_None in Hout. congruence.
      - rewrite map_app. apply in_or_app. right. now left. }
    assert (Hnd0 : NoDup (map fst m0)).
    { unfold m0. destruct (assoc c m) eqn:Ha; [exact Hnd |].
      rewrite map_app. cbn [map fst].
      apply assoc_None in Ha.
      apply NoDup_app; [exact Hnd | repeat constructor; intros [] |].
      intros k Hin [<- | []]. contradiction. }
    assert (Hincl : forall k, In k (map fst m) -> In k (map fst m0)).
    { unfold m0. intros k Hk. destruct (assoc c m); [exact Hk |].
      rewrite map_app. apply in_or_app. now left. }
    split; [now rewrite map_fst_adjust |]. split.
    + intros x Hx Hxt. rewrite map_fst_adjust.
      apply in_app_or in Hx as [Hx | [<- | []]].
      * apply Hincl. now apply Hkeys.
      * cbn [snd]. exact Hkeys0.
    + (* the entries *)
      assert (Hrec0 : Forall (fun kv =>
                  (fst kv <> c -> records L kv)
                  /\ (fst kv = c ->
                      fst kv <> EmptyString
                      /\ s_cusip (snd kv) = c
                      /\ s_funds (snd kv)
                         = map holder_of_line (filter (lists c) L)
                      /\ s_total_value (snd kv)
                         = fold_right Z.add 0
                             (map (fun l => h_value (snd l))
                                (filter (lists c) L))
                      /\ (filter (lists c) L = [] -> s_name (snd kv) = h_name h)
                      /\ (filter (lists c) L <> [] ->
                          exists first rest,
                            filter (lists c) L = first :: rest
                            /\ s_name (snd kv) = h_name (snd first)))) m0).
      { assert (Hold : Forall (fun kv =>
                  (fst kv <> c -> records L kv)
                  /\ (fst kv = c ->
                      fst kv <> EmptyString
                      /\ s_cusip (snd kv) = c
                      /\ s_funds (snd kv)
                         = map holder_of_line (filter (lists c) L)
                      /\ s_total_value (snd kv)
                         = fold_right Z.add 0
                             (map (fun l => h_value (snd l))
                                (filter (lists c) L))
                      /\ (filter (lists c) L = [] -> s_name (snd kv) = h_name h)
                      /\ (filter (lists c) L <> [] ->
                          exists first rest,
                            filter (lists c) L = first :: rest
                            /\ s_name (snd kv) = h_name (snd first)))) m).
        { apply Forall_forall. intros [k v] Hin.
          rewrite Forall_forall in Hrec. specialize (Hrec _ Hin).
          split; [intros _; exact Hrec |].
          cbn [fst snd]. intros ->.
          destruct Hrec as [Hk [Hcu [Hf [Htot [first [rest [Hls Hn]]]]]]].
          cbn [fst snd] in *.
          repeat split; try assumption.
          - intros Hnil. rewrite Hnil in Hls. discriminate.
          - intros _. eauto. }
        unfold m0. destruct (assoc c m) eqn:Ha; [exact Hold |].
        apply Forall_app. split; [exact Hold |].
        constructor; [| constructor]. cbn [fst snd new_stock s_cusip s_funds
                                            s_total_value s_name].
        split; [intros Hne; now destruct Hne |]. intros _.
        assert (Hnone : filter (lists c) L = []).
        { apply assoc_None in Ha.
          destruct (filter (lists c) L) as [| x rest] eqn:Hf; [reflexivity |].
          exfalso. apply Ha.
          assert (Hx : In x (filter (lists c) L)) by (rewrite Hf; now left).
          apply filter_In in Hx as [HxL Hxc]. unfold lists in Hxc.
          apply String.eqb_eq in Hxc. rewrite <- Hxc.
          apply Hkeys; [exact HxL |]. rewrite Hxc. exact Ht. }
        rewrite Hnone. repeat split; try assumption. now intros []. }
      apply (adjust_Forall _ _ c _ m0 Hnd0 Hrec0).
      * intros v [_ Hv]. specialize (Hv eq_refl).
        cbn [fst snd] in Hv.
        destruct Hv as [Hk [Hcu [Hf [Htot [Hn0 Hn1]]]]].
        unfold records. cbn [fst snd add_holder s_cusip s_funds
                               s_total_value s_name].
        assert (Hl : lists c (fund, h) = true)
          by (unfold lists; cbn [snd]; apply String.eqb_refl).
        rewrite filter_snoc, Hl, !map_app. cbn [map].
        rewrite sum_snoc, Hf, Htot.
        repeat split; try assumption.
        destruct (filter (lists c) L) as [| first rest] eqn:Hls.
        -- exists (fund, h), []. split; [reflexivity |]. now apply Hn0.
        -- destruct Hn1 as [f1 [r1 [Heq Hname]]]; [discriminate |].
           injection Heq as <- <-.
           exists first, (rest ++ [(fund, h)])%list. split; [reflexivity |].
           exact Hname.
      * intros k v Hk [Hv _]. cbn [fst] in Hv.
        apply records_other; [| now apply Hv].
        unfold lists. cbn [snd]. fold c.
        apply String.eqb_neq. congruence.
  - (* a line without identifier *)
    split; [exact Hnd |]. split.
    + intros x Hx Hxt.
      apply in_app_or in Hx as [Hx | [<- | []]]; [now apply Hkeys |].
      cbn [snd] in Hxt. congruence.
    + apply Forall_forall. intros [k v] Hin.
      rewrite Forall_forall in Hrec. specialize (Hrec _ Hin).
      apply records_other; [| exact Hrec].
      unfold lists. cbn [snd]. unfold Py.truthy in Ht.
      apply negb_false_iff, String.eqb_eq in Ht. rewrite Ht.
      destruct Hrec as [Hk _]. cbn [fst] in Hk.
      apply String.eqb_neq. congruence.
Qed.

Lemma summed_fold lines0 L m :
  summed L m ->
  summed (L ++ lines0)%list
    (fold_left (fun m l => note_holding (fst l) m (snd l)) lines0 m).
Proof.
  revert L m. induction lines0 as [| [fund h] rest IH]; intros L m H.
  - now rewrite app_nil_r.
  - cbn [fold_left fst snd].
    replace (L ++ (fund, h) :: rest)%list
      with ((L ++ [(fund, h)]) ++ rest)%list
      by (now rewrite <- app_assoc).
    apply IH. now apply summed_step.
Qed.

(** The loop over the funds is the loop over their lines. *)
Lemma note_funds_lines all_funds m :
  fold_left note_fund all_funds m
  = fold_left (fun m l => note_holding (fst l) m (snd l)) (lines all_funds) m.
Proof.
  revert m. induction all_funds as [| fund rest IH]; intros m;
    [reflexivity |].
  cbn [fold_left]. unfold lines. cbn [flat_map]. fold (lines rest).
  rewrite fold_left_app, IH. f_equal.
  unfold note_fund. destruct (has_error fund); [reflexivity |].
  generalize (r_all_holdings fund) m. clear.
  induction l as [| h l IHl]; intros m; [reflexivity |].
  cbn [map fold_left fst snd]. apply IHl.
Qed.

Lemma stock_funds_summed all_funds :
  summed (lines all_funds) (fold_left note_fund all_funds []).
Proof.
  rewrite note_funds_lines.
  apply (summed_fold (lines all_funds) [] []).
  repeat split; [constructor | intros x [] | constructor].
Qed.

(** What is emitted comes from a shared entry of the map. *)
Lemma find_cross_fund_overlap_In all_funds v :
  In v (find_cross_fund_overlap all_funds) ->
  exists k u,
    In (k, u) (fold_left note_fund all_funds [])
    /\ shared u = true /\ v = counted u.
Proof.
  unfold find_cross_fund_overlap. intros Hv.
  apply In_firstn, stable_sort_In, in_map_iff in Hv.
  destruct Hv as [u [<- [Hin Hs]%filter_In]].
  apply in_map_iff in Hin as [[k u'] [<- Hin]].
  exists k, u'. auto.
Qed.

(** X24. Every record the analysis emits sums up all the holding lines
    of its CUSIP among the funds without error: one holder per line, in
    the order of the funds and of their holdings; the total of the values
    of these lines; the name of the first line; at least two lines; and a
    CUSIP that is not empty. *)
Theorem find_cross_fund_overlap_records all_funds v :
  In v (find_cross_fund_overlap all_funds) ->
  s_cusip v <> EmptyString
  /\ s_funds v = map holder_of_line (lines_of (s_cusip v) all_funds)
  /\ s_total_value v
     = fold_right Z.add 0
         (map (fun l => h_value (snd l)) (lines_of (s_cusip v) all_funds))
  /\ (2 <= List.length (lines_of (s_cusip v) all_funds))%nat
  /\ exists first rest,
       lines_of (s_cusip v) all_funds = first :: rest
       /\ s_name v = h_name (snd first).
Proof.
  intros Hv.
  apply find_cross_fund_overlap_In in Hv as [k [u [Hin [Hs ->]]]].
  destruct (stock_funds_summed all_funds) as [_ [_ Hrec]].
  rewrite Forall_forall in Hrec. specialize (Hrec _ Hin).
  destruct Hrec as [Hk [Hcu [Hf [Htot Hname]]]]. cbn [fst snd] in *.
  unfold lines_of. cbn [counted s_cusip s_funds s_total_value s_name].
  rewrite Hcu. repeat split; try assumption.
  unfold shared in Hs. apply Z.leb_le in Hs.
  rewrite Hf, length_map in Hs. lia.
Qed.

Lemma NoDup_map_filter {A B} (g : A -> B) p l :
  NoDup (map g l) -> NoDup (map g (filter p l)).
Proof.
  induction l as [| x l IH]; cbn; [auto |].
  intros H. inversion H as [| ? ? Hx Hl]; subst.
  destruct (p x); [| now apply IH]. cbn. constructor; [| now apply IH].
  intros Hin. apply Hx. apply in_map_iff in Hin as [y [Hy Hin]].
  apply filter_In in Hin as [Hin _]. apply in_map_iff. eauto.
Qed.

Lemma NoDup_firstn {A} n (l : list A) : NoDup l -> NoDup (firstn n l).
Proof.
  intros H. rewrite <- (firstn_skipn n l) in H.
  now apply NoDup_app_remove_r in H.
Qed.

(** X25. No two records of the analysis have the same CUSIP. *)
Theorem find_cross_fund_overlap_distinct all_funds :
  NoDup (map s_cusip (find_cross_fund_overlap all_funds)).
Proof.
  unfold find_cross_fund_overlap.
  destruct (stock_funds_summed all_funds) as [Hnd [_ Hrec]].
  set (m := fold_left note_fund all_funds []) in *.
  rewrite <- firstn_map. apply NoDup_firstn.
  apply (Permutation_NoDup
           (l := map s_cusip (map counted (filter shared (map snd m))))).
  { apply Permutation_map, Permutation_sym, stable_sort_Permutation. }
  rewrite map_map. cbn [counted s_cusip].
  apply NoDup_map_filter.
  rewrite map_map.
  replace (map (fun x => s_cusip (snd x)) m) with (map fst m); [exact Hnd |].
  apply map_ext_in. intros kv Hin.
  rewrite Forall_forall in Hrec. destruct (Hrec _ Hin) as [_ [Hcu _]].
  now rewrite Hcu.
Qed.

(** X26. A CUSIP that is not empty and stands on at least two holding
    lines of funds without error has a record in the output, unless the
    output is full with its 30 records. *)
Theorem find_cross_fund_overlap_complete all_funds cusip :
  cusip <> EmptyString ->
  (2 <= List.length (lines_of cusip all_funds))%nat ->
  (exists v, In v (find_cross_fund_overlap all_funds) /\ s_cusip v = cusip)
  \/ List.length (find_cross_fund_overlap all_funds) = 30%nat.
Proof.
  intros Hc Hlen.
  destruct (stock_funds_summed all_funds) as [_ [Hkeys Hrec]].
  set (m := fold_left note_fund all_funds []) in *.
  assert (Hkey : In cusip (map fst m)).
  { unfold lines_of in Hlen.
    destruct (filter (lists cusip) (lines all_funds)) as [| x rest] eqn:Hf;
      [cbn in Hlen; lia |].
    assert (Hx : In x (filter (lists cusip) (lines all_funds)))
      by (rewrite Hf; now left).
    apply filter_In in Hx as [HxL Hxc]. unfold lists in Hxc.
    apply String.eqb_eq in Hxc. rewrite <- Hxc. apply Hkeys; [exact HxL |].
    unfold Py.truthy. rewrite Hxc. now apply negb_true_iff, String.eqb_neq. }
  apply in_map_iff in Hkey as [[k u] [Hk Hin]]. cbn [fst] in Hk. subst k.
  rewrite Forall_forall in Hrec.
  destruct (Hrec _ Hin) as [_ [Hcu [Hf _]]]. cbn [fst snd] in *.
  assert (Hshared : shared u = true).
  { unfold shared. apply Z.leb_le. rewrite Hf, length_map.
    unfold lines_of in Hlen. lia. }
  assert (Hsorted : In (counted u)
            (stable_sort by_overlap_key
               (map counted (filter shared (map snd m))))).
  { apply stable_sort_In, in_map, filter_In. split; [| exact Hshared].
    apply in_map_iff. now exists (cusip, u). }
  unfold find_cross_fund_overlap. fold m.
  set (sorted := stable_sort by_overlap_key
                   (map counted (filter shared (map snd m)))) in *.
  destruct (Nat.le_gt_cases (List.length sorted) 30) as [Hle | Hgt].
  - left. exists (counted u). rewrite firstn_all2 by exact Hle.
    split; [exact Hsorted | exact Hcu].
  - right. apply firstn_length_le. lia.
Qed.

(** X27. A fund with an error, or with no stored holdings, does not
    count: the analysis of the list without it is the same. *)
Theorem find_cross_fund_overlap_ignores before fund after :
  has_error fund = true \/ r_all_holdings fund = [] ->
  find_cross_fund_overlap (before ++ fund :: after)%list
  = find_cross_fund_overlap (before ++ after)%list.
Proof.
  intros H. unfold find_cross_fund_overlap.
  rewrite !fold_left_app. cbn [fold_left].
  replace (note_fund (fold_left note_fund before []) fund)
    with (fold_left note_fund before []); [reflexivity |].
  unfold note_fund. destruct H as [-> | ->]; [reflexivity |].
  now destruct (has_error fund).
Qed.

(** ** What a fund costs, and the run over the registry *)

Lemma get_latest_13f_url_cost E cik t :
  exists rest,
    snd (get_latest_13f_url E cik t)
    = (t ++ EvOpen (submissions_url cik) :: rest)%list
    /\ costs_at_most 1 (EvOpen (submissions_url cik) :: rest).
Proof.
  unfold get_latest_13f_url, bind, lift.
  destruct (fetch_url_cost E (submissions_url cik) t) as [d [Hd Hc]].
  destruct (fetch_url_opens_first E (submissions_url cik) t)
    as [rest [Hrest _]].
  rewrite Hd in Hrest. apply app_inv_head in Hrest. subst d.
  destruct (fetch_url E (submissions_url cik) default_max_retries t)
    as [[body | e] t1]; cbn [snd] in Hd; subst t1; exists rest;
    (split; [reflexivity | exact Hc]).
Qed.

Lemma find_info_table_url_fetches E cik raw fmt t :
  exists d,
    snd (find_info_table_url E cik raw fmt t) = (t ++ d)%list
    /\ costs_at_most 8 d.
Proof.
  unfold find_info_table_url, bind, ret.
  destruct (index_json_method_cost E cik raw fmt t) as [d1 [Hd1 Hc1]].
  destruct (index_json_method E cik raw fmt t)
    as [[[url |] | e] t1]; cbn [snd] in Hd1; subst t1;
    try (exists d1; split; [reflexivity |];
         apply (costs_more 1); [lia | exact Hc1]).
  destruct (index_html_method_cost E cik raw fmt (t ++ d1)%list)
    as [d2 [Hd2 Hc2]].
  destruct (index_html_method E cik raw fmt (t ++ d1)%list)
    as [[[url |] | e] t2]; cbn [snd] in Hd2; subst t2;
    try (exists (d1 ++ d2)%list; rewrite app_assoc;
         split; [reflexivity |];
         apply (costs_more (1 + 1)); [lia | now apply costs_app]).
  destruct (probe_names_cost E (base_url_of cik raw) common_names
              ((t ++ d1) ++ d2)%list) as [d3 [Hd3 Hc3]].
  exists (d1 ++ d2 ++ d3)%list. rewrite Hd3, !app_assoc.
  split; [reflexivity |].
  change 8%nat with (1 + (1 + List.length common_names))%nat.
  rewrite <- app_assoc. apply costs_app; [exact Hc1 |].
  now apply costs_app.
Qed.

(** What [process_fund] adds to the trace: at most ten fetches, and its
    own two pauses of 150 ms. *)
Lemma process_fund_trace E cik info t :
  exists d,
    snd (process_fund E cik info t)
    = (t ++ EvOpen (submissions_url cik) :: d)%list
    /\ (List.length (opens d) <= 29)%nat
    /\ 0 <= sleep_total d <= 720300.
Proof.
  destruct (process_fund E cik info t) as [o t'] eqn:H. cbn [snd].
  revert H. unfold process_fund, try_except, process_steps.
  cbv beta iota delta [bind on_trace update lift ret sleep emit fst snd].
  destruct (get_latest_13f_url_cost E cik t) as [r1 [Hd1 [Ho1 Hs1]]].
  cbn [opens List.length sleep_total] in Ho1, Hs1.
  set (d1 := EvOpen (submissions_url cik) :: r1) in *.
  destruct (get_latest_13f_url E cik t)
    as [[[[raw period] fmt] | e] t1] eqn:Hloc; cbn [snd] in Hd1; subst t1.
  2:{ cbv beta iota. intros [= _ <-]. exists r1. split; [reflexivity | lia]. }
  cbv beta iota.
  destruct (Py.truthy raw); cbn [negb].
  2:{ intros [= _ <-]. exists r1. split; [reflexivity | lia]. }
  destruct (find_info_table_url_fetches E cik raw fmt
              ((t ++ d1) ++ [EvSleep 150])%list) as [d2 [Hd2 [Ho2 Hs2]]].
  destruct (find_info_table_url E cik raw fmt ((t ++ d1) ++ [EvSleep 150])%list)
    as [[xml_url | e] t2]; cbn [snd] in Hd2; subst t2.
  2:{ cbv beta iota. intros [= _ <-].
      exists (r1 ++ EvSleep 150 :: d2)%list. unfold d1.
      rewrite <- !app_assoc. cbn [app]. split; [reflexivity |].
      rewrite opens_app, length_app, sleep_total_app.
      cbn [opens sleep_total]. lia. }
  cbv beta iota.
  destruct (Py.truthy xml_url); cbn [negb].
  2:{ intros [= _ <-].
      exists (r1 ++ EvSleep 150 :: d2)%list. unfold d1.
      rewrite <- !app_assoc. cbn [app]. split; [reflexivity |].
      rewrite opens_app, length_app, sleep_total_app.
      cbn [opens sleep_total]. lia. }
  destruct (fetch_url_cost E xml_url
              ((((t ++ d1) ++ [EvSleep 150]) ++ d2) ++ [EvSleep 150])%list)
    as [d3 [Hd3 [Ho3 Hs3]]].
  assert (Hend : forall o0 t0,
            t0 = ((((t ++ d1) ++ [EvSleep 150]) ++ d2) ++ [EvSleep 150]
                  ++ d3)%list ->
            (o0, t0) = (o, t') ->
            exists d,
              t' = (t ++ EvOpen (submissions_url cik) :: d)%list
              /\ (List.length (opens d) <= 29)%nat
              /\ 0 <= sleep_total d <= 720300).
  { intros o0 t0 -> [= _ <-].
    exists (r1 ++ EvSleep 150 :: d2 ++ EvSleep 150 :: d3)%list. unfold d1.
    rewrite <- !app_assoc. cbn [app]. split; [reflexivity |].
    rewrite opens_app, length_app, sleep_total_app.
    cbn [opens sleep_total].
    rewrite opens_app, length_app, sleep_total_app.
    cbn [opens sleep_total]. lia. }
  destruct (fetch_url E xml_url default_max_retries
              ((((t ++ d1) ++ [EvSleep 150]) ++ d2) ++ [EvSleep 150])%list)
    as [[xml_data | e] t3]; cbn [snd] in Hd3; subst t3;
    rewrite <- (app_assoc _ [EvSleep 150] d3).
  2:{ cbv beta iota. intros H. eapply Hend; [reflexivity | exact H]. }
  cbv beta iota.
  destruct (parse_13f_xml E xml_data) as [[| h hs] | e].
  - intros H. eapply Hend; [reflexivity | exact H].
  - destruct (add_weights _ _) as [weighted | e]; cbv beta iota.
    + destruct (String.eqb (fi_group info) "C"); cbv beta iota;
        destruct (format_total _); intros H;
        (eapply Hend; [reflexivity | exact H]).
    + intros H. eapply Hend; [reflexivity | exact H].
  - intros H. eapply Hend; [reflexivity | exact H].
Qed.

(** X23. Processing one fund always comes back; it starts with the request
    of the filing history and makes at most ten fetches, that is at most
    30 requests and 720.3 seconds of sleep. *)
Theorem process_fund_cost E cik info t :
  exists d,
    snd (process_fund E cik info t) = (t ++ d)%list
    /\ (1 <= List.length (opens d) <= 30)%nat
    /\ 0 <= sleep_total d <= 720300
    /\ exists rest, d = EvOpen (submissions_url cik) :: rest.
Proof.
  destruct (process_fund_trace E cik info t) as [rest [Hd [Ho Hs]]].
  exists (EvOpen (submissions_url cik) :: rest).
  cbn [opens List.length sleep_total].
  split; [exact Hd |]. split; [lia |]. split; [lia |]. eauto.
Qed.

(** The result carries the identifier and the registry entry it was asked
    for. *)
Lemma process_fund_identity E cik info t r t' :
  process_fund E cik info t = (Ret r, t') ->
  r_cik r = cik /\ r_info r = info.
Proof.
  unfold process_fund, try_except, process_steps.
  cbv beta iota delta [bind on_trace update lift ret sleep emit fst snd].
  intros H.
  destruct (get_latest_13f_url E cik t)
    as [[[[raw period] fmt] | e] t1] eqn:Hloc.
  2:{ cbv beta iota in H. apply pair_ret_inv in H as [<- _]. split; reflexivity. }
  run_steps H; apply pair_ret_inv in H as [<- _]; split; reflexivity.
Qed.

Section Run.

Variable E : Env.

Lemma process_entry_adds results cik info t :
  exists r d,
    process_entry E results cik info t
    = (Ret (results ++ [Processed r])%list, (t ++ d ++ [EvSleep 500])%list)
    /\ process_fund E cik info t = (Ret r, (t ++ d)%list)
    /\ (List.length (opens d) <= 30)%nat
    /\ 0 <= sleep_total d <= 720300.
Proof.
  destruct (process_fund_never_raises E cik info t) as [r [t' Hrun]].
  destruct (process_fund_trace E cik info t) as [rest [Hd [Ho Hs]]].
  rewrite Hrun in Hd. cbn [snd] in Hd. subst t'.
  exists r, (EvOpen (submissions_url cik) :: rest).
  unfold process_entry, try_except, bind, sleep, emit, ret.
  rewrite Hrun. cbn [opens List.length sleep_total].
  split; [now rewrite app_assoc |]. split; [reflexivity |]. lia.
Qed.

(** The loop over the registry: one processed result per entry, in the
    order of the registry, each followed by a pause of half a second. *)
Lemma process_all_adds funds results t :
  exists rs d,
    process_all E funds results t
    = (Ret (results ++ map Processed rs)%list, (t ++ d)%list)
    /\ Forall2 (fun kv r => r_cik r = fst kv /\ r_info r = snd kv) funds rs
    /\ (List.length (opens d) <= 30 * List.length funds)%nat
    /\ 500 * Z.of_nat (List.length funds) <= sleep_total d
       <= 720800 * Z.of_nat (List.length funds).
Proof.
  revert results t. induction funds as [| [cik info] rest IH];
    intros results t.
  - exists [], []. cbn. rewrite !app_nil_r.
    repeat split; [constructor | lia | lia | lia].
  - cbn [process_all]. unfold bind at 1.
    destruct (process_entry_adds results cik info t)
      as [r [d [Hrun [Hfund [Ho Hs]]]]].
    rewrite Hrun.
    destruct (IH (results ++ [Processed r])%list
                (t ++ d ++ [EvSleep 500])%list)
      as [rs [d' [Hrest [Hall [Ho' Hs']]]]].
    exists (r :: rs), (d ++ EvSleep 500 :: d')%list.
    rewrite Hrest. split.
    { cbn [map]. rewrite <- !app_assoc. reflexivity. }
    split.
    { constructor; [| exact Hall].
      cbn [fst snd]. eapply process_fund_identity. exact Hfund. }
    rewrite opens_app, length_app, sleep_total_app.
    cbn [opens sleep_total List.length].
    split; [lia |]. lia.
Qed.

End Run.

Lemma map_as_fund_processed rs : map as_fund (map Processed rs) = rs.
Proof. rewrite map_map. cbn [as_fund]. apply map_id. Qed.

(** X28. The run over the registry ends with one result per registry
    entry, in the order of the registry, each a result of [process_fund]
    that carries the CIK and the entry: since [process_fund] does not raise
    (console output left aside), the handler of the loop never steps in.
    [num_funds] is the size of the registry, the overlap is computed from
    these results, and the successes are the results without error. *)
Theorem main_output_one_per_fund E (funds : list (string * fund_info)) t :
  exists rs out t',
    main_output E funds t = (Ret out, t')
    /\ o_funds out = map Processed rs
    /\ Forall2 (fun kv r => r_cik r = fst kv /\ r_info r = snd kv) funds rs
    /\ o_num_funds out = Z.of_nat (List.length funds)
    /\ o_cross_fund_overlap out = find_cross_fund_overlap rs
    /\ successes (o_funds out)
       = Z.of_nat
           (List.length (filter (fun r => negb (has_error r)) rs)).
Proof.
  destruct (process_all_adds E funds [] t) as [rs [d [Hrun [Hall _]]]].
  cbn [app] in Hrun.
  exists rs. eexists. eexists.
  unfold main_output, bind. rewrite Hrun.
  split; [reflexivity |].
  cbn [o_funds o_num_funds o_cross_fund_overlap].
  rewrite map_as_fund_processed, length_map.
  split; [reflexivity |]. split; [exact Hall |].
  split; [now rewrite (Forall2_length Hall) |].
  split; [reflexivity |].
  unfold successes. f_equal.
  clear. induction rs as [| r rs IH]; [reflexivity |].
  cbn [map filter as_fund]. destruct (negb (has_error r)); cbn [List.length];
    now rewrite IH.
Qed.

(** X29. The whole run makes at most 30 requests for each registry entry,
    and sleeps at least half a second and at most 720.8 seconds for each. *)
Theorem main_output_pacing E (funds : list (string * fund_info)) t :
  exists out d,
    main_output E funds t = (Ret out, (t ++ d)%list)
    /\ (List.length (opens d) <= 30 * List.length funds)%nat
    /\ 500 * Z.of_nat (List.length funds) <= sleep_total d
       <= 720800 * Z.of_nat (List.length funds).
Proof.
  destruct (process_all_adds E funds [] t) as [rs [d [Hrun [_ Hcost]]]].
  eexists. exists d. unfold main_output, bind. rewrite Hrun.
  split; [reflexivity | exact Hcost].
Qed.

(** ** The further properties at work on the sample data *)

Lemma sample_run :
  process_fund (serving sample_submissions sample_table) "1423053" citadel []
  = (Ret sample_fund, sample_trace).
Proof. vm_compute. reflexivity. Qed.

Lemma fetch_url_never_raises_429_witness :
  (exists t0,
     read_response not_found t0 "https://www.sec.gov/"
     = Raise (Exn (HTTPError 404) "HTTP Error 404: Not Found"))
  /\ exn_class_of (Exn (HTTPError 404) "HTTP Error 404: Not Found")
     <> HTTPError 429.
Proof.
  apply (fetch_url_never_raises_429 not_found "https://www.sec.gov/"
           default_max_retries []
           (Exn (HTTPError 404) "HTTP Error 404: Not Found")
           [EvOpen "https://www.sec.gov/"]).
  reflexivity.
Defined.

Lemma fetch_url_returns_served_body_witness :
  exists t0 body,
    urlopen (serving sample_submissions sample_table) t0
      (submissions_url "1423053") = RespData body
    /\ (if String.eqb (Py.take 2 body) gzip_magic
        then gzip_decompress (serving sample_submissions sample_table) body
             = inr "submissions"
        else "submissions" = body).
Proof.
  apply (fetch_url_returns_served_body
           (serving sample_submissions sample_table)
           (submissions_url "1423053") default_max_retries []
           "submissions" [EvOpen (submissions_url "1423053")]).
  - reflexivity.
  - discriminate.
Defined.

Lemma get_latest_13f_url_accession_pair_witness :
  "000095012325008343" = Py.remove_char "-" "0000950123-25-008343"
  /\ Py.contains "-" "000095012325008343" = false
  /\ (Py.contains "-" "0000950123-25-008343" = false ->
      "000095012325008343" = "0000950123-25-008343").
Proof.
  apply (get_latest_13f_url_accession_pair
           (serving sample_submissions sample_table) "1423053" []
           "000095012325008343" (JStr "2024-12-31") "0000950123-25-008343"
           [EvOpen (submissions_url "1423053")]).
  reflexivity.
Defined.

Lemma latest_13f_in_missing_keys_witness :
  latest_13f_in (JObj [("cik", JStr "1423053")])
  = Ret (EmptyString, JStr EmptyString, EmptyString)
  /\ exists msg, latest_13f_in (JArr []) = Raise (Exn AttributeError msg).
Proof.
  split.
  - apply (proj1 (latest_13f_in_missing_keys
                    (JObj [("cik", JStr "1423053")]))
             [("cik", JStr "1423053")] eq_refl).
    left. reflexivity.
  - apply (proj2 (latest_13f_in_missing_keys (JArr []))).
    intros m. discriminate.
Defined.

Lemma latest_13f_in_short_accessions_witness :
  exists msg, latest_13f_in short_submissions = Raise (Exn IndexError msg).
Proof.
  apply (latest_13f_in_short_accessions short_submissions
           [JStr "10-K"; JStr "13F-HR"] [] (JArr []) (JArr [])
           [JStr "10-K"] [] (JStr "13F-HR")).
  - reflexivity.
  - reflexivity.
  - repeat constructor.
  - reflexivity.
  - cbn. lia.
Defined.

Lemma submissions_url_padded_witness :
  exists padded,
    submissions_url "1423053"
    = "https://data.sec.gov/submissions/CIK" ++ padded ++ ".json"
    /\ String.length padded = 10%nat
    /\ padded = Py.zeros (10 - String.length "1423053") ++ "1423053".
Proof.
  apply (submissions_url_padded "1423053"); [reflexivity | reflexivity |].
  cbn. lia.
Defined.

Lemma index_json_method_result_witness :
  exists name,
    base_url_of "1423053" "000095012325008343" ++ "form13fInfoTable.xml"
    = base_url_of "1423053" "000095012325008343" ++ name
    /\ Py.endswith ".xml" (Py.lower name) = true
    /\ (Py.contains "infotable" (Py.lower name) = true
        \/ Py.contains "primary" (Py.lower name) = false).
Proof.
  apply (index_json_method_result (serving sample_submissions sample_table)
           "1423053" "000095012325008343" "0000950123-25-008343" []
           (base_url_of "1423053" "000095012325008343"
              ++ "form13fInfoTable.xml")
           [EvOpen (index_json_url "1423053" "000095012325008343"
                      "0000950123-25-008343")]).
  reflexivity.
Defined.

Lemma index_json_method_prefers_infotable_witness :
  index_json_method (serving sample_submissions sample_table)
    "1423053" "000095012325008343" "0000950123-25-008343" []
  = (Ret (Some (base_url_of "1423053" "000095012325008343"
                  ++ "form13fInfoTable.xml")),
     [EvOpen (index_json_url "1423053" "000095012325008343"
                "0000950123-25-008343")]).
Proof.
  apply (index_json_method_prefers_infotable
           (serving sample_submissions sample_table)
           "1423053" "000095012325008343" "0000950123-25-008343" []
           "index" _ sample_index
           (JObj
              [ ("name",
                 JStr "/Archives/edgar/data/1423053/000095012325008343");
                ("item",
                 JArr [ JObj [ ("name", JStr "primary_doc.xml") ];
                        JObj [ ("name", JStr "form13fInfoTable.xml") ] ]) ])
           [JObj [("name", JStr "primary_doc.xml")]] []
           (JObj [("name", JStr "form13fInfoTable.xml")])
           "form13fInfoTable.xml");
    try reflexivity.
  constructor; [| constructor].
  exists "primary_doc.xml". split; reflexivity.
Defined.

Lemma index_json_method_gives_up_witness :
  index_json_method (serving_index odd_index)
    "1423053" "000095012325008343" "0000950123-25-008343" []
  = (Ret None,
     [EvOpen (index_json_url "1423053" "000095012325008343"
                "0000950123-25-008343")]).
Proof.
  apply (index_json_method_gives_up (serving_index odd_index)
           "1423053" "000095012325008343" "0000950123-25-008343" []
           "index" _ odd_index
           (JObj
              [ ("item",
                 JArr [ JObj [ ("name", JInt 5) ];
                        JObj [ ("name", JStr "infotable.xml") ] ]) ])
           [] [JObj [("name", JStr "infotable.xml")]]
           (JObj [("name", JInt 5)]));
    try reflexivity.
  - constructor.
  - intros nm. discriminate.
Defined.

Lemma link_target_file_name_witness :
  link_target "https://www.sec.gov/Archives/edgar/data/1/2/"
    "https://example.org/a.xml" = "https://example.org/a.xml"
  /\ (exists directory file,
        "/Archives/edgar/data/1/2/form13fInfoTable.xml" = directory ++ file
        /\ Py.contains "/" file = false
        /\ (directory = EmptyString \/ exists d, directory = d ++ "/")
        /\ link_target "https://www.sec.gov/Archives/edgar/data/1/2/"
             "/Archives/edgar/data/1/2/form13fInfoTable.xml"
           = "https://www.sec.gov/Archives/edgar/data/1/2/" ++ file)
  /\ link_target "https://www.sec.gov/Archives/edgar/data/1/2/"
       "infotable.xml"
     = "https://www.sec.gov/Archives/edgar/data/1/2/" ++ "infotable.xml".
Proof.
  split; [| split].
  - apply (proj1 (link_target_file_name
                    "https://www.sec.gov/Archives/edgar/data/1/2/"
                    "https://example.org/a.xml")).
    reflexivity.
  - apply (proj1 (proj2 (link_target_file_name
                           "https://www.sec.gov/Archives/edgar/data/1/2/"
                           "/Archives/edgar/data/1/2/form13fInfoTable.xml"))).
    reflexivity.
  - apply (proj2 (proj2 (link_target_file_name
                           "https://www.sec.gov/Archives/edgar/data/1/2/"
                           "infotable.xml")));
      reflexivity.
Defined.

Lemma find_info_table_url_result_shape_witness :
  base_url_of "1423053" "000095012325008343" ++ "form13fInfoTable.xml"
  = EmptyString
  \/ Py.startswith "http"
       (base_url_of "1423053" "000095012325008343"
          ++ "form13fInfoTable.xml") = true.
Proof.
  apply (find_info_table_url_result_shape
           (serving sample_submissions sample_table)
           "1423053" "000095012325008343" "0000950123-25-008343" []
           (base_url_of "1423053" "000095012325008343"
              ++ "form13fInfoTable.xml")
           [EvOpen (index_json_url "1423053" "000095012325008343"
                      "0000950123-25-008343")]).
  reflexivity.
Defined.

Lemma parse_root_any_namespace_witness :
  parse_root
    (qualify (clark "urn:example:holdings")
       (information_table EmptyString (sample_entries EmptyString)))
  = parse_root (information_table EmptyString (sample_entries EmptyString)).
Proof.
  apply (parse_root_any_namespace "urn:example:holdings"
           (information_table EmptyString (sample_entries EmptyString)));
    [reflexivity | discriminate | discriminate | reflexivity].
Defined.

Lemma parse_13f_xml_well_parsed_witness :
  exists holdings,
    parse_13f_xml (serving sample_submissions sample_table) "table"
    = Ret holdings
    /\ List.length holdings = 3%nat
    /\ Forall well_parsed holdings.
Proof.
  eexists. split; [vm_compute; reflexivity |]. split; [reflexivity |].
  apply (parse_13f_xml_well_parsed (serving sample_submissions sample_table)
           "table").
  vm_compute. reflexivity.
Defined.

Lemma parse_entries_all_or_nothing_witness :
  exists msg,
    parse_entries ns_patterns
      (sample_entries EmptyString ++ odd_entry :: sample_entries EmptyString)
      []
    = Raise (Exn ValueError msg).
Proof.
  apply (parse_entries_all_or_nothing ns_patterns
           [ns_document; ns_thirteenf;
            "{http://www.sec.gov/edgar/common/informationtable}"]
           [] EmptyString "ODD CORP" odd_entry
           (sample_entries EmptyString) (sample_entries EmptyString) []);
    try reflexivity.
  - intros ns0 H. left.
    repeat (destruct H as [<- | H]; [reflexivity |]). destruct H.
  - discriminate.
  - repeat constructor; eexists; reflexivity.
Defined.

Lemma process_fund_success_counts_witness :
  r_top_holdings sample_fund <> []
  /\ (List.length (r_top_holdings sample_fund)
      <= List.length (r_all_holdings sample_fund))%nat
  /\ Z.of_nat (List.length (r_all_holdings sample_fund))
     <= r_num_holdings sample_fund
  /\ (r_num_holdings sample_fund <= 50 ->
      Z.of_nat (List.length (r_all_holdings sample_fund))
      = r_num_holdings sample_fund).
Proof.
  apply (process_fund_success_counts
           (serving sample_submissions sample_table) "1423053" citadel []
           sample_fund sample_trace sample_run).
  reflexivity.
Defined.

Lemma process_fund_weights_witness :
  Forall (fun h =>
            h_weight h
            = Some (if 0 <? r_total_value sample_fund
                    then WPct (h_value h) (r_total_value sample_fund)
                    else WZero)
            /\ (0 < r_total_value sample_fund ->
                true_div_overflows (h_value h) (r_total_value sample_fund)
                = false))
         (r_all_holdings sample_fund).
Proof.
  apply (process_fund_weights
           (serving sample_submissions sample_table) "1423053" citadel []
           sample_fund sample_trace sample_run).
  reflexivity.
Defined.

Lemma process_fund_total_of_all_witness :
  r_total_value sample_fund = sum_values (r_all_holdings sample_fund)
  /\ r_total_value sample_fund = 3734000.
Proof.
  split; [| reflexivity].
  apply (process_fund_total_of_all
           (serving sample_submissions sample_table) "1423053" citadel []
           sample_fund sample_trace sample_run);
    [reflexivity | vm_compute; discriminate].
Defined.

Lemma process_fund_metadata_witness :
  r_cik sample_fund = "1423053"
  /\ r_info sample_fund = citadel
  /\ r_fetched_at sample_fund
     = utcnow_iso (serving sample_submissions sample_table) [].
Proof.
  apply (process_fund_metadata
           (serving sample_submissions sample_table) "1423053" citadel []
           sample_fund sample_trace sample_run).
Defined.

Lemma process_fund_no_filing_witness :
  process_fund (serving (JObj []) sample_table) "1423053" citadel []
  = (Ret (set_error "No 13F filing found"
            (initial_result "1423053" citadel
               (utcnow_iso (serving (JObj []) sample_table) []))),
     [EvOpen (submissions_url "1423053")]).
Proof.
  apply (process_fund_no_filing (serving (JObj []) sample_table)
           "1423053" citadel [] "submissions" _ (JObj []) []
           (JArr []) (JArr []) (JArr []));
    try reflexivity.
  constructor.
Defined.

Lemma find_cross_fund_overlap_records_witness :
  exists v,
    In v (find_cross_fund_overlap sample_funds)
    /\ s_cusip v = "037833100"
    /\ s_funds v = map holder_of_line (lines_of (s_cusip v) sample_funds)
    /\ s_total_value v
       = fold_right Z.add 0
           (map (fun l => h_value (snd l))
              (lines_of (s_cusip v) sample_funds))
    /\ (2 <= List.length (lines_of (s_cusip v) sample_funds))%nat.
Proof.
  pose (v := nth 0 (find_cross_fund_overlap sample_funds)
               (new_stock EmptyString EmptyString)).
  assert (Hv : In v (find_cross_fund_overlap sample_funds))
    by (vm_compute; left; reflexivity).
  exists v. split; [exact Hv |]. split; [reflexivity |].
  destruct (find_cross_fund_overlap_records sample_funds v Hv)
    as (_ & Hf & Ht & Hn & _).
  split; [exact Hf |]. split; [exact Ht | exact Hn].
Defined.

Lemma find_cross_fund_overlap_complete_witness :
  (exists v,
     In v (find_cross_fund_overlap sample_funds)
     /\ s_cusip v = "594918104")
  \/ List.length (find_cross_fund_overlap sample_funds) = 30%nat.
Proof.
  apply (find_cross_fund_overlap_complete sample_funds "594918104").
  - discriminate.
  - vm_compute. apply le_n.
Defined.

Lemma find_cross_fund_overlap_ignores_witness :
  find_cross_fund_overlap ([sample_fund] ++ failed_fund :: [other_fund])%list
  = find_cross_fund_overlap ([sample_fund] ++ [other_fund])%list.
Proof.
  apply (find_cross_fund_overlap_ignores [sample_fund] failed_fund
           [other_fund]).
  left. reflexivity.
Defined.
